(** * The static-data service of cassiopeia (datastores/riotapi/staticdata.py)

    A shallow embedding of [StaticDataAPI]: query validation, the query
    fingerprint [calculate_hash], the per-list-type cache, and, for
    champions, masteries, runes, items, maps and summoner spells, the single
    [get_*], the [get_*_list] and the [get_many_*] by ids.  The operations
    on versions, realms, languages and profile icons and the [get_many] of
    the list types (one fetch per platform) touch neither the cache nor the
    records and are left out.

    Python values are the type [value]; a dict is an association list in
    insertion order.  The list objects that the service keeps in its cache
    live in a store and are passed around by reference, so that stamping a
    record of a cached list in place is seen through every reference to the
    list.  A payload is a tree: its dicts are not shared.  Numbers of the
    payload that are not integers are not represented: the service never
    looks at them. *)

From Stdlib Require Import ZArith String Ascii List Bool Lia Permutation Sorted.
From Stdlib Require Import DecimalString OrderedTypeEx.
From stdpp Require Import base list.
Import ListNotations.
Open Scope string_scope.

(** ** Platforms *)

(** Modelled from the spec: the [Platform] enumeration (cassiopeia.data,
    absent from src/).  The service reads three things of a platform: its
    value (used in URLs), the value of its region and its default locale. *)
Record Platform := {
  p_value : string;
  p_region_value : string;
  p_default_locale : string
}.

Definition Platform_eqb (p q : Platform) : bool :=
  String.eqb (p_value p) (p_value q)
  && String.eqb (p_region_value p) (p_region_value q)
  && String.eqb (p_default_locale p) (p_default_locale q).

(** ** Values *)

(** The hashable scalars. *)
Inductive atom :=
| ANone
| ABool (b : bool)
| AInt (z : Z)
| AStr (s : string)
| APlatform (p : Platform).

#[local] Set Warnings "-register-all".

(** A Python value: a scalar, a set of strings in its iteration order, a
    list, or a dict with string keys in insertion order. *)
Inductive value :=
| VAtom (a : atom)
| VSet (xs : list string)
| VList (xs : list value)
| VDict (d : list (string * value)).

Abbreviation dict := (list (string * value)).
Abbreviation VNone := (VAtom ANone).
Abbreviation VBool b := (VAtom (ABool b)).
Abbreviation VInt z := (VAtom (AInt z)).
Abbreviation VStr s := (VAtom (AStr s)).
Abbreviation VPlatform p := (VAtom (APlatform p)).

(** Exceptions. [InvalidQuery] is what the query validator raises;
    [APINotFoundError] is the transport's, the others are Python's own. *)
Inductive exn :=
| InvalidQuery
| NotFoundError (msg : string)
| APINotFoundError (msg : string)
| KeyError
| TypeError
| AttributeError
| IndexError
| ValueError (msg : string).

Inductive result (A : Type) :=
| Ok (a : A)
| Raise (e : exn).
Arguments Ok {A} a.
Arguments Raise {A} e.

Definition rbind {A B} (r : result A) (k : A -> result B) : result B :=
  match r with
  | Ok a => k a
  | Raise e => Raise e
  end.

Declare Scope result_scope.
Delimit Scope result_scope with result.
Bind Scope result_scope with result.
Notation "'let*' x ':=' r 'in' k" := (rbind r (fun x => k))
  (at level 10, x name, r at level 100, k at level 200) : result_scope.
Notation "'let*' ' p ':=' r 'in' k" := (rbind r (fun x => match x with p => k end))
  (at level 10, p pattern, r at level 100, k at level 200) : result_scope.

Fixpoint rmap {A B} (f : A -> result B) (l : list A) : result (list B) :=
  match l with
  | [] => Ok []
  | a :: l' => (let* b := f a in let* bs := rmap f l' in Ok (b :: bs))%result
  end.

(** ** Dicts *)

Fixpoint dict_get (d : dict) (k : string) : option value :=
  match d with
  | [] => None
  | (k', v) :: d' => if String.eqb k' k then Some v else dict_get d' k
  end.

(** [k in d] *)
Definition contains (k : string) (d : dict) : bool :=
  match dict_get d k with Some _ => true | None => false end.

(** [d[k] = v]: an existing key keeps its place, a new one goes last. *)
Fixpoint dict_set (d : dict) (k : string) (v : value) : dict :=
  match d with
  | [] => [(k, v)]
  | (k', v') :: d' =>
      if String.eqb k' k then (k', v) :: d' else (k', v') :: dict_set d' k v
  end.

(** [d.pop(k)] *)
Fixpoint dict_pop (d : dict) (k : string) : dict :=
  match d with
  | [] => []
  | (k', v') :: d' => if String.eqb k' k then d' else (k', v') :: dict_pop d' k
  end.

Definition keys (d : dict) : list string := map fst d.
Definition values (d : dict) : list value := map snd d.

(** [d[k]] on a dict. *)
Definition getitem (d : dict) (k : string) : result value :=
  match dict_get d k with
  | Some v => Ok v
  | None => Raise KeyError
  end.

(** ** Python operations on values *)

Definition num (a : atom) : option Z :=
  match a with
  | AInt z => Some z
  | ABool b => Some (Z.b2z b)
  | _ => None
  end.

(** [==] on scalars: booleans are the integers 0 and 1. *)
Definition atom_eq (a b : atom) : bool :=
  match num a, num b with
  | Some x, Some y => Z.eqb x y
  | None, None =>
      match a, b with
      | ANone, ANone => true
      | AStr s, AStr t => String.eqb s t
      | APlatform p, APlatform q => Platform_eqb p q
      | _, _ => false
      end
  | _, _ => false
  end.

(** [==] as the service uses it: one side is always an id, a name or the
    number 3632, and a container never equals a scalar. *)
Definition py_eq (v w : value) : bool :=
  match v, w with
  | VAtom a, VAtom b => atom_eq a b
  | _, _ => false
  end.

Definition chars (s : string) : list string :=
  map (fun c => String c EmptyString) (list_ascii_of_string s).

(** [list(v)] *)
Definition py_list (v : value) : result (list value) :=
  match v with
  | VSet xs => Ok (map (fun s => VStr s) xs)
  | VList xs => Ok xs
  | VDict d => Ok (map (fun s => VStr s) (keys d))
  | VAtom (AStr s) => Ok (map (fun s => VStr s) (chars s))
  | VAtom _ => Raise TypeError
  end.

(** [sep.join(xs)]: every element has to be a string. *)
Definition join (sep : string) (xs : list value) : result string :=
  (let* ss := rmap (fun v => match v with VStr s => Ok s | _ => Raise TypeError end) xs in
   Ok (String.concat sep ss))%result.

Definition lower_ascii (c : ascii) : ascii :=
  let n := nat_of_ascii c in
  if (65 <=? n)%nat && (n <=? 90)%nat then ascii_of_nat (n + 32) else c.

(** [s.lower()], on the ASCII letters. *)
Fixpoint lower (s : string) : string :=
  match s with
  | EmptyString => EmptyString
  | String c s' => String (lower_ascii c) (lower s')
  end.

Definition decimal (z : Z) : string := NilZero.string_of_int (Z.to_int z).

(** Index into a sequence of length [n], negative indices counting from
    the end. *)
Definition index (n : nat) (z : Z) : option nat :=
  if (0 <=? z)%Z && (z <? Z.of_nat n)%Z then Some (Z.to_nat z)
  else if (z <? 0)%Z && (- Z.of_nat n <=? z)%Z then Some (Z.to_nat (Z.of_nat n + z))
  else None.

(** [c[k]] *)
Definition subscript (c k : value) : result value :=
  match c with
  | VDict d =>
      match k with
      | VStr s => getitem d s
      | VAtom _ => Raise KeyError
      | _ => Raise TypeError
      end
  | VList xs =>
      match k with
      | VAtom a =>
          match num a with
          | Some z =>
              match index (length xs) z with
              | Some i => match xs !! i with Some v => Ok v | None => Raise IndexError end
              | None => Raise IndexError
              end
          | None => Raise TypeError
          end
      | _ => Raise TypeError
      end
  | VStr s =>
      match k with
      | VAtom a =>
          match num a with
          | Some z =>
              match index (String.length s) z with
              | Some i => match chars s !! i with Some c => Ok (VStr c) | None => Raise IndexError end
              | None => Raise IndexError
              end
          | None => Raise TypeError
          end
      | _ => Raise TypeError
      end
  | _ => Raise TypeError
  end.

(** The container [c] after the object at [c[k]] has become [v]; used to
    write a record that was changed in place back into the value that holds
    it. *)
Definition store_back (c k v : value) : value :=
  match c with
  | VDict d =>
      match k with
      | VStr s => VDict (dict_set d s v)
      | _ => c
      end
  | VList xs =>
      match k with
      | VAtom a =>
          match num a with
          | Some z =>
              match index (length xs) z with
              | Some i => VList (<[i := v]> xs)
              | None => c
              end
          | None => c
          end
      | _ => c
      end
  | _ => c
  end.

(** [c[k] = v] with a string key: only a dict accepts it. *)
Definition setitem (c : value) (k : string) (v : value) : result value :=
  match c with
  | VDict d => Ok (VDict (dict_set d k v))
  | _ => Raise TypeError
  end.

(** [k not in c], for a string [k], as the item repair rules use it: a key
    of a dict, an element of a list or of a set, a substring of a string. *)
Definition not_in (k : string) (c : value) : result bool :=
  match c with
  | VDict d => Ok (negb (contains k d))
  | VList xs => Ok (negb (existsb (fun v => py_eq v (VStr k)) xs))
  | VSet xs => Ok (negb (existsb (String.eqb k) xs))
  | VStr s => Ok (match String.index 0 k s with Some _ => false | None => true end)
  | VAtom _ => Raise TypeError
  end.

(** [v.region.value], [v.value], [v.default_locale] *)
Definition as_platform (v : value) : result Platform :=
  match v with
  | VPlatform p => Ok p
  | _ => Raise AttributeError
  end.

(** ** Query fingerprints *)

Fixpoint insert_item (x : string * value) (l : dict) : dict :=
  match l with
  | [] => [x]
  | y :: l' => if String.leb (fst x) (fst y) then x :: l else y :: insert_item x l'
  end.

(** [sorted(query.items())]: the keys of a dict are distinct, so the order
    of two items is decided by their keys. *)
Definition sorted (items : dict) : dict := fold_right insert_item [] items.

Section Fingerprint.

(** Modelled from the spec: [_hash_included_data] (cassiopeia.datastores.uniquekeys,
    absent from src/) reduces a set of tags to a stable hash: an integer
    that does not depend on the order in which the set is iterated. *)
Variable _hash_included_data : list string -> Z.

Definition calculate_hash (query : dict) : list value :=
  map (fun value => match value with
                    | VSet xs => VInt (_hash_included_data xs)
                    | _ => value
                    end)
      (values (sorted query)).

End Fingerprint.

(** ** Query validation *)

(** Modelled from the spec: the pipeline that the context carries back to
    the service (datapipelines, absent from src/).  The service uses it for
    one thing, [pipeline.get(RealmDto, query)]; its answer is taken as
    given. *)
Record Pipeline := { pipeline_get_RealmDto : dict -> result value }.

(** [context] is [None] by default. *)
Definition PipelineContext := option Pipeline.

Definition _get_default_version (query : dict) (context : PipelineContext) : result value :=
  (let* pipeline := match context with
                    | Some p => Ok p
                    | None => Raise TypeError
                    end in
   let* platform := getitem query "platform" in
   let* realms := pipeline_get_RealmDto pipeline [("platform", platform)] in
   subscript realms (VStr "v"))%result.

Definition _get_default_locale (query : dict) (context : PipelineContext) : result value :=
  (let* platform := getitem query "platform" in
   let* p := as_platform platform in
   Ok (VStr (p_default_locale p)))%result.

Inductive type_ := Tint | Tstr | TPlatform | TIterable.

Definition isinstance (v : value) (t : type_) : bool :=
  match t, v with
  | Tint, VAtom (AInt _) | Tint, VAtom (ABool _) => true
  | Tstr, VAtom (AStr _) => true
  | TPlatform, VAtom (APlatform _) => true
  | TIterable, VAtom (AStr _) | TIterable, VSet _
  | TIterable, VList _ | TIterable, VDict _ => true
  | _, _ => false
  end.

Inductive default_ :=
| default_call (f : dict -> PipelineContext -> result value)
| default_value (v : value).

(** Modelled from the spec: the declarative query validator ([Query] of
    datapipelines, absent from src/), section 4.1.  [has] lists the
    alternatives of a required field ([has(k).as_(t).or_(k').as_(t')]):
    exactly one of them must be present, with its type.  [can_have] is an
    optional field: when present it must have the declared type, when
    absent its default, if any, is inserted into the query. *)
Inductive requirement :=
| has (alternatives : list (string * type_))
| can_have (key : string) (as_ : option type_) (with_default : option default_).

Definition validate1 (r : requirement) (query : dict) (context : PipelineContext)
  : result dict :=
  match r with
  | has alternatives =>
      match List.filter (fun kt => contains (fst kt) query) alternatives with
      | [(k, t)] =>
          match dict_get query k with
          | Some v => if isinstance v t then Ok query else Raise InvalidQuery
          | None => Raise InvalidQuery
          end
      | _ => Raise InvalidQuery
      end
  | can_have key as_ with_default =>
      match dict_get query key with
      | Some v =>
          match as_ with
          | Some t => if isinstance v t then Ok query else Raise InvalidQuery
          | None => Ok query
          end
      | None =>
          match with_default with
          | Some (default_call f) =>
              (let* v := f query context in Ok (dict_set query key v))%result
          | Some (default_value v) => Ok (dict_set query key v)
          | None => Ok query
          end
      end
  end.

(** The requirements joined by [also] are checked in the order written;
    the query comes back with the defaults filled in. *)
Fixpoint validate (rs : list requirement) (query : dict) (context : PipelineContext)
  : result dict :=
  match rs with
  | [] => Ok query
  | r :: rs' =>
      (let* query := validate1 r query context in validate rs' query context)%result
  end.

Definition all_ : value := VSet ["all"].

(** ** The service state *)

Inductive dto_type :=
| ChampionDto | ChampionListDto
| MasteryDto | MasteryListDto
| RuneDto | RuneListDto
| ItemDto | ItemListDto
| MapDto | MapListDto
| SummonerSpellDto | SummonerSpellListDto.

Definition dto_type_eqb (a b : dto_type) : bool :=
  match a, b with
  | ChampionDto, ChampionDto | ChampionListDto, ChampionListDto
  | MasteryDto, MasteryDto | MasteryListDto, MasteryListDto
  | RuneDto, RuneDto | RuneListDto, RuneListDto
  | ItemDto, ItemDto | ItemListDto, ItemListDto
  | MapDto, MapDto | MapListDto, MapListDto
  | SummonerSpellDto, SummonerSpellDto
  | SummonerSpellListDto, SummonerSpellListDto => true
  | _, _ => false
  end.

(** What the transport is asked: [_get(url, params, rate_limiter)], the
    rate limiter being the one of a platform and a bucket. *)
Record request := {
  url : string;
  params : dict;
  rate_limiter : value * string
}.

Inductive response :=
| NotFound404 (msg : string)
| Payload (data : value).

(** A reference to a list object of the store. *)
Definition loc := nat.

(** The key of a cache slot is a tuple of hashable values. *)
Definition cache_key := list atom.

(** [heap]: the list objects built so far; [_cache]: for each list type the
    slots from fingerprint to list object; [calls]: the requests made to the
    transport, oldest first. *)
Record service := {
  heap : list dict;
  _cache : dto_type -> list (cache_key * loc);
  calls : list request
}.

(** [__init__]: every cache is empty. *)
Definition init : service :=
  {| heap := []; _cache := fun _ => []; calls := [] |}.

(** A computation of the service: it may change the state and it returns
    or raises; the state changes made before an exception stay. *)
Definition M (A : Type) := service -> result A * service.

Definition ret {A} (a : A) : M A := fun s => (Ok a, s).
Definition raise {A} (e : exn) : M A := fun s => (Raise e, s).
Definition bind {A B} (m : M A) (k : A -> M B) : M B :=
  fun s => match m s with
           | (Ok a, s') => k a s'
           | (Raise e, s') => (Raise e, s')
           end.
Definition lift {A} (r : result A) : M A := fun s => (r, s).

Declare Scope M_scope.
Delimit Scope M_scope with M.
Bind Scope M_scope with M.
Notation "'let*' x ':=' m 'in' k" := (bind m (fun x => k))
  (at level 10, x name, m at level 100, k at level 200) : M_scope.
Notation "'let*' ' p ':=' m 'in' k" := (bind m (fun x => match x with p => k end))
  (at level 10, p pattern, m at level 100, k at level 200) : M_scope.

Definition tuple_eq (k1 k2 : cache_key) : bool :=
  Nat.eqb (length k1) (length k2)
  && forallb (fun ab => atom_eq (fst ab) (snd ab)) (combine k1 k2).

(** The tuple as a dict key; [None] when an element is not hashable. *)
Fixpoint as_key (ahash : list value) : option cache_key :=
  match ahash with
  | [] => Some []
  | VAtom a :: r => match as_key r with Some k => Some (a :: k) | None => None end
  | _ :: _ => None
  end.

Fixpoint slot_get (slots : list (cache_key * loc)) (k : cache_key) : option loc :=
  match slots with
  | [] => None
  | (k', l) :: r => if tuple_eq k' k then Some l else slot_get r k
  end.

Fixpoint slot_set (slots : list (cache_key * loc)) (k : cache_key) (l : loc)
  : list (cache_key * loc) :=
  match slots with
  | [] => [(k, l)]
  | (k', l') :: r => if tuple_eq k' k then (k', l) :: r else (k', l') :: slot_set r k l
  end.

(** [self._cache[type][ahash]], [None] standing for the [KeyError] that the
    callers catch. *)
Definition cache_get (type : dto_type) (ahash : list value) : M (option loc) :=
  fun s => match as_key ahash with
           | Some k => (Ok (slot_get (_cache s type) k), s)
           | None => (Raise TypeError, s)
           end.

(** [self._cache[type][ahash] = result] *)
Definition cache_set (type : dto_type) (ahash : list value) (result : loc) : M unit :=
  fun s => match as_key ahash with
           | Some k =>
               (Ok tt,
                {| heap := heap s;
                   _cache := fun t => if dto_type_eqb t type
                                      then slot_set (_cache s t) k result
                                      else _cache s t;
                   calls := calls s |})
           | None => (Raise TypeError, s)
           end.

(** Modelled from the spec: the DTO classes (cassiopeia.dto, absent from
    src/) are dicts: building one from a dict copies its entries into a new
    object, and the values of the entries are shared with the original. *)
Definition Dto (data : value) : result dict :=
  match data with
  | VDict d => Ok d
  | _ => Raise TypeError
  end.

(** A new list object in the store. *)
Definition new_object (d : dict) : M loc :=
  fun s => (Ok (length (heap s)),
            {| heap := heap s ++ [d]; _cache := _cache s; calls := calls s |}).

Definition load (l : loc) (s : service) : dict := default [] (heap s !! l).

(** The records of a list object, in the order of [data["data"].values()];
    a record is referred to by the list object and its position. *)
Definition records_of (top : dict) : result dict :=
  match dict_get top "data" with
  | Some (VDict d) => Ok d
  | Some _ => Raise AttributeError
  | None => Raise KeyError
  end.

Definition record_ref := (loc * nat)%type.

Definition record_load (r : record_ref) (s : service) : value :=
  match records_of (load (fst r) s) with
  | Ok d => match d !! snd r with Some kv => snd kv | None => VNone end
  | Raise _ => VNone
  end.

Definition record_store (r : record_ref) (v : value) (s : service) : service :=
  match records_of (load (fst r) s) with
  | Ok d =>
      match d !! snd r with
      | Some kv =>
          {| heap := <[fst r := dict_set (load (fst r) s) "data"
                                   (VDict (<[snd r := (fst kv, v)]> d))]> (heap s);
             _cache := _cache s;
             calls := calls s |}
      | None => s
      end
  | Raise _ => s
  end.

(** [record[k] = rhs] on a record of a stored list object: the right-hand
    side is evaluated first, then the record is changed in place. *)
Definition record_assign (r : record_ref) (k : string) (rhs : result value) : M unit :=
  fun s => match rhs with
           | Ok v =>
               match setitem (record_load r s) k v with
               | Ok rec => (Ok tt, record_store r rec s)
               | Raise e => (Raise e, s)
               end
           | Raise e => (Raise e, s)
           end.

(** [x[k] = rhs] on a local value. *)
Definition assign (x : value) (k : string) (rhs : result value) : result value :=
  (let* v := rhs in setitem x k v)%result.

(** [query["platform"].region.value] *)
Definition region_of (query : dict) : result value :=
  (let* platform := getitem query "platform" in
   let* p := as_platform platform in
   Ok (VStr (p_region_value p)))%result.

(** [",".join(list(query["includedData"]))] *)
Definition tags_of (query : dict) : result value :=
  (let* includedData := getitem query "includedData" in
   let* l := py_list includedData in
   let* s := join "," l in
   Ok (VStr s))%result.

(** ["https://{platform}.api.riotgames.com/lol/static-data/v3/" + path],
    with [platform=query["platform"].value.lower()]. *)
Definition url_of (query : dict) (path : string) : result string :=
  (let* platform := getitem query "platform" in
   let* p := as_platform platform in
   Ok ("https://" ++ lower (p_value p) ++ ".api.riotgames.com/lol/static-data/v3/" ++ path))%result.

(** [if "version" in query: params["version"] = query["version"]] *)
Definition with_version (query params : dict) : dict :=
  match dict_get query "version" with
  | Some v => dict_set params "version" v
  | None => params
  end.

(** [for x in c.values(): body], the body changing [x] in place; the
    container comes back with the changed values. *)
Definition for_values (c : value) (body : value -> result value) : result value :=
  match c with
  | VDict d =>
      (let* d' := rmap (fun kv => let* v := body (snd kv) in Ok (fst kv, v)) d in
       Ok (VDict d'))%result
  | _ => Raise AttributeError
  end.

(** [for x in c: body], the body changing [x] in place: the elements of a
    list, the keys of a dict, the members of a set, the characters of a
    string. Only the elements of a list are objects that stay in [c]. *)
Definition for_each (c : value) (body : value -> result value) : result value :=
  match c with
  | VList xs => (let* xs' := rmap body xs in Ok (VList xs'))%result
  | VAtom (AStr _) | VSet _ | VDict _ =>
      (let* l := py_list c in let* _ := rmap body l in Ok c)%result
  | VAtom _ => Raise TypeError
  end.

(** [find_matching_attribute]: the position of the first dto whose
    attribute equals the value, [None] when the loop ends without one. *)
Fixpoint find_matching_attribute (list_of_dtos : list value) (attrname : string)
  (attrvalue : value) : result (option nat) :=
  match list_of_dtos with
  | [] => Ok None
  | dto :: rest =>
      match dto with
      | VDict d =>
          if py_eq (default VNone (dict_get d attrname)) attrvalue then Ok (Some 0%nat)
          else (let* r := find_matching_attribute rest attrname attrvalue in
                Ok (option_map S r))%result
      | _ => Raise AttributeError
      end
  end.

(** A double quote. *)
Definition quote : string := String (ascii_of_nat 34) EmptyString.

(** [try: ... except KeyError: raise e] *)
Definition except_KeyError {A} (r : result A) (e : exn) : result A :=
  match r with
  | Raise KeyError => Raise e
  | _ => r
  end.

(** The value [data] after the record at [data["data"][key]] has become
    [record]. *)
Definition store_record (data key record : value) : value :=
  match subscript data (VStr "data") with
  | Ok d => store_back data (VStr "data") (store_back d key record)
  | Raise _ => data
  end.

(** The repair rules of item records; the source repeats these lines in
    every item operation. *)
Definition repair_item (item : value) : result value :=
  (let* id := subscript item (VStr "id") in
   let* item := if py_eq id (VInt 3632)
                then setitem item "name" (VStr EmptyString) else Ok item in
   let* absent := not_in "tags" item in
   let* item := if absent then setitem item "tags" (VList []) else Ok item in
   let* absent := not_in "depth" item in
   let* item := if absent then setitem item "depth" (VInt 1) else Ok item in
   let* absent := not_in "colloq" item in
   let* item := if absent then setitem item "colloq" (VStr EmptyString) else Ok item in
   let* absent := not_in "plaintext" item in
   if absent then setitem item "plaintext" (VStr EmptyString) else Ok item)%result.

(** ** Generators *)

Inductive generator_body :=
| champion_generator
| mastery_generator
| rune_generator
| item_generator
| summoner_spell_generator.

(** The state of a generator returned by [get_many]: the variables its
    body closes over ([query], the fetched [data], which the body changes in
    place), the ids still to come, and whether it has finished.  The ids
    are listed when the generator is built: [query["ids"]] has passed
    validation as an iterable, so listing it cannot fail, and it makes no
    difference that Python starts the loop at the first pull. *)
Record generator := {
  body : generator_body;
  g_query : dict;
  g_data : value;
  g_ids : list value;
  g_finished : bool
}.

(** What a call of [next] on a generator gives. *)
Inductive outcome :=
| Yield (dto : value)
| Raised (e : exn)
| StopIteration.

(** ** The operations of [StaticDataAPI] *)

Section StaticDataAPI.

(** The transport collaborator behind [_get]: its answer to a request may
    depend on the requests made before. *)
Variable transport : list request -> request -> response.

(** [settings.request_by_id] *)
Variable request_by_id : bool.

(** See [calculate_hash]. *)
Variable _hash_included_data : list string -> Z.

(** Python's rendering of the values other than integers, strings,
    booleans and [None]; not modelled. *)
Variable py_repr : value -> string.

(** [str(v)] *)
Definition str (v : value) : string :=
  match v with
  | VAtom (AStr s) => s
  | VAtom (AInt z) => decimal z
  | VAtom (ABool true) => "True"
  | VAtom (ABool false) => "False"
  | VAtom ANone => "None"
  | _ => py_repr v
  end.

Definition _get (url : string) (params : dict) (rate_limiter : value * string)
  : M value :=
  fun s =>
    let r := {| url := url; params := params; rate_limiter := rate_limiter |} in
    let s' := {| heap := heap s; _cache := _cache s; calls := calls s ++ [r] |} in
    match transport (calls s) r with
    | NotFound404 msg => (Raise (APINotFoundError msg), s')
    | Payload data => (Ok data, s')
    end.

(** [try: data = self._get(url, params, self._get_rate_limiter(query["platform"], bucket))]
    [except APINotFoundError as error: raise NotFoundError(str(error))] *)
Definition try_get (url : string) (params : dict) (query : dict) (bucket : string)
  : M value :=
  fun s =>
    match getitem query "platform" with
    | Ok platform =>
        match _get url params (platform, bucket) s with
        | (Raise (APINotFoundError msg), s') => (Raise (NotFoundError msg), s')
        | r => r
        end
    | Raise e => (Raise e, s)
    end.

(** [list_object["data"].values()] on a stored list object. *)
Definition data_values (l : loc) : M (list value) :=
  fun s => ((let* d := records_of (load l s) in Ok (values d))%result, s).

(** [SomeDto(record)] on a record of a stored list object. *)
Definition record_dto (r : record_ref) : M value :=
  fun s => ((let* d := Dto (record_load r s) in Ok (VDict d))%result, s).

(** [base + "/{id}"] with [id=query["id"]]. *)
Definition url_of_id (query : dict) (path : string) : result string :=
  (let* base := url_of query path in
   let* id := getitem query "id" in
   Ok (base ++ "/" ++ str id))%result.

(** *** Champions *)

Definition _validate_get_champion_query :=
  validate [has [("id", Tint); ("name", Tstr)];
            has [("platform", TPlatform)];
            can_have "version" (Some Tstr) (Some (default_call _get_default_version));
            can_have "locale" (Some Tstr) (Some (default_call _get_default_locale));
            can_have "includedData" None (Some (default_value all_))].

Definition _validate_get_many_champion_query :=
  validate [has [("ids", TIterable)];
            has [("platform", TPlatform)];
            can_have "version" (Some Tstr) None;
            can_have "locale" (Some Tstr) (Some (default_call _get_default_locale));
            can_have "includedData" None (Some (default_value all_))].

Definition _validate_get_champion_list_query :=
  validate [has [("platform", TPlatform)];
            can_have "version" (Some Tstr) None;
            can_have "locale" (Some Tstr) (Some (default_call _get_default_locale));
            can_have "includedData" None (Some (default_value all_));
            can_have "dataById" None (Some (default_value (VBool false)))].

(** [get_champion_list]: the parameters and the url of the request. *)
Definition champion_list_request (query : dict) : result (string * dict) :=
  (let* locale := getitem query "locale" in
   let* tags := tags_of query in
   let* dataById := getitem query "dataById" in
   let params := [("locale", locale); ("tags", tags); ("dataById", dataById)] in
   let params := with_version query params in
   let* url := url_of query "champions" in
   Ok (url, params))%result.

(** [get_champion_list]: what is done to the fetched data before it is
    stored. *)
Definition champion_list_stamp (query : dict) (data : value) : result dict :=
  (let* data := assign data "region" (region_of query) in
   let* data := assign data "locale" (getitem query "locale") in
   let* data := assign data "includedData" (getitem query "includedData") in
   let* champions := subscript data (VStr "data") in
   let* champions := for_values champions (fun champion =>
     let* champion := assign champion "region" (region_of query) in
     let* champion := assign champion "version" (getitem query "version") in
     let* champion := assign champion "locale" (getitem query "locale") in
     assign champion "includedData" (getitem query "includedData")) in
   let data := store_back data (VStr "data") champions in
   Dto data)%result.

Definition get_champion_list (query : dict) (context : PipelineContext) : M loc :=
  (let* query := lift (_validate_get_champion_list_query query context) in
   let ahash := calculate_hash _hash_included_data query in
   let* cached := cache_get ChampionListDto ahash in
   match cached with
   | Some result => ret result
   | None =>
       let* request := lift (champion_list_request query) in
       let* data := try_get (fst request) (snd request) query "staticdata/champions" in
       let* result := lift (champion_list_stamp query data) in
       let* result := new_object result in
       let* _ := cache_set ChampionListDto ahash result in
       ret result
   end)%M.

(** [get_champion], by the list: the stamps put on the matching record, in
    place. *)
Definition champion_stamp_record (champion : record_ref) (query : dict) : M unit :=
  (let* _ := record_assign champion "region" (region_of query) in
   let* _ := record_assign champion "version" (getitem query "version") in
   let* _ := record_assign champion "locale" (getitem query "locale") in
   record_assign champion "includedData" (getitem query "includedData"))%M.

(** [get_champion], by id: the parameters and the url of the request. *)
Definition champion_request (query : dict) : result (string * dict) :=
  (let* version := getitem query "version" in
   let* locale := getitem query "locale" in
   let* tags := tags_of query in
   let params := [("version", version); ("locale", locale); ("tags", tags)] in
   let* url := url_of_id query "champions" in
   Ok (url, params))%result.

(** [get_champion], by id: what is done to the fetched data. *)
Definition champion_stamp (query : dict) (data : value) : result dict :=
  (let* data := assign data "region" (region_of query) in
   let* data := assign data "version" (getitem query "version") in
   let* data := assign data "locale" (getitem query "locale") in
   let* data := assign data "includedData" (getitem query "includedData") in
   Dto data)%result.

Definition get_champion (query : dict) (context : PipelineContext) : M value :=
  (let* query := lift (_validate_get_champion_query query context) in
   if request_by_id || contains "name" query then
     let champions_query := query in
     let champions_query := if contains "id" champions_query
                         then dict_pop champions_query "id" else champions_query in
     let champions_query := if contains "name" champions_query
                         then dict_pop champions_query "name" else champions_query in
     let* champions := get_champion_list champions_query context in
     let* dtos := data_values champions in
     let* champion :=
       lift (if contains "id" query then
               let* id := getitem query "id" in find_matching_attribute dtos "id" id
             else if contains "name" query then
               let* name := getitem query "name" in find_matching_attribute dtos "name" name
             else Raise (ValueError "Impossible!"))%result in
     match champion with
     | None => raise (NotFoundError EmptyString)
     | Some i =>
         let champion := (champions, i) in
         let* _ := champion_stamp_record champion query in
         record_dto champion
     end
   else
     let* request := lift (champion_request query) in
     let* data := try_get (fst request) (snd request) query "staticdata/champion" in
     let* dto := lift (champion_stamp query data) in
     ret (VDict dto))%M.

(** [get_many_champion]: the parameters and the url of the request. *)
Definition many_champion_request (query : dict) : result (string * dict) :=
  (let* locale := getitem query "locale" in
   let* tags := tags_of query in
   let params := [("locale", locale); ("tags", tags); ("dataById", VBool true)] in
   let params := with_version query params in
   let* url := url_of query "champions" in
   Ok (url, params))%result.

(** The body of the loop of the generator of [get_many_champion] for one id:
    the fetched data with the record changed in place, and the dto that is
    yielded. *)
Definition champion_generator_body (query : dict) (data id : value)
  : result (value * value) :=
  (let* champion :=
     except_KeyError
       (let* d := subscript data (VStr "data") in subscript d (VStr (str id)))
       (NotFoundError ("No champion exists with id " ++ quote ++ str id ++ quote)) in
   let* champion := assign champion "region" (region_of query) in
   let* champion := assign champion "version" (subscript data (VStr "version")) in
   let* champion := assign champion "locale" (getitem query "locale") in
   let* champion := assign champion "includedData" (getitem query "includedData") in
   let* dto := Dto champion in
   Ok (store_record data (VStr (str id)) champion, VDict dto))%result.

Definition get_many_champion (query : dict) (context : PipelineContext) : M generator :=
  (let* query := lift (_validate_get_many_champion_query query context) in
   let* request := lift (many_champion_request query) in
   let* data := try_get (fst request) (snd request) query "staticdata/champion" in
   let* ids := lift (let* ids := getitem query "ids" in py_list ids)%result in
   ret {| body := champion_generator; g_query := query; g_data := data;
          g_ids := ids; g_finished := false |})%M.

(** *** Masteries *)

Definition _validate_get_mastery_query :=
  validate [has [("id", Tint); ("name", Tstr)];
            has [("platform", TPlatform)];
            can_have "version" (Some Tstr) (Some (default_call _get_default_version));
            can_have "locale" (Some Tstr) (Some (default_call _get_default_locale));
            can_have "includedData" None (Some (default_value all_))].

Definition _validate_get_many_mastery_query :=
  validate [has [("ids", TIterable)];
            has [("platform", TPlatform)];
            can_have "version" (Some Tstr) None;
            can_have "locale" (Some Tstr) (Some (default_call _get_default_locale));
            can_have "includedData" None (Some (default_value all_))].

Definition _validate_get_mastery_list_query :=
  validate [has [("platform", TPlatform)];
            can_have "version" (Some Tstr) None;
            can_have "locale" (Some Tstr) (Some (default_call _get_default_locale));
            can_have "includedData" None (Some (default_value all_))].

(** [get_mastery_list]: the parameters and the url of the request. *)
Definition mastery_list_request (query : dict) : result (string * dict) :=
  (let* locale := getitem query "locale" in
   let* tags := tags_of query in
   let params := [("locale", locale); ("tags", tags)] in
   let params := with_version query params in
   let* url := url_of query "masteries" in
   Ok (url, params))%result.

(** [get_mastery_list]: what is done to the fetched data before it is
    stored. *)
Definition mastery_list_stamp (query : dict) (data : value) : result dict :=
  (let* data := assign data "region" (region_of query) in
   let* data := assign data "locale" (getitem query "locale") in
   let* data := assign data "includedData" (getitem query "includedData") in
   let* masteries := subscript data (VStr "data") in
   let* masteries := for_values masteries (fun mastery =>
     let* mastery := assign mastery "region" (region_of query) in
     let* mastery := assign mastery "version" (subscript data (VStr "version")) in
     let* mastery := assign mastery "locale" (getitem query "locale") in
     assign mastery "includedData" (getitem query "includedData")) in
   let data := store_back data (VStr "data") masteries in
   Dto data)%result.

Definition get_mastery_list (query : dict) (context : PipelineContext) : M loc :=
  (let* query := lift (_validate_get_mastery_list_query query context) in
   let ahash := calculate_hash _hash_included_data query in
   let* cached := cache_get MasteryListDto ahash in
   match cached with
   | Some result => ret result
   | None =>
       let* request := lift (mastery_list_request query) in
       let* data := try_get (fst request) (snd request) query "staticdata/masteries" in
       let* result := lift (mastery_list_stamp query data) in
       let* result := new_object result in
       let* _ := cache_set MasteryListDto ahash result in
       ret result
   end)%M.

(** [get_mastery], by the list: the stamps put on the matching record, in
    place. *)
Definition mastery_stamp_record (mastery : record_ref) (query : dict) : M unit :=
  (let* _ := record_assign mastery "region" (region_of query) in
   let* _ := record_assign mastery "version" (getitem query "version") in
   let* _ := record_assign mastery "locale" (getitem query "locale") in
   record_assign mastery "includedData" (getitem query "includedData"))%M.

(** [get_mastery], by id: the parameters and the url of the request. *)
Definition mastery_request (query : dict) : result (string * dict) :=
  (let* version := getitem query "version" in
   let* locale := getitem query "locale" in
   let* tags := tags_of query in
   let params := [("version", version); ("locale", locale); ("tags", tags)] in
   let* url := url_of_id query "masteries" in
   Ok (url, params))%result.

(** [get_mastery], by id: what is done to the fetched data. *)
Definition mastery_stamp (query : dict) (data : value) : result dict :=
  (let* data := assign data "region" (region_of query) in
   let* data := assign data "version" (getitem query "version") in
   let* data := assign data "locale" (getitem query "locale") in
   let* data := assign data "includedData" (getitem query "includedData") in
   Dto data)%result.

Definition get_mastery (query : dict) (context : PipelineContext) : M value :=
  (let* query := lift (_validate_get_mastery_query query context) in
   if request_by_id || contains "name" query then
     let masteries_query := query in
     let masteries_query := if contains "id" masteries_query
                         then dict_pop masteries_query "id" else masteries_query in
     let masteries_query := if contains "name" masteries_query
                         then dict_pop masteries_query "name" else masteries_query in
     let* masteries := get_mastery_list masteries_query context in
     let* dtos := data_values masteries in
     let* mastery :=
       lift (if contains "id" query then
               let* id := getitem query "id" in find_matching_attribute dtos "id" id
             else if contains "name" query then
               let* name := getitem query "name" in find_matching_attribute dtos "name" name
             else Raise (ValueError "Impossible!"))%result in
     match mastery with
     | None => raise (NotFoundError EmptyString)
     | Some i =>
         let mastery := (masteries, i) in
         let* _ := mastery_stamp_record mastery query in
         record_dto mastery
     end
   else
     let* request := lift (mastery_request query) in
     let* data := try_get (fst request) (snd request) query "staticdata/mastery" in
     let* dto := lift (mastery_stamp query data) in
     ret (VDict dto))%M.

(** [get_many_mastery]: the parameters and the url of the request. *)
Definition many_mastery_request (query : dict) : result (string * dict) :=
  (let* locale := getitem query "locale" in
   let* tags := tags_of query in
   let params := [("locale", locale); ("tags", tags)] in
   let params := with_version query params in
   let* url := url_of query "masteries" in
   Ok (url, params))%result.

(** The body of the loop of the generator of [get_many_mastery] for one id:
    the fetched data with the record changed in place, and the dto that is
    yielded. *)
Definition mastery_generator_body (query : dict) (data id : value)
  : result (value * value) :=
  (let* mastery :=
     except_KeyError
       (let* d := subscript data (VStr "data") in subscript d (VStr (str id)))
       (NotFoundError ("No mastery exists with id " ++ quote ++ str id ++ quote)) in
   let* mastery := assign mastery "region" (region_of query) in
   let* mastery := assign mastery "version" (subscript data (VStr "version")) in
   let* mastery := assign mastery "locale" (getitem query "locale") in
   let* mastery := assign mastery "includedData" (getitem query "includedData") in
   let* dto := Dto mastery in
   Ok (store_record data (VStr (str id)) mastery, VDict dto))%result.

Definition get_many_mastery (query : dict) (context : PipelineContext) : M generator :=
  (let* query := lift (_validate_get_many_mastery_query query context) in
   let* request := lift (many_mastery_request query) in
   let* data := try_get (fst request) (snd request) query "staticdata/mastery" in
   let* ids := lift (let* ids := getitem query "ids" in py_list ids)%result in
   ret {| body := mastery_generator; g_query := query; g_data := data;
          g_ids := ids; g_finished := false |})%M.

(** *** Runes *)

Definition _validate_get_rune_query :=
  validate [has [("id", Tint); ("name", Tstr)];
            has [("platform", TPlatform)];
            can_have "version" (Some Tstr) (Some (default_call _get_default_version));
            can_have "locale" (Some Tstr) (Some (default_call _get_default_locale));
            can_have "includedData" None (Some (default_value all_))].

Definition _validate_get_many_rune_query :=
  validate [has [("ids", TIterable)];
            has [("platform", TPlatform)];
            can_have "version" (Some Tstr) None;
            can_have "locale" (Some Tstr) (Some (default_call _get_default_locale));
            can_have "includedData" None (Some (default_value all_))].

Definition _validate_get_rune_list_query :=
  validate [has [("platform", TPlatform)];
            can_have "version" (Some Tstr) None;
            can_have "locale" (Some Tstr) (Some (default_call _get_default_locale));
            can_have "includedData" None (Some (default_value all_))].

(** [get_rune_list]: the parameters and the url of the request. *)
Definition rune_list_request (query : dict) : result (string * dict) :=
  (let* locale := getitem query "locale" in
   let* tags := tags_of query in
   let params := [("locale", locale); ("tags", tags)] in
   let params := with_version query params in
   let* url := url_of query "runes" in
   Ok (url, params))%result.

(** [get_rune_list]: what is done to the fetched data before it is
    stored. *)
Definition rune_list_stamp (query : dict) (data : value) : result dict :=
  (let* data := assign data "region" (region_of query) in
   let* data := assign data "locale" (getitem query "locale") in
   let* data := assign data "includedData" (getitem query "includedData") in
   let* runes := subscript data (VStr "data") in
   let* runes := for_values runes (fun rune =>
     let* rune := assign rune "region" (region_of query) in
     let* rune := assign rune "version" (getitem query "version") in
     let* rune := assign rune "locale" (getitem query "locale") in
     assign rune "includedData" (getitem query "includedData")) in
   let data := store_back data (VStr "data") runes in
   Dto data)%result.

Definition get_rune_list (query : dict) (context : PipelineContext) : M loc :=
  (let* query := lift (_validate_get_rune_list_query query context) in
   let ahash := calculate_hash _hash_included_data query in
   let* cached := cache_get RuneListDto ahash in
   match cached with
   | Some result => ret result
   | None =>
       let* request := lift (rune_list_request query) in
       let* data := try_get (fst request) (snd request) query "staticdata/runes" in
       let* result := lift (rune_list_stamp query data) in
       let* result := new_object result in
       let* _ := cache_set RuneListDto ahash result in
       ret result
   end)%M.

(** [get_rune], by the list: the stamps put on the matching record, in
    place. *)
Definition rune_stamp_record (rune : record_ref) (query : dict) : M unit :=
  (let* _ := record_assign rune "region" (region_of query) in
   let* _ := record_assign rune "version" (getitem query "version") in
   let* _ := record_assign rune "locale" (getitem query "locale") in
   record_assign rune "includedData" (getitem query "includedData"))%M.

(** [get_rune], by id: the parameters and the url of the request. *)
Definition rune_request (query : dict) : result (string * dict) :=
  (let* version := getitem query "version" in
   let* locale := getitem query "locale" in
   let* tags := tags_of query in
   let params := [("version", version); ("locale", locale); ("tags", tags)] in
   let* url := url_of_id query "runes" in
   Ok (url, params))%result.

(** [get_rune], by id: what is done to the fetched data. *)
Definition rune_stamp (query : dict) (data : value) : result dict :=
  (let* data := assign data "region" (region_of query) in
   let* data := assign data "version" (getitem query "version") in
   let* data := assign data "locale" (getitem query "locale") in
   let* data := assign data "includedData" (getitem query "includedData") in
   Dto data)%result.

Definition get_rune (query : dict) (context : PipelineContext) : M value :=
  (let* query := lift (_validate_get_rune_query query context) in
   if request_by_id || contains "name" query then
     let runes_query := query in
     let runes_query := if contains "id" runes_query
                         then dict_pop runes_query "id" else runes_query in
     let runes_query := if contains "name" runes_query
                         then dict_pop runes_query "name" else runes_query in
     let* runes := get_rune_list runes_query context in
     let* dtos := data_values runes in
     let* rune :=
       lift (if contains "id" query then
               let* id := getitem query "id" in find_matching_attribute dtos "id" id
             else if contains "name" query then
               let* name := getitem query "name" in find_matching_attribute dtos "name" name
             else Raise (ValueError "Impossible!"))%result in
     match rune with
     | None => raise (NotFoundError EmptyString)
     | Some i =>
         let rune := (runes, i) in
         let* _ := rune_stamp_record rune query in
         record_dto rune
     end
   else
     let* request := lift (rune_request query) in
     let* data := try_get (fst request) (snd request) query "staticdata/rune" in
     let* dto := lift (rune_stamp query data) in
     ret (VDict dto))%M.

(** [get_many_rune]: the parameters and the url of the request. *)
Definition many_rune_request (query : dict) : result (string * dict) :=
  (let* locale := getitem query "locale" in
   let* tags := tags_of query in
   let params := [("locale", locale); ("tags", tags)] in
   let params := with_version query params in
   let* url := url_of query "runes" in
   Ok (url, params))%result.

(** The body of the loop of the generator of [get_many_rune] for one id:
    the fetched data with the record changed in place, and the dto that is
    yielded. *)
Definition rune_generator_body (query : dict) (data id : value)
  : result (value * value) :=
  (let* rune :=
     except_KeyError
       (let* d := subscript data (VStr "data") in subscript d (VStr (str id)))
       (NotFoundError ("No rune exists with id " ++ quote ++ str id ++ quote)) in
   let* rune := assign rune "region" (region_of query) in
   let* rune := assign rune "version" (subscript data (VStr "version")) in
   let* rune := assign rune "locale" (getitem query "locale") in
   let* rune := assign rune "includedData" (getitem query "includedData") in
   let* dto := Dto rune in
   Ok (store_record data (VStr (str id)) rune, VDict dto))%result.

Definition get_many_rune (query : dict) (context : PipelineContext) : M generator :=
  (let* query := lift (_validate_get_many_rune_query query context) in
   let* request := lift (many_rune_request query) in
   let* data := try_get (fst request) (snd request) query "staticdata/rune" in
   let* ids := lift (let* ids := getitem query "ids" in py_list ids)%result in
   ret {| body := rune_generator; g_query := query; g_data := data;
          g_ids := ids; g_finished := false |})%M.

(** *** Items *)

Definition _validate_get_item_query :=
  validate [has [("id", Tint); ("name", Tstr)];
            has [("platform", TPlatform)];
            can_have "version" (Some Tstr) (Some (default_call _get_default_version));
            can_have "locale" (Some Tstr) (Some (default_call _get_default_locale));
            can_have "includedData" None (Some (default_value all_))].

Definition _validate_get_many_item_query :=
  validate [has [("ids", TIterable)];
            has [("platform", TPlatform)];
            can_have "version" (Some Tstr) None;
            can_have "locale" (Some Tstr) (Some (default_call _get_default_locale));
            can_have "includedData" None (Some (default_value all_))].

Definition _validate_get_item_list_query :=
  validate [has [("platform", TPlatform)];
            can_have "version" (Some Tstr) None;
            can_have "locale" (Some Tstr) (Some (default_call _get_default_locale));
            can_have "includedData" None (Some (default_value all_))].

(** [get_item_list]: the parameters and the url of the request. *)
Definition item_list_request (query : dict) : result (string * dict) :=
  (let* locale := getitem query "locale" in
   let* tags := tags_of query in
   let params := [("locale", locale); ("tags", tags)] in
   let params := with_version query params in
   let* url := url_of query "items" in
   Ok (url, params))%result.

(** [get_item_list]: what is done to the fetched data before it is
    stored. *)
Definition item_list_stamp (query : dict) (data : value) : result dict :=
  (let* data := assign data "region" (region_of query) in
   let* data := assign data "locale" (getitem query "locale") in
   let* data := assign data "includedData" (getitem query "includedData") in
   let* items := subscript data (VStr "data") in
   let* items := for_values items (fun item =>
     let* item := repair_item item in
     let* item := assign item "region" (region_of query) in
     let* item := assign item "version" (getitem query "version") in
     let* item := assign item "locale" (getitem query "locale") in
     assign item "includedData" (getitem query "includedData")) in
   let data := store_back data (VStr "data") items in
   Dto data)%result.

Definition get_item_list (query : dict) (context : PipelineContext) : M loc :=
  (let* query := lift (_validate_get_item_list_query query context) in
   let ahash := calculate_hash _hash_included_data query in
   let* cached := cache_get ItemListDto ahash in
   match cached with
   | Some result => ret result
   | None =>
       let* request := lift (item_list_request query) in
       let* data := try_get (fst request) (snd request) query "staticdata/items" in
       let* result := lift (item_list_stamp query data) in
       let* result := new_object result in
       let* _ := cache_set ItemListDto ahash result in
       ret result
   end)%M.

(** [get_item], by the list: the stamps put on the matching record, in
    place. *)
Definition item_stamp_record (item : record_ref) (query : dict) : M unit :=
  (let* _ := record_assign item "region" (region_of query) in
   let* _ := record_assign item "version" (getitem query "version") in
   let* _ := record_assign item "locale" (getitem query "locale") in
   record_assign item "includedData" (getitem query "includedData"))%M.

(** [get_item], by id: the parameters and the url of the request. *)
Definition item_request (query : dict) : result (string * dict) :=
  (let* version := getitem query "version" in
   let* locale := getitem query "locale" in
   let* tags := tags_of query in
   let params := [("version", version); ("locale", locale); ("tags", tags)] in
   let* url := url_of_id query "items" in
   Ok (url, params))%result.

(** [get_item], by id: what is done to the fetched data. *)
Definition item_stamp (query : dict) (data : value) : result dict :=
  (let* data := assign data "region" (region_of query) in
   let* data := assign data "version" (getitem query "version") in
   let* data := assign data "locale" (getitem query "locale") in
   let* data := assign data "includedData" (getitem query "includedData") in
   let* data := repair_item data in
   Dto data)%result.

Definition get_item (query : dict) (context : PipelineContext) : M value :=
  (let* query := lift (_validate_get_item_query query context) in
   if request_by_id || contains "name" query then
     let items_query := query in
     let items_query := if contains "id" items_query
                         then dict_pop items_query "id" else items_query in
     let items_query := if contains "name" items_query
                         then dict_pop items_query "name" else items_query in
     let* items := get_item_list items_query context in
     let* dtos := data_values items in
     let* item :=
       lift (if contains "id" query then
               let* id := getitem query "id" in find_matching_attribute dtos "id" id
             else if contains "name" query then
               let* name := getitem query "name" in find_matching_attribute dtos "name" name
             else Raise (ValueError "Impossible!"))%result in
     match item with
     | None => raise (NotFoundError EmptyString)
     | Some i =>
         let item := (items, i) in
         let* _ := item_stamp_record item query in
         record_dto item
     end
   else
     let* request := lift (item_request query) in
     let* data := try_get (fst request) (snd request) query "staticdata/item" in
     let* dto := lift (item_stamp query data) in
     ret (VDict dto))%M.

(** [get_many_item]: the parameters and the url of the request. *)
Definition many_item_request (query : dict) : result (string * dict) :=
  (let* locale := getitem query "locale" in
   let* tags := tags_of query in
   let params := [("locale", locale); ("tags", tags)] in
   let params := with_version query params in
   let* url := url_of query "items" in
   Ok (url, params))%result.

(** The body of the loop of the generator of [get_many_item] for one id:
    the fetched data with the record changed in place, and the dto that is
    yielded. *)
Definition item_generator_body (query : dict) (data id : value)
  : result (value * value) :=
  (let* item :=
     except_KeyError
       (let* d := subscript data (VStr "data") in subscript d (VStr (str id)))
       (NotFoundError ("No item exists with id " ++ quote ++ str id ++ quote)) in
   let* item := assign item "region" (region_of query) in
   let* item := assign item "version" (subscript data (VStr "version")) in
   let* item := assign item "locale" (getitem query "locale") in
   let* item := assign item "includedData" (getitem query "includedData") in
   let* item := repair_item item in
   let* dto := Dto item in
   Ok (store_record data (VStr (str id)) item, VDict dto))%result.

Definition get_many_item (query : dict) (context : PipelineContext) : M generator :=
  (let* query := lift (_validate_get_many_item_query query context) in
   let* request := lift (many_item_request query) in
   let* data := try_get (fst request) (snd request) query "staticdata/item" in
   let* ids := lift (let* ids := getitem query "ids" in py_list ids)%result in
   ret {| body := item_generator; g_query := query; g_data := data;
          g_ids := ids; g_finished := false |})%M.

(** *** Maps *)

Definition _validate_get_map_query :=
  validate [has [("id", Tint); ("name", Tstr)];
            has [("platform", TPlatform)];
            can_have "version" (Some Tstr) (Some (default_call _get_default_version));
            can_have "locale" (Some Tstr) (Some (default_call _get_default_locale))].

Definition _validate_get_map_list_query :=
  validate [has [("platform", TPlatform)];
            can_have "version" (Some Tstr) None;
            can_have "locale" (Some Tstr) (Some (default_call _get_default_locale));
            can_have "includedData" None (Some (default_value all_))].

(** [get_map_list]: the parameters and the url of the request. *)
Definition map_list_request (query : dict) : result (string * dict) :=
  (let* locale := getitem query "locale" in
   let params := [("locale", locale)] in
   let params := with_version query params in
   let* url := url_of query "maps" in
   Ok (url, params))%result.

(** [get_map_list]: what is done to the fetched data before it is
    stored. *)
Definition map_list_stamp (query : dict) (data : value) : result dict :=
  (let* data := assign data "region" (region_of query) in
   let* data := assign data "locale" (getitem query "locale") in
   Dto data)%result.

Definition get_map_list (query : dict) (context : PipelineContext) : M loc :=
  (let* query := lift (_validate_get_map_list_query query context) in
   let ahash := calculate_hash _hash_included_data query in
   let* cached := cache_get MapListDto ahash in
   match cached with
   | Some result => ret result
   | None =>
       let* request := lift (map_list_request query) in
       let* data := try_get (fst request) (snd request) query "staticdata/maps" in
       let* result := lift (map_list_stamp query data) in
       let* result := new_object result in
       let* _ := cache_set MapListDto ahash result in
       ret result
   end)%M.

(** [get_map], by the list: the stamps put on the matching record, in
    place. *)
Definition map_stamp_record (map : record_ref) (query : dict) : M unit :=
  (let* _ := record_assign map "region" (region_of query) in
   let* _ := record_assign map "version" (getitem query "version") in
   record_assign map "locale" (getitem query "locale"))%M.

(** The source has no [else] branch in [get_map]: with an id, no name and
    [request_by_id] off, the function ends without a [return] and the
    caller gets [None]. *)
Definition get_map (query : dict) (context : PipelineContext) : M value :=
  (let* query := lift (_validate_get_map_query query context) in
   if request_by_id || contains "name" query then
     let maps_query := query in
     let maps_query := if contains "id" maps_query
                         then dict_pop maps_query "id" else maps_query in
     let maps_query := if contains "name" maps_query
                         then dict_pop maps_query "name" else maps_query in
     let* maps := get_map_list maps_query context in
     let* dtos := data_values maps in
     let* map :=
       lift (if contains "id" query then
               let* id := getitem query "id" in find_matching_attribute dtos "id" id
             else if contains "name" query then
               let* name := getitem query "name" in find_matching_attribute dtos "name" name
             else Raise (ValueError "Impossible!"))%result in
     match map with
     | None => raise (NotFoundError EmptyString)
     | Some i =>
         let map := (maps, i) in
         let* _ := map_stamp_record map query in
         record_dto map
     end
   else
     ret VNone)%M.

(** *** Summoner spells *)

Definition _validate_get_summoner_spell_query :=
  validate [has [("id", Tint); ("name", Tstr)];
            has [("platform", TPlatform)];
            can_have "version" (Some Tstr) (Some (default_call _get_default_version));
            can_have "locale" (Some Tstr) (Some (default_call _get_default_locale));
            can_have "includedData" None (Some (default_value all_))].

Definition _validate_get_many_summoner_spell_query :=
  validate [has [("ids", TIterable)];
            has [("platform", TPlatform)];
            can_have "version" (Some Tstr) None;
            can_have "locale" (Some Tstr) (Some (default_call _get_default_locale));
            can_have "includedData" None (Some (default_value all_))].

Definition _validate_get_summoner_spell_list_query :=
  validate [has [("platform", TPlatform)];
            can_have "version" (Some Tstr) None;
            can_have "locale" (Some Tstr) (Some (default_call _get_default_locale));
            can_have "includedData" None (Some (default_value all_))].

(** [get_summoner_spell_list]: the parameters and the url of the request. *)
Definition summoner_spell_list_request (query : dict) : result (string * dict) :=
  (let* locale := getitem query "locale" in
   let* tags := tags_of query in
   let params := [("locale", locale); ("tags", tags)] in
   let params := with_version query params in
   let* url := url_of query "summoner-spells" in
   Ok (url, params))%result.

(** [get_summoner_spell_list]: what is done to the fetched data before it is
    stored. *)
Definition summoner_spell_list_stamp (query : dict) (data : value) : result dict :=
  (let* data := assign data "region" (region_of query) in
   let* data := assign data "locale" (getitem query "locale") in
   let* data := assign data "includedData" (getitem query "includedData") in
   let* summoner_spells := subscript data (VStr "data") in
   let* summoner_spells := for_each summoner_spells (fun summoner_spell =>
     let* summoner_spell := assign summoner_spell "region" (region_of query) in
     let* summoner_spell := assign summoner_spell "version" (getitem query "version") in
     let* summoner_spell := assign summoner_spell "locale" (getitem query "locale") in
     assign summoner_spell "includedData" (getitem query "includedData")) in
   let data := store_back data (VStr "data") summoner_spells in
   Dto data)%result.

Definition get_summoner_spell_list (query : dict) (context : PipelineContext) : M loc :=
  (let* query := lift (_validate_get_summoner_spell_list_query query context) in
   let ahash := calculate_hash _hash_included_data query in
   let* cached := cache_get SummonerSpellListDto ahash in
   match cached with
   | Some result => ret result
   | None =>
       let* request := lift (summoner_spell_list_request query) in
       let* data := try_get (fst request) (snd request) query "staticdata/summoner-spells" in
       let* result := lift (summoner_spell_list_stamp query data) in
       let* result := new_object result in
       let* _ := cache_set SummonerSpellListDto ahash result in
       ret result
   end)%M.

(** [get_summoner_spell], by the list: the stamps put on the matching record, in
    place. *)
Definition summoner_spell_stamp_record (summoner_spell : record_ref) (query : dict) : M unit :=
  (let* _ := record_assign summoner_spell "region" (region_of query) in
   let* _ := record_assign summoner_spell "version" (getitem query "version") in
   let* _ := record_assign summoner_spell "locale" (getitem query "locale") in
   record_assign summoner_spell "includedData" (getitem query "includedData"))%M.

(** [get_summoner_spell], by id: the parameters and the url of the request. *)
Definition summoner_spell_request (query : dict) : result (string * dict) :=
  (let* version := getitem query "version" in
   let* locale := getitem query "locale" in
   let* tags := tags_of query in
   let params := [("version", version); ("locale", locale); ("tags", tags)] in
   let* url := url_of_id query "summoner-spells" in
   Ok (url, params))%result.

(** [get_summoner_spell], by id: what is done to the fetched data. *)
Definition summoner_spell_stamp (query : dict) (data : value) : result dict :=
  (let* data := assign data "region" (region_of query) in
   let* data := assign data "version" (getitem query "version") in
   let* data := assign data "locale" (getitem query "locale") in
   let* data := assign data "includedData" (getitem query "includedData") in
   Dto data)%result.

Definition get_summoner_spell (query : dict) (context : PipelineContext) : M value :=
  (let* query := lift (_validate_get_summoner_spell_query query context) in
   if request_by_id || contains "name" query then
     let summoner_spells_query := query in
     let summoner_spells_query := if contains "id" summoner_spells_query
                         then dict_pop summoner_spells_query "id" else summoner_spells_query in
     let summoner_spells_query := if contains "name" summoner_spells_query
                         then dict_pop summoner_spells_query "name" else summoner_spells_query in
     let* summoner_spells := get_summoner_spell_list summoner_spells_query context in
     let* dtos := data_values summoner_spells in
     let* summoner_spell :=
       lift (if contains "id" query then
               let* id := getitem query "id" in find_matching_attribute dtos "id" id
             else if contains "name" query then
               let* name := getitem query "name" in find_matching_attribute dtos "name" name
             else Raise (ValueError "Impossible!"))%result in
     match summoner_spell with
     | None => raise (NotFoundError EmptyString)
     | Some i =>
         let summoner_spell := (summoner_spells, i) in
         let* _ := summoner_spell_stamp_record summoner_spell query in
         record_dto summoner_spell
     end
   else
     let* request := lift (summoner_spell_request query) in
     let* data := try_get (fst request) (snd request) query "staticdata/summoner-spell" in
     let* dto := lift (summoner_spell_stamp query data) in
     ret (VDict dto))%M.

(** [get_many_summoner_spell]: the parameters and the url of the request. *)
Definition many_summoner_spell_request (query : dict) : result (string * dict) :=
  (let* locale := getitem query "locale" in
   let* tags := tags_of query in
   let params := [("locale", locale); ("tags", tags)] in
   let params := with_version query params in
   let* url := url_of query "summoner-spells" in
   Ok (url, params))%result.

(** The body of the loop of the generator of [get_many_summoner_spell] for one id:
    the fetched data with the record changed in place, and the dto that is
    yielded. *)
Definition summoner_spell_generator_body (query : dict) (data id : value)
  : result (value * value) :=
  (let* summoner_spell :=
     except_KeyError
       (let* d := subscript data (VStr "data") in subscript d id)
       (NotFoundError ("No summoner spell exists with id " ++ quote ++ str id ++ quote)) in
   let* summoner_spell := assign summoner_spell "region" (region_of query) in
   let* summoner_spell := assign summoner_spell "version" (subscript data (VStr "version")) in
   let* summoner_spell := assign summoner_spell "locale" (getitem query "locale") in
   let* summoner_spell := assign summoner_spell "includedData" (getitem query "includedData") in
   let* dto := Dto summoner_spell in
   Ok (store_record data id summoner_spell, VDict dto))%result.

Definition get_many_summoner_spell (query : dict) (context : PipelineContext) : M generator :=
  (let* query := lift (_validate_get_many_summoner_spell_query query context) in
   let* request := lift (many_summoner_spell_request query) in
   let* data := try_get (fst request) (snd request) query "staticdata/summoner-spell" in
   let* ids := lift (let* ids := getitem query "ids" in py_list ids)%result in
   ret {| body := summoner_spell_generator; g_query := query; g_data := data;
          g_ids := ids; g_finished := false |})%M.

(** *** Pulling from a generator *)

Definition generator_body_of (b : generator_body)
  : dict -> value -> value -> result (value * value) :=
  match b with
  | champion_generator => champion_generator_body
  | mastery_generator => mastery_generator_body
  | rune_generator => rune_generator_body
  | item_generator => item_generator_body
  | summoner_spell_generator => summoner_spell_generator_body
  end.

(** [next(g)]: the loop body runs for the next id when the element is
    pulled; a generator that has raised, or whose ids are used up, has
    finished and only says [StopIteration] from then on. *)
Definition next (g : generator) : outcome * generator :=
  if g_finished g then (StopIteration, g)
  else
    match g_ids g with
    | [] =>
        (StopIteration,
         {| body := body g; g_query := g_query g; g_data := g_data g;
            g_ids := []; g_finished := true |})
    | id :: ids =>
        match generator_body_of (body g) (g_query g) (g_data g) id with
        | Ok (data, dto) =>
            (Yield dto,
             {| body := body g; g_query := g_query g; g_data := data;
                g_ids := ids; g_finished := false |})
        | Raise e =>
            (Raised e,
             {| body := body g; g_query := g_query g; g_data := g_data g;
                g_ids := ids; g_finished := true |})
        end
    end.

(** The outcomes of [n] successive calls of [next], and the generator
    after them. *)
Fixpoint pull (n : nat) (g : generator) : list outcome :=
  match n with
  | O => []
  | S n' => let (o, g') := next g in o :: pull n' g'
  end.

Fixpoint after (n : nat) (g : generator) : generator :=
  match n with
  | O => g
  | S n' => after n' (snd (next g))
  end.

(** *** Dispatch on the requested type *)

(** What [get] returns: a single dto is a new dict, a list dto is the
    stored list object itself. *)
Inductive object :=
| Value (v : value)
| Reference (l : loc).

Definition returning_value (m : M value) : M object :=
  (let* v := m in ret (Value v))%M.
Definition returning_reference (m : M loc) : M object :=
  (let* l := m in ret (Reference l))%M.

(** [get(type, query, context)] for the types registered here. *)
Definition get (type : dto_type) (query : dict) (context : PipelineContext) : M object :=
  match type with
  | ChampionDto => returning_value (get_champion query context)
  | ChampionListDto => returning_reference (get_champion_list query context)
  | MasteryDto => returning_value (get_mastery query context)
  | MasteryListDto => returning_reference (get_mastery_list query context)
  | RuneDto => returning_value (get_rune query context)
  | RuneListDto => returning_reference (get_rune_list query context)
  | ItemDto => returning_value (get_item query context)
  | ItemListDto => returning_reference (get_item_list query context)
  | MapDto => returning_value (get_map query context)
  | MapListDto => returning_reference (get_map_list query context)
  | SummonerSpellDto => returning_value (get_summoner_spell query context)
  | SummonerSpellListDto => returning_reference (get_summoner_spell_list query context)
  end.

(** [get_many(type, query, context)] for the requests by ids; the
    [get_many] of the other types are not part of this development. *)
Definition get_many (type : dto_type)
  : option (dict -> PipelineContext -> M generator) :=
  match type with
  | ChampionDto => Some get_many_champion
  | MasteryDto => Some get_many_mastery
  | RuneDto => Some get_many_rune
  | ItemDto => Some get_many_item
  | SummonerSpellDto => Some get_many_summoner_spell
  | _ => None
  end.

(** *** The frames that the operations share

    The operations of one kind are the same text up to the pieces named
    above; these are the common frames, and each operation is shown below to
    be its frame applied to its pieces. *)

Definition cached_list (type : dto_type)
  (validator : dict -> PipelineContext -> result dict)
  (request_of : dict -> result (string * dict)) (bucket : string)
  (stamp : dict -> value -> result dict)
  (query : dict) (context : PipelineContext) : M loc :=
  (let* query := lift (validator query context) in
   let ahash := calculate_hash _hash_included_data query in
   let* cached := cache_get type ahash in
   match cached with
   | Some result => ret result
   | None =>
       let* request := lift (request_of query) in
       let* data := try_get (fst request) (snd request) query bucket in
       let* result := lift (stamp query data) in
       let* result := new_object result in
       let* _ := cache_set type ahash result in
       ret result
   end)%M.

Definition by_list_or_id
  (validator : dict -> PipelineContext -> result dict)
  (get_list : dict -> PipelineContext -> M loc)
  (stamp_record : record_ref -> dict -> M unit)
  (by_id : dict -> M value)
  (query : dict) (context : PipelineContext) : M value :=
  (let* query := lift (validator query context) in
   if request_by_id || contains "name" query then
     let list_query := query in
     let list_query := if contains "id" list_query
                       then dict_pop list_query "id" else list_query in
     let list_query := if contains "name" list_query
                       then dict_pop list_query "name" else list_query in
     let* dto_list := get_list list_query context in
     let* dtos := data_values dto_list in
     let* found :=
       lift (if contains "id" query then
               let* id := getitem query "id" in find_matching_attribute dtos "id" id
             else if contains "name" query then
               let* name := getitem query "name" in find_matching_attribute dtos "name" name
             else Raise (ValueError "Impossible!"))%result in
     match found with
     | None => raise (NotFoundError EmptyString)
     | Some i =>
         let* _ := stamp_record (dto_list, i) query in
         record_dto (dto_list, i)
     end
   else by_id query)%M.

Definition fetch_by_id (request_of : dict -> result (string * dict)) (bucket : string)
  (stamp : dict -> value -> result dict) (query : dict) : M value :=
  (let* request := lift (request_of query) in
   let* data := try_get (fst request) (snd request) query bucket in
   let* dto := lift (stamp query data) in
   ret (VDict dto))%M.

Definition stamp_record_with (included : bool) (r : record_ref) (query : dict) : M unit :=
  (let* _ := record_assign r "region" (region_of query) in
   let* _ := record_assign r "version" (getitem query "version") in
   if included then
     let* _ := record_assign r "locale" (getitem query "locale") in
     record_assign r "includedData" (getitem query "includedData")
   else record_assign r "locale" (getitem query "locale"))%M.

Definition generator_body_with (key_of : value -> value) (what : string)
  (repair : value -> result value) (query : dict) (data id : value)
  : result (value * value) :=
  (let* record :=
     except_KeyError
       (let* d := subscript data (VStr "data") in subscript d (key_of id))
       (NotFoundError ("No " ++ what ++ " exists with id " ++ quote ++ str id ++ quote)) in
   let* record := assign record "region" (region_of query) in
   let* record := assign record "version" (subscript data (VStr "version")) in
   let* record := assign record "locale" (getitem query "locale") in
   let* record := assign record "includedData" (getitem query "includedData") in
   let* record := repair record in
   let* dto := Dto record in
   Ok (store_record data (key_of id) record, VDict dto))%result.

(** The key under which the body of a generator looks an id up. *)
Definition key_of (b : generator_body) (id : value) : value :=
  match b with
  | summoner_spell_generator => id
  | _ => VStr (str id)
  end.

(** The validator that [get] runs for a type. *)
Definition validator_of (type : dto_type) : dict -> PipelineContext -> result dict :=
  match type with
  | ChampionDto => _validate_get_champion_query
  | ChampionListDto => _validate_get_champion_list_query
  | MasteryDto => _validate_get_mastery_query
  | MasteryListDto => _validate_get_mastery_list_query
  | RuneDto => _validate_get_rune_query
  | RuneListDto => _validate_get_rune_list_query
  | ItemDto => _validate_get_item_query
  | ItemListDto => _validate_get_item_list_query
  | MapDto => _validate_get_map_query
  | MapListDto => _validate_get_map_list_query
  | SummonerSpellDto => _validate_get_summoner_spell_query
  | SummonerSpellListDto => _validate_get_summoner_spell_list_query
  end.

(** The cache slot in which [get] looks a query of a list type up: the
    fingerprint of the validated query. *)
Definition fingerprint (type : dto_type) (query : dict) (context : PipelineContext)
  : option cache_key :=
  match validator_of type query context with
  | Ok query => as_key (calculate_hash _hash_included_data query)
  | Raise _ => None
  end.

End StaticDataAPI.

Definition is_list (type : dto_type) : bool :=
  match type with
  | ChampionListDto | MasteryListDto | RuneListDto
  | ItemListDto | MapListDto | SummonerSpellListDto => true
  | _ => false
  end.

(** The list type through which a single type is resolved. *)
Definition list_of (type : dto_type) : dto_type :=
  match type with
  | ChampionDto => ChampionListDto
  | MasteryDto => MasteryListDto
  | RuneDto => RuneListDto
  | ItemDto => ItemListDto
  | MapDto => MapListDto
  | SummonerSpellDto => SummonerSpellListDto
  | t => t
  end.

(** ** Vocabulary of the properties *)

(** Two values that differ at most in the iteration order of a set. *)
Inductive same_value : value -> value -> Prop :=
| same_value_set xs ys : Permutation xs ys -> same_value (VSet xs) (VSet ys)
| same_value_refl v : same_value v v.

Definition same_item (a b : string * value) : Prop :=
  fst a = fst b /\ same_value (snd a) (snd b).

(** Two queries with the same key/value pairs, possibly inserted in another
    order and with sets iterated in another order. *)
Definition same_query (q1 q2 : dict) : Prop :=
  exists q, Permutation q1 q /\ Forall2 same_item q q2.

(** Booleans are the integers 0 and 1: the scalar with its number made an
    integer. *)
Definition canon (a : atom) : atom :=
  match a with
  | ABool b => AInt (Z.b2z b)
  | _ => a
  end.

(** The pieces of the list operation of a list type: its request, the
    bucket of its rate limiter and its stamping. *)
Definition list_request_of (type : dto_type) : dict -> result (string * dict) :=
  match type with
  | ChampionListDto => champion_list_request
  | MasteryListDto => mastery_list_request
  | RuneListDto => rune_list_request
  | ItemListDto => item_list_request
  | MapListDto => map_list_request
  | _ => summoner_spell_list_request
  end.

Definition list_bucket_of (type : dto_type) : string :=
  match type with
  | ChampionListDto => "staticdata/champions"
  | MasteryListDto => "staticdata/masteries"
  | RuneListDto => "staticdata/runes"
  | ItemListDto => "staticdata/items"
  | MapListDto => "staticdata/maps"
  | _ => "staticdata/summoner-spells"
  end.

Definition list_stamp_of (type : dto_type) : dict -> value -> result dict :=
  match type with
  | ChampionListDto => champion_list_stamp
  | MasteryListDto => mastery_list_stamp
  | RuneListDto => rune_list_stamp
  | ItemListDto => item_list_stamp
  | MapListDto => map_list_stamp
  | _ => summoner_spell_list_stamp
  end.

(** The request that [try_get] sends. *)
Definition request_for (req : string * dict) (platform : value) (bucket : string)
  : request :=
  {| url := fst req; params := snd req; rate_limiter := (platform, bucket) |}.

(** The state after a list object [d] was built from a fetch [r] and put
    in the slot [k] of the cache of [type]. *)
Definition stored (s : service) (type : dto_type) (k : cache_key) (d : dict)
  (r : request) : service :=
  {| heap := heap s ++ [d];
     _cache := fun t => if dto_type_eqb t type
                        then slot_set (_cache s t) k (length (heap s))
                        else _cache s t;
     calls := calls s ++ [r] |}.

(** The pieces of the operation of a single type. *)
Definition by_id_of (transport : list request -> request -> response)
  (py_repr : value -> string) (type : dto_type) : dict -> M value :=
  match type with
  | ChampionDto =>
      fetch_by_id transport (champion_request py_repr) "staticdata/champion" champion_stamp
  | MasteryDto =>
      fetch_by_id transport (mastery_request py_repr) "staticdata/mastery" mastery_stamp
  | RuneDto =>
      fetch_by_id transport (rune_request py_repr) "staticdata/rune" rune_stamp
  | ItemDto =>
      fetch_by_id transport (item_request py_repr) "staticdata/item" item_stamp
  | SummonerSpellDto =>
      fetch_by_id transport (summoner_spell_request py_repr)
        "staticdata/summoner-spell" summoner_spell_stamp
  | _ => fun _ => ret VNone
  end.

(** Whether the records of a single type are stamped with [includedData]:
    all but maps. *)
Definition has_includedData (type : dto_type) : bool :=
  match type with
  | MapDto | MapListDto => false
  | _ => true
  end.

(** ** Example data *)

Definition NA : Platform :=
  {| p_value := "NA1"; p_region_value := "NA"; p_default_locale := "en_US" |}.

(** A list payload with two records; the first one comes with a version of
    its own. *)
Definition example_payload : value :=
  VDict [("type", VStr "champion"); ("version", VStr "7.2");
         ("data", VDict [("1", VDict [("id", VInt 1); ("name", VStr "Annie");
                                      ("version", VStr "0.0")]);
                         ("17", VDict [("id", VInt 17); ("name", VStr "Teemo")])])].

Definition example_transport : list request -> request -> response :=
  fun _ _ => Payload example_payload.

Definition example_hash : list string -> Z := fun xs => Z.of_nat (length xs).

Definition example_repr : value -> string := fun _ => "?".

(** A context whose pipeline reports version 7.1 for every realm. *)
Definition example_context : PipelineContext :=
  Some {| pipeline_get_RealmDto := fun _ => Ok (VDict [("v", VStr "7.1")]) |}.

(** ** Vocabulary of the generators *)

Definition is_Yield (o : outcome) : Prop :=
  match o with
  | Yield _ => True
  | _ => False
  end.

(** The entity that the message of a generator names. *)
Definition what_of (b : generator_body) : string :=
  match b with
  | champion_generator => "champion"
  | mastery_generator => "mastery"
  | rune_generator => "rune"
  | item_generator => "item"
  | summoner_spell_generator => "summoner spell"
  end.

Definition repair_of (b : generator_body) : value -> result value :=
  match b with
  | item_generator => repair_item
  | _ => Ok
  end.

(** The computation does not raise [NotFoundError]. *)
Definition never_NotFound {A} (r : result A) : Prop :=
  forall msg, r <> Raise (NotFoundError msg).

(** [No {what} exists with id "{id}"] *)
Definition not_found_message (py_repr : value -> string) (b : generator_body)
  (id : value) : string :=
  "No " ++ what_of b ++ " exists with id " ++ quote ++ str py_repr id ++ quote.

(** The id has no entry in the data mapping of the fetched payload: looking
    its key up raises [KeyError]. *)
Definition missing (py_repr : value -> string) (b : generator_body) (data id : value)
  : Prop :=
  exists top d,
    data = VDict top /\ dict_get top "data" = Some (VDict d) /\
    subscript (VDict d) (key_of py_repr b id) = Raise KeyError.

(** A generator of [get_many] as it is returned: nothing pulled yet. *)
Definition example_generator (b : generator_body) (ids : list value) : generator :=
  {| body := b;
     g_query := [("ids", VList ids); ("platform", VPlatform NA);
                 ("version", VStr "7.1"); ("locale", VStr "en_US");
                 ("includedData", VSet ["all"])];
     g_data := example_payload;
     g_ids := ids;
     g_finished := false |}.

(** ** Vocabulary of the store *)

(** The fields that stamping writes. *)
Definition stamps : list string := ["region"; "version"; "locale"; "includedData"].

Definition is_stamp (k : string) : bool := existsb (String.eqb k) stamps.

(** Two records that agree on every field that is not a stamp. *)
Definition agree_but_stamps (v v' : value) : Prop :=
  match v, v' with
  | VDict r, VDict r' => forall k, is_stamp k = false -> dict_get r' k = dict_get r k
  | _, _ => v = v'
  end.

Definition same_record (a b : string * value) : Prop :=
  fst a = fst b /\ agree_but_stamps (snd a) (snd b).

(** Two list objects with the same entries, the same records under the
    same keys in the same order, the records agreeing on every field that
    is not a stamp. *)
Definition same_but_stamps (top top' : dict) : Prop :=
  (forall k, k <> "data" -> dict_get top' k = dict_get top k) /\
  match dict_get top "data", dict_get top' "data" with
  | Some (VDict d), Some (VDict d') => Forall2 same_record d d'
  | x, y => x = y
  end.

(** From [s] to [s']: the objects of the store are still there, changed at
    most in the stamps of their records, and every filled slot of the cache
    still holds the same object. *)
Definition only_stamped (s s' : service) : Prop :=
  length (heap s) <= length (heap s') /\
  (forall l, l < length (heap s) -> same_but_stamps (load l s) (load l s')) /\
  (forall t k l, slot_get (_cache s t) k = Some l -> slot_get (_cache s' t) k = Some l).

(** The objects in the slots of the cache are in the store. *)
Definition wf (s : service) : Prop :=
  forall t k l, slot_get (_cache s t) k = Some l -> l < length (heap s).

(** An item record after the repair rules: the item 3632 has the empty
    name, and tags, depth, colloq and plaintext are there. *)
Definition item_ok (v : value) : Prop :=
  exists d,
    v = VDict d /\
    (forall id, dict_get d "id" = Some id -> py_eq id (VInt 3632) = true ->
                dict_get d "name" = Some (VStr EmptyString)) /\
    contains "tags" d = true /\ contains "depth" d = true /\
    contains "colloq" d = true /\ contains "plaintext" d = true.

Definition list_items_ok (top : dict) : Prop :=
  forall d, records_of top = Ok d -> Forall (fun kv => item_ok (snd kv)) d.

(** Every item list in the cache holds repaired records only. *)
Definition items_ok (s : service) : Prop :=
  forall k l, slot_get (_cache s ItemListDto) k = Some l -> list_items_ok (load l s).

Definition invariant (s : service) : Prop := wf s /\ items_ok s.

(** One operation of the service, from state to state. *)
Definition step (s s' : service) : Prop :=
  only_stamped s s' /\ (wf s -> wf s') /\ (invariant s -> invariant s').

(** Every run of the computation is a [step]. *)
Definition steps {A} (m : M A) : Prop := forall s, step s (snd (m s)).

(** A dict with a default for an absent key. *)
Definition with_default_field (d : dict) (k : string) (v : value) : dict :=
  if contains k d then d else dict_set d k v.

(** What the repair rules make of an item record with the given id. *)
Definition repaired (d : dict) (id : value) : dict :=
  let d := if py_eq id (VInt 3632) then dict_set d "name" (VStr EmptyString) else d in
  let d := with_default_field d "tags" (VList []) in
  let d := with_default_field d "depth" (VInt 1) in
  let d := with_default_field d "colloq" (VStr EmptyString) in
  with_default_field d "plaintext" (VStr EmptyString).

(** A record after the four stamps. *)
Definition stamped (r : dict) (region version locale included : value) : dict :=
  dict_set (dict_set (dict_set (dict_set r "region" region) "version" version)
              "locale" locale) "includedData" included.

(** A list payload of items: the item 3632 comes with a name, the other
    one lacks the optional fields. *)
Definition example_items : value :=
  VDict [("type", VStr "item"); ("version", VStr "7.2");
         ("data", VDict [("3632", VDict [("id", VInt 3632); ("name", VStr "Placeholder");
                                         ("tags", VList [VStr "Trinket"])]);
                         ("1001", VDict [("id", VInt 1001); ("name", VStr "Boots")])])].

(** The query that the list-and-filter path passes on to the list
    operation: the query without its id and name. *)
Definition list_query (query : dict) : dict :=
  let q := if contains "id" query then dict_pop query "id" else query in
  if contains "name" q then dict_pop q "name" else q.

(** The validator that [get_many] runs for a type. *)
Definition many_validator_of (type : dto_type) : dict -> PipelineContext -> result dict :=
  match type with
  | ChampionDto => _validate_get_many_champion_query
  | MasteryDto => _validate_get_many_mastery_query
  | RuneDto => _validate_get_many_rune_query
  | ItemDto => _validate_get_many_item_query
  | _ => _validate_get_many_summoner_spell_query
  end.

(** The record [x] carries the stamps [region], [version], [locale] and,
    when it is given, [includedData]. *)
Definition has_stamps (x : dict) (region version locale : value)
  (included : option value) : Prop :=
  dict_get x "region" = Some region /\
  dict_get x "version" = Some version /\
  dict_get x "locale" = Some locale /\
  match included with
  | Some data => dict_get x "includedData" = Some data
  | None => True
  end.

(** The record [x] carries the region, locale and includedData of the
    query, and the given version. *)
Definition stamped_from (query : dict) (version : value) (x : dict) : Prop :=
  exists region locale data,
    region_of query = Ok region /\
    getitem query "locale" = Ok locale /\
    getitem query "includedData" = Ok data /\
    has_stamps x region version locale (Some data).

(** Whether the records of a list of this type get the version of the
    query; those of a mastery list get the version of the payload, those of
    a map list get no stamp, and a summoner spell list is left aside. *)
Definition records_get_query_version (type : dto_type) : bool :=
  match type with
  | ChampionListDto | RuneListDto | ItemListDto => true
  | _ => false
  end.

(** ** The operations that keep no cache

    Versions, realms, languages, language strings and profile icons are
    fetched at every [get]; the [get_many] of these and of the list types
    takes platforms and fetches one payload a platform, when the element
    is pulled. *)

Definition upper_ascii (c : ascii) : ascii :=
  let n := nat_of_ascii c in
  if (97 <=? n)%nat && (n <=? 122)%nat then ascii_of_nat (n - 32) else c.

(** [s.upper()], on the ASCII letters. *)
Fixpoint upper (s : string) : string :=
  match s with
  | EmptyString => EmptyString
  | String c s' => String (upper_ascii c) (upper s')
  end.

(** [if "locale" in query: params["locale"] = query["locale"]] *)
Definition with_locale (query params : dict) : dict :=
  match dict_get query "locale" with
  | Some v => dict_set params "locale" v
  | None => params
  end.

(** ["https://{platform}.api.riotgames.com/lol/static-data/v3/" + path],
    with [platform=platform.value.lower()]. *)
Definition url_for (platform : Platform) (path : string) : string :=
  "https://" ++ lower (p_value platform) ++ ".api.riotgames.com/lol/static-data/v3/" ++ path.

(** [query["locale"] if "locale" in query else platform.default_locale] *)
Definition locale_for (query : dict) (platform : Platform) : value :=
  match dict_get query "locale" with
  | Some v => v
  | None => VStr (p_default_locale platform)
  end.

(** [platform.region.value] *)
Definition region_for (platform : Platform) : value := VStr (p_region_value platform).

(** The types of [get] whose operations keep no cache. *)
Inductive plain_type :=
| VersionListDto
| RealmDto
| LanguagesDto
| LanguageStringsDto
| ProfileIconDataDto.

Inductive platform_body :=
| champion_list_generator
| mastery_list_generator
| rune_list_generator
| item_list_generator
| summoner_spell_list_generator
| realms_generator
| language_generator
| language_strings_generator
| profile_icons_generator.

(** The state of a generator over platforms: the variables its body
    closes over ([query] and the [params] built before it was returned),
    the platforms still to come, and whether it has finished.  The
    platforms are listed when the generator is built: [query["platforms"]]
    has passed validation as an iterable, so listing it cannot fail. *)
Record platform_generator := {
  pg_body : platform_body;
  pg_query : dict;
  pg_params : dict;
  pg_platforms : list value;
  pg_finished : bool
}.

Section PerPlatform.

Variable transport : list request -> request -> response.

(** Modelled from the spec: [Platform(value)], the member of the
    enumeration [Platform] (cassiopeia.data, absent from src/) that has the
    given value; there is none for a string that is no platform, and the
    call raises [ValueError]. *)
Variable Platform_of : string -> option Platform.

(** Python's [repr], in the message of that [ValueError]; not modelled. *)
Variable py_repr : value -> string.

(** [Platform(platform.upper())]; only a string has [upper]. *)
Definition to_Platform (platform : value) : result Platform :=
  match platform with
  | VStr s =>
      match Platform_of (upper s) with
      | Some p => Ok p
      | None => Raise (ValueError (py_repr (VStr (upper s)) ++ " is not a valid Platform"))
      end
  | _ => Raise AttributeError
  end.

(** [try: data = self._get(url, params, self._get_rate_limiter(platform, bucket))]
    [except APINotFoundError as error: raise NotFoundError(str(error))] *)
Definition try_get_for (url : string) (params : dict) (platform : Platform)
  (bucket : string) : M value :=
  fun s =>
    match _get transport url params (VPlatform platform, bucket) s with
    | (Raise (APINotFoundError msg), s') => (Raise (NotFoundError msg), s')
    | r => r
    end.

(** *** Versions *)

Definition _validate_get_versions_query :=
  validate [has [("platform", TPlatform)]].

(** [get_versions]: the parameters and the url of the request. *)
Definition versions_request (query : dict) : result (string * dict) :=
  (let params := [] in
   let* url := url_of query "versions" in
   Ok (url, params))%result.

(** [get_versions]: the dto made of the fetched data. *)
Definition versions_stamp (query : dict) (data : value) : result dict :=
  (let* region := region_of query in
   let data := VDict [("region", region); ("versions", data)] in
   Dto data)%result.

Definition get_versions (query : dict) (context : PipelineContext) : M value :=
  (let* query := lift (_validate_get_versions_query query context) in
   let* request := lift (versions_request query) in
   let* data := try_get transport (fst request) (snd request) query "staticdata/versions" in
   let* dto := lift (versions_stamp query data) in
   ret (VDict dto))%M.

(** *** Realms *)

Definition _validate_get_realms_query :=
  validate [has [("platform", TPlatform)]].

(** [get_realms]: the parameters and the url of the request. *)
Definition realms_request (query : dict) : result (string * dict) :=
  (let params := [] in
   let* url := url_of query "realms" in
   Ok (url, params))%result.

(** [get_realms]: the dto made of the fetched data. *)
Definition realms_stamp (query : dict) (data : value) : result dict :=
  (let* data := assign data "region" (region_of query) in
   Dto data)%result.

Definition get_realms (query : dict) (context : PipelineContext) : M value :=
  (let* query := lift (_validate_get_realms_query query context) in
   let* request := lift (realms_request query) in
   let* data := try_get transport (fst request) (snd request) query "staticdata/realms" in
   let* dto := lift (realms_stamp query data) in
   ret (VDict dto))%M.

(** *** Language *)

Definition _validate_get_languages_query :=
  validate [has [("platform", TPlatform)]].

(** [get_language]: the parameters and the url of the request. *)
Definition language_request (query : dict) : result (string * dict) :=
  (let params := [] in
   let* url := url_of query "languages" in
   Ok (url, params))%result.

(** [get_language]: the dto made of the fetched data. *)
Definition language_stamp (query : dict) (data : value) : result dict :=
  (let* region := region_of query in
   let data := VDict [("region", region); ("languages", data)] in
   Dto data)%result.

Definition get_language (query : dict) (context : PipelineContext) : M value :=
  (let* query := lift (_validate_get_languages_query query context) in
   let* request := lift (language_request query) in
   let* data := try_get transport (fst request) (snd request) query "staticdata/language" in
   let* dto := lift (language_stamp query data) in
   ret (VDict dto))%M.

(** *** Language strings *)

Definition _validate_get_language_strings_query :=
  validate [has [("platform", TPlatform)];
            can_have "version" (Some Tstr) None;
            can_have "locale" (Some Tstr) (Some (default_call _get_default_locale))].

(** [get_language_strings]: the parameters and the url of the request. *)
Definition language_strings_request (query : dict) : result (string * dict) :=
  (let* locale := getitem query "locale" in
   let params := [("locale", locale)] in
   let params := with_version query params in
   let* url := url_of query "language-strings" in
   Ok (url, params))%result.

(** [get_language_strings]: the dto made of the fetched data. *)
Definition language_strings_stamp (query : dict) (data : value) : result dict :=
  (let* data := assign data "region" (region_of query) in
   let* data := assign data "locale" (getitem query "locale") in
   Dto data)%result.

Definition get_language_strings (query : dict) (context : PipelineContext) : M value :=
  (let* query := lift (_validate_get_language_strings_query query context) in
   let* request := lift (language_strings_request query) in
   let* data := try_get transport (fst request) (snd request) query "staticdata/language-strings" in
   let* dto := lift (language_strings_stamp query data) in
   ret (VDict dto))%M.

(** *** Profile icons *)

Definition _validate_get_profile_icons_query :=
  validate [has [("platform", TPlatform)];
            can_have "version" (Some Tstr) None;
            can_have "locale" (Some Tstr) (Some (default_call _get_default_locale))].

(** [get_profile_icons]: the parameters and the url of the request. *)
Definition profile_icons_request (query : dict) : result (string * dict) :=
  (let* locale := getitem query "locale" in
   let params := [("locale", locale)] in
   let params := with_version query params in
   let* url := url_of query "profile-icons" in
   Ok (url, params))%result.

(** [get_profile_icons]: the dto made of the fetched data. *)
Definition profile_icons_stamp (query : dict) (data : value) : result dict :=
  (let* data := assign data "region" (region_of query) in
   let* data := assign data "locale" (getitem query "locale") in
   Dto data)%result.

Definition get_profile_icons (query : dict) (context : PipelineContext) : M value :=
  (let* query := lift (_validate_get_profile_icons_query query context) in
   let* request := lift (profile_icons_request query) in
   let* data := try_get transport (fst request) (snd request) query "staticdata/profile-icons" in
   let* dto := lift (profile_icons_stamp query data) in
   ret (VDict dto))%M.

(** *** The generators over platforms *)

(** **** Champion lists *)

Definition _validate_get_many_champion_list_query :=
  validate [has [("platforms", TIterable)];
            can_have "version" (Some Tstr) None;
            can_have "locale" (Some Tstr) None;
            can_have "includedData" None (Some (default_value all_));
            can_have "dataById" None (Some (default_value (VBool false)))].

(** [get_many_champion_list]: the parameters of the requests, built once. *)
Definition many_champion_list_params (query : dict) : result dict :=
  (let* tags := tags_of query in
   let* dataById := getitem query "dataById" in
   let params := [("tags", tags); ("dataById", dataById)] in
   let params := with_version query params in
   let params := with_locale query params in
   Ok params)%result.

(** [get_many_champion_list]: what the body does to the data fetched for a platform. *)
Definition many_champion_list_stamp (query : dict) (platform : Platform) (data : value)
  : result dict :=
  (let* data := assign data "region" (Ok (region_for platform)) in
   let* data := assign data "locale" (Ok (locale_for query platform)) in
   let* data := assign data "includedData" (getitem query "includedData") in
   Dto data)%result.

(** [get_many_champion_list]: the body of the loop, for one platform. *)
Definition champion_list_generator_body (query params : dict) (platform : value) : M value :=
  (let* platform := lift (to_Platform platform) in
   let url := url_for platform "champions" in
   let* data := try_get_for url params platform "staticdata/champions" in
   let* dto := lift (many_champion_list_stamp query platform data) in
   ret (VDict dto))%M.

Definition get_many_champion_list (query : dict) (context : PipelineContext) : M platform_generator :=
  (let* query := lift (_validate_get_many_champion_list_query query context) in
   let* params := lift (many_champion_list_params query) in
   let* platforms := lift (let* platforms := getitem query "platforms" in
                           py_list platforms)%result in
   ret {| pg_body := champion_list_generator; pg_query := query; pg_params := params;
          pg_platforms := platforms; pg_finished := false |})%M.

(** **** Mastery lists *)

Definition _validate_get_many_mastery_list_query :=
  validate [has [("platforms", TIterable)];
            can_have "version" (Some Tstr) None;
            can_have "locale" (Some Tstr) None;
            can_have "includedData" None (Some (default_value all_))].

(** [get_many_mastery_list]: the parameters of the requests, built once. *)
Definition many_mastery_list_params (query : dict) : result dict :=
  (let* tags := tags_of query in
   let params := [("tags", tags)] in
   let params := with_version query params in
   let params := with_locale query params in
   Ok params)%result.

(** [get_many_mastery_list]: what the body does to the data fetched for a platform. *)
Definition many_mastery_list_stamp (query : dict) (platform : Platform) (data : value)
  : result dict :=
  (let* data := assign data "region" (Ok (region_for platform)) in
   let* data := assign data "locale" (Ok (locale_for query platform)) in
   let* data := assign data "includedData" (getitem query "includedData") in
   Dto data)%result.

(** [get_many_mastery_list]: the body of the loop, for one platform. *)
Definition mastery_list_generator_body (query params : dict) (platform : value) : M value :=
  (let* platform := lift (to_Platform platform) in
   let url := url_for platform "masteries" in
   let* data := try_get_for url params platform "staticdata/masteries" in
   let* dto := lift (many_mastery_list_stamp query platform data) in
   ret (VDict dto))%M.

Definition get_many_mastery_list (query : dict) (context : PipelineContext) : M platform_generator :=
  (let* query := lift (_validate_get_many_mastery_list_query query context) in
   let* params := lift (many_mastery_list_params query) in
   let* platforms := lift (let* platforms := getitem query "platforms" in
                           py_list platforms)%result in
   ret {| pg_body := mastery_list_generator; pg_query := query; pg_params := params;
          pg_platforms := platforms; pg_finished := false |})%M.

(** **** Rune lists *)

Definition _validate_get_many_rune_list_query :=
  validate [has [("platforms", TIterable)];
            can_have "version" (Some Tstr) None;
            can_have "locale" (Some Tstr) None;
            can_have "includedData" None (Some (default_value all_))].

(** [get_many_rune_list]: the parameters of the requests, built once. *)
Definition many_rune_list_params (query : dict) : result dict :=
  (let* tags := tags_of query in
   let params := [("tags", tags)] in
   let params := with_version query params in
   let params := with_locale query params in
   Ok params)%result.

(** [get_many_rune_list]: what the body does to the data fetched for a platform. *)
Definition many_rune_list_stamp (query : dict) (platform : Platform) (data : value)
  : result dict :=
  (let* data := assign data "region" (Ok (region_for platform)) in
   let* data := assign data "locale" (Ok (locale_for query platform)) in
   let* data := assign data "includedData" (getitem query "includedData") in
   Dto data)%result.

(** [get_many_rune_list]: the body of the loop, for one platform. *)
Definition rune_list_generator_body (query params : dict) (platform : value) : M value :=
  (let* platform := lift (to_Platform platform) in
   let url := url_for platform "runes" in
   let* data := try_get_for url params platform "staticdata/runes" in
   let* dto := lift (many_rune_list_stamp query platform data) in
   ret (VDict dto))%M.

Definition get_many_rune_list (query : dict) (context : PipelineContext) : M platform_generator :=
  (let* query := lift (_validate_get_many_rune_list_query query context) in
   let* params := lift (many_rune_list_params query) in
   let* platforms := lift (let* platforms := getitem query "platforms" in
                           py_list platforms)%result in
   ret {| pg_body := rune_list_generator; pg_query := query; pg_params := params;
          pg_platforms := platforms; pg_finished := false |})%M.

(** **** Item lists *)

Definition _validate_get_many_item_list_query :=
  validate [has [("platforms", TIterable)];
            can_have "version" (Some Tstr) None;
            can_have "locale" (Some Tstr) None;
            can_have "includedData" None (Some (default_value all_))].

(** [get_many_item_list]: the parameters of the requests, built once. *)
Definition many_item_list_params (query : dict) : result dict :=
  (let* tags := tags_of query in
   let params := [("tags", tags)] in
   let params := with_version query params in
   let params := with_locale query params in
   Ok params)%result.

(** [get_many_item_list]: what the body does to the data fetched for a platform. *)
Definition many_item_list_stamp (query : dict) (platform : Platform) (data : value)
  : result dict :=
  (let* data := assign data "region" (Ok (region_for platform)) in
   let* data := assign data "locale" (Ok (locale_for query platform)) in
   let* data := assign data "includedData" (getitem query "includedData") in
   let* items := subscript data (VStr "data") in
   let* items := for_values items repair_item in
   let data := store_back data (VStr "data") items in
   Dto data)%result.

(** [get_many_item_list]: the body of the loop, for one platform. *)
Definition item_list_generator_body (query params : dict) (platform : value) : M value :=
  (let* platform := lift (to_Platform platform) in
   let url := url_for platform "items" in
   let* data := try_get_for url params platform "staticdata/items" in
   let* dto := lift (many_item_list_stamp query platform data) in
   ret (VDict dto))%M.

Definition get_many_item_list (query : dict) (context : PipelineContext) : M platform_generator :=
  (let* query := lift (_validate_get_many_item_list_query query context) in
   let* params := lift (many_item_list_params query) in
   let* platforms := lift (let* platforms := getitem query "platforms" in
                           py_list platforms)%result in
   ret {| pg_body := item_list_generator; pg_query := query; pg_params := params;
          pg_platforms := platforms; pg_finished := false |})%M.

(** **** Summoner spell lists *)

Definition _validate_get_many_summoner_spell_list_query :=
  validate [has [("platforms", TIterable)];
            can_have "version" (Some Tstr) None;
            can_have "locale" (Some Tstr) None;
            can_have "includedData" None (Some (default_value all_))].

(** [get_many_summoner_spell_list]: the parameters of the requests, built once. *)
Definition many_summoner_spell_list_params (query : dict) : result dict :=
  (let* tags := tags_of query in
   let params := [("tags", tags)] in
   let params := with_version query params in
   let params := with_locale query params in
   Ok params)%result.

(** [get_many_summoner_spell_list]: what the body does to the data fetched for a platform. *)
Definition many_summoner_spell_list_stamp (query : dict) (platform : Platform) (data : value)
  : result dict :=
  (let* data := assign data "region" (Ok (region_for platform)) in
   let* data := assign data "locale" (Ok (locale_for query platform)) in
   let* data := assign data "includedData" (getitem query "includedData") in
   Dto data)%result.

(** [get_many_summoner_spell_list]: the body of the loop, for one platform. *)
Definition summoner_spell_list_generator_body (query params : dict) (platform : value) : M value :=
  (let* platform := lift (to_Platform platform) in
   let url := url_for platform "summoner-spells" in
   let* data := try_get_for url params platform "staticdata/summoner-spells" in
   let* dto := lift (many_summoner_spell_list_stamp query platform data) in
   ret (VDict dto))%M.

Definition get_many_summoner_spell_list (query : dict) (context : PipelineContext) : M platform_generator :=
  (let* query := lift (_validate_get_many_summoner_spell_list_query query context) in
   let* params := lift (many_summoner_spell_list_params query) in
   let* platforms := lift (let* platforms := getitem query "platforms" in
                           py_list platforms)%result in
   ret {| pg_body := summoner_spell_list_generator; pg_query := query; pg_params := params;
          pg_platforms := platforms; pg_finished := false |})%M.

(** **** Realms *)

Definition _validate_get_many_realms_query :=
  validate [has [("platforms", TIterable)]].

(** [get_many_realms]: the parameters of the requests, built once. *)
Definition many_realms_params (query : dict) : result dict :=
  Ok [].

(** [get_many_realms]: what the body does to the data fetched for a platform. *)
Definition many_realms_stamp (query : dict) (platform : Platform) (data : value)
  : result dict :=
  (let* data := assign data "region" (Ok (region_for platform)) in
   Dto data)%result.

(** [get_many_realms]: the body of the loop, for one platform. *)
Definition realms_generator_body (query params : dict) (platform : value) : M value :=
  (let* platform := lift (to_Platform platform) in
   let url := url_for platform "realms" in
   let* data := try_get_for url params platform "staticdata/realms" in
   let* dto := lift (many_realms_stamp query platform data) in
   ret (VDict dto))%M.

Definition get_many_realms (query : dict) (context : PipelineContext) : M platform_generator :=
  (let* query := lift (_validate_get_many_realms_query query context) in
   let* params := lift (many_realms_params query) in
   let* platforms := lift (let* platforms := getitem query "platforms" in
                           py_list platforms)%result in
   ret {| pg_body := realms_generator; pg_query := query; pg_params := params;
          pg_platforms := platforms; pg_finished := false |})%M.

(** **** Language *)

Definition _validate_get_many_languages_query :=
  validate [has [("platforms", TIterable)]].

(** [get_many_language]: the parameters of the requests, built once. *)
Definition many_language_params (query : dict) : result dict :=
  Ok [].

(** [get_many_language]: what the body does to the data fetched for a platform. *)
Definition many_language_stamp (query : dict) (platform : Platform) (data : value)
  : result dict :=
  (let* data := assign data "region" (Ok (region_for platform)) in
   Dto data)%result.

(** [get_many_language]: the body of the loop, for one platform. *)
Definition language_generator_body (query params : dict) (platform : value) : M value :=
  (let* platform := lift (to_Platform platform) in
   let url := url_for platform "languages" in
   let* data := try_get_for url params platform "staticdata/language" in
   let* dto := lift (many_language_stamp query platform data) in
   ret (VDict dto))%M.

Definition get_many_language (query : dict) (context : PipelineContext) : M platform_generator :=
  (let* query := lift (_validate_get_many_languages_query query context) in
   let* params := lift (many_language_params query) in
   let* platforms := lift (let* platforms := getitem query "platforms" in
                           py_list platforms)%result in
   ret {| pg_body := language_generator; pg_query := query; pg_params := params;
          pg_platforms := platforms; pg_finished := false |})%M.

(** **** Language strings *)

Definition _validate_get_many_language_strings_query :=
  validate [has [("platforms", TIterable)];
            can_have "version" (Some Tstr) None;
            can_have "locale" (Some Tstr) None].

(** [get_many_language_strings]: the parameters of the requests, built once. *)
Definition many_language_strings_params (query : dict) : result dict :=
  (let params := [] in
   let params := with_version query params in
   let params := with_locale query params in
   Ok params)%result.

(** [get_many_language_strings]: what the body does to the data fetched for a platform. *)
Definition many_language_strings_stamp (query : dict) (platform : Platform) (data : value)
  : result dict :=
  (let* data := assign data "region" (Ok (region_for platform)) in
   let* data := assign data "locale" (Ok (locale_for query platform)) in
   Dto data)%result.

(** [get_many_language_strings]: the body of the loop, for one platform. *)
Definition language_strings_generator_body (query params : dict) (platform : value) : M value :=
  (let* platform := lift (to_Platform platform) in
   let url := url_for platform "language-strings" in
   let* data := try_get_for url params platform "staticdata/language-strings" in
   let* dto := lift (many_language_strings_stamp query platform data) in
   ret (VDict dto))%M.

Definition get_many_language_strings (query : dict) (context : PipelineContext) : M platform_generator :=
  (let* query := lift (_validate_get_many_language_strings_query query context) in
   let* params := lift (many_language_strings_params query) in
   let* platforms := lift (let* platforms := getitem query "platforms" in
                           py_list platforms)%result in
   ret {| pg_body := language_strings_generator; pg_query := query; pg_params := params;
          pg_platforms := platforms; pg_finished := false |})%M.

(** **** Profile icons *)

Definition _validate_get_many_profile_icons_query :=
  validate [has [("platforms", TIterable)];
            can_have "version" (Some Tstr) None;
            can_have "locale" (Some Tstr) None].

(** [get_many_profile_icons]: the parameters of the requests, built once. *)
Definition many_profile_icons_params (query : dict) : result dict :=
  (let params := [] in
   let params := with_version query params in
   let params := with_locale query params in
   Ok params)%result.

(** [get_many_profile_icons]: what the body does to the data fetched for a platform. *)
Definition many_profile_icons_stamp (query : dict) (platform : Platform) (data : value)
  : result dict :=
  (let* data := assign data "region" (Ok (region_for platform)) in
   let* data := assign data "locale" (Ok (locale_for query platform)) in
   Dto data)%result.

(** [get_many_profile_icons]: the body of the loop, for one platform. *)
Definition profile_icons_generator_body (query params : dict) (platform : value) : M value :=
  (let* platform := lift (to_Platform platform) in
   let url := url_for platform "profile-icons" in
   let* data := try_get_for url params platform "staticdata/profile-icons" in
   let* dto := lift (many_profile_icons_stamp query platform data) in
   ret (VDict dto))%M.

Definition get_many_profile_icons (query : dict) (context : PipelineContext) : M platform_generator :=
  (let* query := lift (_validate_get_many_profile_icons_query query context) in
   let* params := lift (many_profile_icons_params query) in
   let* platforms := lift (let* platforms := getitem query "platforms" in
                           py_list platforms)%result in
   ret {| pg_body := profile_icons_generator; pg_query := query; pg_params := params;
          pg_platforms := platforms; pg_finished := false |})%M.

(** *** Pulling from a generator over platforms *)

Definition platform_body_of (b : platform_body) : dict -> dict -> value -> M value :=
  match b with
  | champion_list_generator => champion_list_generator_body
  | mastery_list_generator => mastery_list_generator_body
  | rune_list_generator => rune_list_generator_body
  | item_list_generator => item_list_generator_body
  | summoner_spell_list_generator => summoner_spell_list_generator_body
  | realms_generator => realms_generator_body
  | language_generator => language_generator_body
  | language_strings_generator => language_strings_generator_body
  | profile_icons_generator => profile_icons_generator_body
  end.

(** [next(g)]: the loop body runs for the next platform, on the service,
    when the element is pulled; a generator that has raised, or whose
    platforms are used up, has finished and only says [StopIteration] from
    then on. *)
Definition next_platform (g : platform_generator) (s : service)
  : outcome * platform_generator * service :=
  if pg_finished g then (StopIteration, g, s)
  else
    match pg_platforms g with
    | [] =>
        (StopIteration,
         {| pg_body := pg_body g; pg_query := pg_query g; pg_params := pg_params g;
            pg_platforms := []; pg_finished := true |}, s)
    | platform :: platforms =>
        match platform_body_of (pg_body g) (pg_query g) (pg_params g) platform s with
        | (Ok dto, s') =>
            (Yield dto,
             {| pg_body := pg_body g; pg_query := pg_query g; pg_params := pg_params g;
                pg_platforms := platforms; pg_finished := false |}, s')
        | (Raise e, s') =>
            (Raised e,
             {| pg_body := pg_body g; pg_query := pg_query g; pg_params := pg_params g;
                pg_platforms := platforms; pg_finished := true |}, s')
        end
    end.

(** The outcomes of [n] successive calls of [next], with the generator and
    the service after them. *)
Fixpoint pull_platforms (n : nat) (g : platform_generator) (s : service)
  : list outcome * platform_generator * service :=
  match n with
  | O => ([], g, s)
  | S n' =>
      let '(o, g', s') := next_platform g s in
      let '(os, g'', s'') := pull_platforms n' g' s' in
      (o :: os, g'', s'')
  end.

(** *** Dispatch on the requested type *)

(** [get(type, query, context)] for the types that keep no cache. *)
Definition get_plain (type : plain_type) : dict -> PipelineContext -> M value :=
  match type with
  | VersionListDto => get_versions
  | RealmDto => get_realms
  | LanguagesDto => get_language
  | LanguageStringsDto => get_language_strings
  | ProfileIconDataDto => get_profile_icons
  end.

(** [get_many(type, query, context)] for the types whose [get_many] takes
    platforms; there is none for [VersionListDto] and [MapListDto]. *)
Definition get_many_platforms (type : dto_type + plain_type)
  : option (dict -> PipelineContext -> M platform_generator) :=
  match type with
  | inl ChampionListDto => Some get_many_champion_list
  | inl MasteryListDto => Some get_many_mastery_list
  | inl RuneListDto => Some get_many_rune_list
  | inl ItemListDto => Some get_many_item_list
  | inl SummonerSpellListDto => Some get_many_summoner_spell_list
  | inr RealmDto => Some get_many_realms
  | inr LanguagesDto => Some get_many_language
  | inr LanguageStringsDto => Some get_many_language_strings
  | inr ProfileIconDataDto => Some get_many_profile_icons
  | _ => None
  end.

(** *** The frames that these operations share *)

Definition plain_get (validator : dict -> PipelineContext -> result dict)
  (request_of : dict -> result (string * dict)) (bucket : string)
  (stamp : dict -> value -> result dict)
  (query : dict) (context : PipelineContext) : M value :=
  (let* query := lift (validator query context) in
   let* request := lift (request_of query) in
   let* data := try_get transport (fst request) (snd request) query bucket in
   let* dto := lift (stamp query data) in
   ret (VDict dto))%M.

Definition platform_body_with (path bucket : string)
  (stamp : dict -> Platform -> value -> result dict)
  (query params : dict) (platform : value) : M value :=
  (let* platform := lift (to_Platform platform) in
   let url := url_for platform path in
   let* data := try_get_for url params platform bucket in
   let* dto := lift (stamp query platform data) in
   ret (VDict dto))%M.

Definition many_platforms (b : platform_body)
  (validator : dict -> PipelineContext -> result dict)
  (params_of : dict -> result dict)
  (query : dict) (context : PipelineContext) : M platform_generator :=
  (let* query := lift (validator query context) in
   let* params := lift (params_of query) in
   let* platforms := lift (let* platforms := getitem query "platforms" in
                           py_list platforms)%result in
   ret {| pg_body := b; pg_query := query; pg_params := params;
          pg_platforms := platforms; pg_finished := false |})%M.

End PerPlatform.

(** ** Vocabulary of the operations that keep no cache *)

(** The pieces of the [get] of a type that keeps no cache. *)
Definition plain_validator_of (type : plain_type)
  : dict -> PipelineContext -> result dict :=
  match type with
  | VersionListDto => _validate_get_versions_query
  | RealmDto => _validate_get_realms_query
  | LanguagesDto => _validate_get_languages_query
  | LanguageStringsDto => _validate_get_language_strings_query
  | ProfileIconDataDto => _validate_get_profile_icons_query
  end.

Definition plain_request_of (type : plain_type) : dict -> result (string * dict) :=
  match type with
  | VersionListDto => versions_request
  | RealmDto => realms_request
  | LanguagesDto => language_request
  | LanguageStringsDto => language_strings_request
  | ProfileIconDataDto => profile_icons_request
  end.

Definition plain_path_of (type : plain_type) : string :=
  match type with
  | VersionListDto => "versions"
  | RealmDto => "realms"
  | LanguagesDto => "languages"
  | LanguageStringsDto => "language-strings"
  | ProfileIconDataDto => "profile-icons"
  end.

Definition plain_bucket_of (type : plain_type) : string :=
  match type with
  | VersionListDto => "staticdata/versions"
  | RealmDto => "staticdata/realms"
  | LanguagesDto => "staticdata/language"
  | LanguageStringsDto => "staticdata/language-strings"
  | ProfileIconDataDto => "staticdata/profile-icons"
  end.

Definition plain_stamp_of (type : plain_type) : dict -> value -> result dict :=
  match type with
  | VersionListDto => versions_stamp
  | RealmDto => realms_stamp
  | LanguagesDto => language_stamp
  | LanguageStringsDto => language_strings_stamp
  | ProfileIconDataDto => profile_icons_stamp
  end.

(** The key under which the [get] of a type puts the payload as it came,
    for the two types that wrap it. *)
Definition wraps (type : plain_type) : option string :=
  match type with
  | VersionListDto => Some "versions"
  | LanguagesDto => Some "languages"
  | _ => None
  end.

(** The fields that the [get] of a type writes into the payload. *)
Definition plain_stamps_of (type : plain_type) : list string :=
  match type with
  | RealmDto => ["region"]
  | LanguageStringsDto | ProfileIconDataDto => ["region"; "locale"]
  | _ => []
  end.

(** The service after one more request. *)
Definition requested (s : service) (r : request) : service :=
  {| heap := heap s; _cache := _cache s; calls := calls s ++ [r] |}.

(** The pieces of a generator over platforms. *)
Definition platform_path_of (b : platform_body) : string :=
  match b with
  | champion_list_generator => "champions"
  | mastery_list_generator => "masteries"
  | rune_list_generator => "runes"
  | item_list_generator => "items"
  | summoner_spell_list_generator => "summoner-spells"
  | realms_generator => "realms"
  | language_generator => "languages"
  | language_strings_generator => "language-strings"
  | profile_icons_generator => "profile-icons"
  end.

Definition platform_bucket_of (b : platform_body) : string :=
  match b with
  | champion_list_generator => "staticdata/champions"
  | mastery_list_generator => "staticdata/masteries"
  | rune_list_generator => "staticdata/runes"
  | item_list_generator => "staticdata/items"
  | summoner_spell_list_generator => "staticdata/summoner-spells"
  | realms_generator => "staticdata/realms"
  | language_generator => "staticdata/language"
  | language_strings_generator => "staticdata/language-strings"
  | profile_icons_generator => "staticdata/profile-icons"
  end.

Definition platform_stamp_of (b : platform_body)
  : dict -> Platform -> value -> result dict :=
  match b with
  | champion_list_generator => many_champion_list_stamp
  | mastery_list_generator => many_mastery_list_stamp
  | rune_list_generator => many_rune_list_stamp
  | item_list_generator => many_item_list_stamp
  | summoner_spell_list_generator => many_summoner_spell_list_stamp
  | realms_generator => many_realms_stamp
  | language_generator => many_language_stamp
  | language_strings_generator => many_language_strings_stamp
  | profile_icons_generator => many_profile_icons_stamp
  end.

Definition platform_validator_of (b : platform_body)
  : dict -> PipelineContext -> result dict :=
  match b with
  | champion_list_generator => _validate_get_many_champion_list_query
  | mastery_list_generator => _validate_get_many_mastery_list_query
  | rune_list_generator => _validate_get_many_rune_list_query
  | item_list_generator => _validate_get_many_item_list_query
  | summoner_spell_list_generator => _validate_get_many_summoner_spell_list_query
  | realms_generator => _validate_get_many_realms_query
  | language_generator => _validate_get_many_languages_query
  | language_strings_generator => _validate_get_many_language_strings_query
  | profile_icons_generator => _validate_get_many_profile_icons_query
  end.

Definition platform_params_of (b : platform_body) : dict -> result dict :=
  match b with
  | champion_list_generator => many_champion_list_params
  | mastery_list_generator => many_mastery_list_params
  | rune_list_generator => many_rune_list_params
  | item_list_generator => many_item_list_params
  | summoner_spell_list_generator => many_summoner_spell_list_params
  | realms_generator => many_realms_params
  | language_generator => many_language_params
  | language_strings_generator => many_language_strings_params
  | profile_icons_generator => many_profile_icons_params
  end.

(** The fields that the body of a generator over platforms writes into
    the payload of a platform. *)
Definition platform_stamps_of (b : platform_body) : list string :=
  match b with
  | realms_generator | language_generator => ["region"]
  | language_strings_generator | profile_icons_generator => ["region"; "locale"]
  | _ => ["region"; "locale"; "includedData"]
  end.

(** The request that the body of a generator sends for a platform. *)
Definition platform_request (b : platform_body) (params : dict) (platform : Platform)
  : request :=
  {| url := url_for platform (platform_path_of b);
     params := params;
     rate_limiter := (VPlatform platform, platform_bucket_of b) |}.

Definition is_Yieldb (o : outcome) : bool :=
  match o with
  | Yield _ => true
  | _ => false
  end.

(** ** More example data *)

Definition EUW : Platform :=
  {| p_value := "EUW1"; p_region_value := "EUW"; p_default_locale := "en_GB" |}.

(** A table of two platforms. *)
Definition example_platforms : string -> option Platform :=
  fun s => if String.eqb s "NA1" then Some NA
           else if String.eqb s "EUW1" then Some EUW
           else None.

(** The languages endpoint answers with a list, the others with the
    example payload. *)
Definition example_languages : value := VList [VStr "en_US"; VStr "ko_KR"].

Definition languages_transport : list request -> request -> response :=
  fun _ r =>
    if String.eqb (snd (rate_limiter r)) "staticdata/language"
    then Payload example_languages
    else Payload example_payload.

(** A generator over platforms as [get_many] returns it: nothing pulled
    yet. *)
Definition example_platform_generator (b : platform_body) (platforms : list value)
  : platform_generator :=
  {| pg_body := b;
     pg_query := [("platforms", VList platforms); ("includedData", VSet ["all"])];
     pg_params := [("tags", VStr "all")];
     pg_platforms := platforms;
     pg_finished := false |}.

(** ** Vocabulary of the cost of the operations *)



(** The search of the list-and-filter path of a single [get]: by the id of
    the query when it has one, else by its name. *)
Definition find_in_list (query : dict) (dtos : list value) : result (option nat) :=
  (if contains "id" query then
     let* id := getitem query "id" in find_matching_attribute dtos "id" id
   else if contains "name" query then
     let* name := getitem query "name" in find_matching_attribute dtos "name" name
   else Raise (ValueError "Impossible!"))%result.

(** ** Vocabulary of the errors *)

(** The exception is not the [APINotFoundError] of the transport. *)
Definition translated (e : exn) : Prop :=
  match e with
  | APINotFoundError _ => False
  | _ => True
  end.

(** The computation does not raise [APINotFoundError]. *)
Definition safe {A} (r : result A) : Prop := forall e, r = Raise e -> translated e.

Definition safe_run {A} (m : M A) : Prop := forall s, safe (fst (m s)).

(** The pipeline of the context, which is asked for the realm of a
    platform when a query comes without a version, does not raise
    [APINotFoundError]. *)
Definition tame (context : PipelineContext) : Prop :=
  match context with
  | Some pipeline => forall query, safe (pipeline_get_RealmDto pipeline query)
  | None => True
  end.

(** The defaults of a requirement do not raise [APINotFoundError]. *)
Definition safe_requirement (context : PipelineContext) (r : requirement) : Prop :=
  match r with
  | can_have _ _ (Some (default_call f)) => forall query, safe (f query context)
  | _ => True
  end.

Definition outcome_translated (o : outcome) : Prop :=
  match o with
  | Raised e => translated e
  | _ => True
  end.

(** ** Vocabulary of the fingerprints *)





(** ** Vocabulary of the elements of [get_many] *)

(** The record [x] has every field of the record [r], with its value, but
    for the stamps and the name. *)
Definition carries (r x : dict) : Prop :=
  forall k v,
    dict_get r k = Some v -> is_stamp k = false -> k <> "name" ->
    dict_get x k = Some v.

(** * Properties *)

(** ** Fingerprints *)

Lemma leb_trans (a b c : string) :
  String.leb a b = true -> String.leb b c = true -> String.leb a c = true.
Proof.
  unfold String.leb. intros Hab Hbc.
  destruct (String.compare a b) eqn:E1; try discriminate.
  - apply String.compare_eq_iff in E1. subst. exact Hbc.
  - destruct (String.compare b c) eqn:E2; try discriminate.
    + apply String.compare_eq_iff in E2. subst. now rewrite E1.
    + apply String_as_OT.cmp_lt in E1, E2.
      pose proof (String_as_OT.lt_trans _ _ _ E1 E2) as Hlt.
      apply String_as_OT.cmp_lt in Hlt. unfold String_as_OT.cmp in Hlt.
      now rewrite Hlt.
Qed.

Lemma leb_false_flip (a b : string) :
  String.leb a b = false -> String.leb b a = true.
Proof.
  intros H. destruct (String.leb_total a b) as [Hab | Hba]; congruence.
Qed.

(** Inserting two items with different keys gives the same list in either
    order. *)
Lemma insert_item_comm (x y : string * value) (l : dict) :
  fst x <> fst y ->
  insert_item x (insert_item y l) = insert_item y (insert_item x l).
Proof.
  intros Hne. induction l as [| c l IH]; simpl.
  - destruct (String.leb (fst x) (fst y)) eqn:Exy;
      destruct (String.leb (fst y) (fst x)) eqn:Eyx; try reflexivity.
    + exfalso. apply Hne. now apply String.leb_antisym.
    + apply leb_false_flip in Exy. congruence.
  - destruct (String.leb (fst y) (fst c)) eqn:Eyc;
      destruct (String.leb (fst x) (fst c)) eqn:Exc; simpl;
      rewrite ?Eyc, ?Exc;
      destruct (String.leb (fst x) (fst y)) eqn:Exy;
      destruct (String.leb (fst y) (fst x)) eqn:Eyx;
      try reflexivity;
      try (exfalso; apply Hne; now apply String.leb_antisym);
      try (apply leb_false_flip in Exy; congruence).
    all: try (pose proof (leb_trans _ _ _ Exy Eyc); congruence).
    all: try (pose proof (leb_trans _ _ _ Eyx Exc); congruence).
    all: now rewrite IH.
Qed.

Lemma sorted_permutation (q1 q2 : dict) :
  Permutation q1 q2 -> NoDup (keys q1) -> sorted q1 = sorted q2.
Proof.
  induction 1 as [| x l l' Hp IH | x y l | l l' l'' Hp1 IH1 Hp2 IH2]; intros Hnd.
  - reflexivity.
  - simpl. f_equal. apply IH. now inversion Hnd.
  - simpl. apply insert_item_comm.
    simpl in Hnd. inversion Hnd as [| ? ? Hnotin _]; subst.
    intros Heq. apply Hnotin. rewrite Heq. constructor.
  - rewrite IH1 by assumption. apply IH2.
    unfold keys in *. now rewrite <- (Permutation_map fst Hp1).
Qed.

Lemma insert_item_same (x y : string * value) (l l' : dict) :
  same_item x y -> Forall2 same_item l l' ->
  Forall2 same_item (insert_item x l) (insert_item y l').
Proof.
  intros Hxy Hl. induction Hl as [| a b l l' Hab Hl IH]; simpl.
  - constructor; [assumption | constructor].
  - destruct Hxy as [Hk Hv], Hab as [Hk' Hv']. rewrite <- Hk, <- Hk'.
    destruct (String.leb (fst x) (fst a)).
    + constructor; [now split |]. constructor; [now split | assumption].
    + constructor; [now split |]. apply IH.
Qed.

Lemma sorted_same (q1 q2 : dict) :
  Forall2 same_item q1 q2 -> Forall2 same_item (sorted q1) (sorted q2).
Proof.
  induction 1; simpl; [constructor | now apply insert_item_same].
Qed.

(** ** The cache *)

Lemma Platform_eqb_eq (p q : Platform) : Platform_eqb p q = true <-> p = q.
Proof.
  destruct p as [a b c], q as [a' b' c']. unfold Platform_eqb. simpl.
  rewrite !andb_true_iff, !String.eqb_eq. split.
  - intros [[-> ->] ->]. reflexivity.
  - intros H. injection H as -> -> ->. auto.
Qed.

Lemma atom_eq_canon (a b : atom) : atom_eq a b = true <-> canon a = canon b.
Proof.
  destruct a as [| x | x | x | x], b as [| y | y | y | y];
    unfold atom_eq; simpl; try (split; [discriminate | discriminate]);
    try (split; reflexivity).
  - rewrite Z.eqb_eq. split; [congruence | intros H; now injection H].
  - rewrite Z.eqb_eq. split; [congruence | intros H; now injection H].
  - rewrite Z.eqb_eq. split; [congruence | intros H; now injection H].
  - rewrite Z.eqb_eq. split; [congruence | intros H; now injection H].
  - rewrite String.eqb_eq. split; [congruence | intros H; now injection H].
  - rewrite Platform_eqb_eq. split; [congruence | intros H; now injection H].
Qed.

Lemma tuple_eq_canon (k1 k2 : cache_key) :
  tuple_eq k1 k2 = true <-> map canon k1 = map canon k2.
Proof.
  unfold tuple_eq. revert k2.
  induction k1 as [| a k1 IH]; intros [| b k2]; simpl;
    try (split; [discriminate | discriminate]); try (split; reflexivity).
  specialize (IH k2). rewrite andb_true_iff in *. simpl.
  rewrite andb_true_iff, atom_eq_canon. split.
  - intros [Hl [Ha Hf]]. f_equal; [assumption |]. apply IH. now split.
  - intros H. injection H as Ha Hk. apply IH in Hk as [Hl Hf]. auto.
Qed.

Lemma tuple_eq_refl (k : cache_key) : tuple_eq k k = true.
Proof. now apply tuple_eq_canon. Qed.

Lemma tuple_eq_right (k k1 k2 : cache_key) :
  tuple_eq k1 k2 = true -> tuple_eq k k1 = tuple_eq k k2.
Proof.
  intros H. apply tuple_eq_canon in H.
  destruct (tuple_eq k k1) eqn:E1, (tuple_eq k k2) eqn:E2; try reflexivity.
  - apply tuple_eq_canon in E1. rewrite H in E1. apply tuple_eq_canon in E1. congruence.
  - apply tuple_eq_canon in E2. rewrite <- H in E2. apply tuple_eq_canon in E2. congruence.
Qed.

Lemma slot_get_equal_keys slots (k1 k2 : cache_key) :
  tuple_eq k1 k2 = true -> slot_get slots k1 = slot_get slots k2.
Proof.
  intros H. induction slots as [| [k l] slots IH]; simpl; [reflexivity |].
  rewrite (tuple_eq_right k k1 k2 H). now rewrite IH.
Qed.

Lemma slot_get_set slots (k : cache_key) (l : loc) :
  slot_get (slot_set slots k l) k = Some l.
Proof.
  induction slots as [| [k' l'] slots IH]; simpl.
  - now rewrite tuple_eq_refl.
  - destruct (tuple_eq k' k) eqn:E; simpl; rewrite E; [reflexivity | exact IH].
Qed.

(** A slot that is filled stays filled with the same object when another
    slot is set, unless it is that very slot. *)
Lemma slot_get_set_other slots (k k' : cache_key) (l : loc) :
  tuple_eq k k' = false -> slot_get (slot_set slots k l) k' = slot_get slots k'.
Proof.
  intros Hne. induction slots as [| [k0 l0] slots IH]; simpl.
  - now rewrite Hne.
  - destruct (tuple_eq k0 k) eqn:E; simpl.
    + destruct (tuple_eq k0 k') eqn:E'; [| reflexivity].
      exfalso. apply tuple_eq_canon in E, E'.
      assert (tuple_eq k k' = true) by (apply tuple_eq_canon; congruence).
      congruence.
    + now rewrite IH.
Qed.

(** C3. Two queries with the same key/value pairs, whatever the order in
    which the keys were inserted and whatever the iteration order of their
    set-valued values, have the same fingerprint: [calculate_hash] sorts the
    items by key (the keys of a dict are distinct) and replaces each set by
    its hash, which is stable.  The fingerprint is a function of the query
    alone, so repeated calls on one query agree. *)
Theorem calculate_hash_order_independent (h : list string -> Z) (q1 q2 : dict) :
  (forall xs ys, Permutation xs ys -> h xs = h ys) ->
  NoDup (keys q1) ->
  same_query q1 q2 ->
  calculate_hash h q1 = calculate_hash h q2.
Proof.
  intros Hstable Hnd (q & Hperm & Hsame).
  unfold calculate_hash. rewrite (sorted_permutation q1 q Hperm Hnd).
  apply sorted_same in Hsame.
  induction Hsame as [| a b l l' [_ Hv] _ IH]; simpl; [reflexivity |].
  f_equal; [| exact IH].
  destruct Hv as [xs ys Hp | v]; [| reflexivity].
  now rewrite (Hstable xs ys Hp).
Qed.

Lemma calculate_hash_order_independent_witness :
  calculate_hash (fun xs => Z.of_nat (length xs))
    [("platform", VStr "NA1"); ("includedData", VSet ["stats"; "image"])]
  = calculate_hash (fun xs => Z.of_nat (length xs))
    [("includedData", VSet ["image"; "stats"]); ("platform", VStr "NA1")].
Proof.
  apply calculate_hash_order_independent.
  - intros xs ys Hp. now rewrite (Permutation_length Hp).
  - apply NoDup_cons. split.
    + intros Hin. apply list_elem_of_singleton in Hin. discriminate.
    + apply NoDup_singleton.
  - exists [("includedData", VSet ["stats"; "image"]); ("platform", VStr "NA1")].
    split; [apply perm_swap |].
    constructor; [split; [reflexivity | constructor; apply perm_swap] |].
    constructor; [split; [reflexivity | apply same_value_refl] | constructor].
Defined.

(** ** Running computations *)

Lemma bind_Ok {A B} (m : M A) (k : A -> M B) (s s' : service) (b : B) :
  bind m k s = (Ok b, s') ->
  exists a s1, m s = (Ok a, s1) /\ k a s1 = (Ok b, s').
Proof.
  unfold bind. destruct (m s) as [[a | e] s1]; intros H; [eauto | discriminate].
Qed.

Lemma lift_Ok {A} (r : result A) (s s' : service) (a : A) :
  lift r s = (Ok a, s') -> r = Ok a /\ s' = s.
Proof. unfold lift. intros H. injection H as -> ->. auto. Qed.

Lemma rbind_Ok {A B} (r : result A) (k : A -> result B) (b : B) :
  rbind r k = Ok b -> exists a, r = Ok a /\ k a = Ok b.
Proof. destruct r; simpl; intros H; [eauto | discriminate]. Qed.

Section Running.

Variable transport : list request -> request -> response.
Variable request_by_id : bool.
Variable h : list string -> Z.
Variable py_repr : value -> string.

Lemma try_get_Ok url params query bucket s s' data :
  try_get transport url params query bucket s = (Ok data, s') ->
  exists platform,
    getitem query "platform" = Ok platform /\
    transport (calls s) (request_for (url, params) platform bucket) = Payload data /\
    s' = {| heap := heap s; _cache := _cache s;
            calls := calls s ++ [request_for (url, params) platform bucket] |}.
Proof.
  unfold try_get, _get, request_for. simpl.
  destruct (getitem query "platform") as [platform | e]; [| discriminate].
  destruct (transport _ _) as [msg | d] eqn:Ht; intros H; [discriminate |].
  injection H as -> <-. exists platform. auto.
Qed.

(** Each list operation is the shared frame applied to its own pieces. *)
Lemma get_list_frame (type : dto_type) :
  is_list type = true ->
  get transport request_by_id h py_repr type =
  fun query context =>
    returning_reference
      (cached_list transport h type (validator_of type) (list_request_of type)
         (list_bucket_of type) (list_stamp_of type) query context).
Proof. destruct type; intros H; try discriminate H; reflexivity. Qed.

(** What a successful list operation did: it either found the slot of the
    fingerprint filled and changed nothing, or found it empty, fetched
    once, built a new list object and filled the slot with it. *)
Lemma cached_list_Ok type validator request_of bucket stamp query context s s' l :
  cached_list transport h type validator request_of bucket stamp query context s
  = (Ok l, s') ->
  exists query' k,
    validator query context = Ok query' /\
    as_key (calculate_hash h query') = Some k /\
    ((slot_get (_cache s type) k = Some l /\ s' = s) \/
     (slot_get (_cache s type) k = None /\
      exists req platform data d,
        request_of query' = Ok req /\
        getitem query' "platform" = Ok platform /\
        transport (calls s) (request_for req platform bucket) = Payload data /\
        stamp query' data = Ok d /\
        l = length (heap s) /\
        s' = stored s type k d (request_for req platform bucket))).
Proof.
  unfold cached_list. intros H.
  apply bind_Ok in H as (query' & s1 & Hv & H). apply lift_Ok in Hv as [Hv ->].
  apply bind_Ok in H as (cached & s1 & Hc & H).
  unfold cache_get in Hc.
  destruct (as_key (calculate_hash h query')) as [k |] eqn:Hk; [| discriminate].
  injection Hc as <- <-.
  exists query', k. split; [assumption |]. split; [exact Hk |].
  destruct (slot_get (_cache s type) k) as [l0 |] eqn:Hslot.
  - left. unfold ret in H. injection H as -> ->. auto.
  - right. split; [reflexivity |].
    apply bind_Ok in H as (req & s1 & Hr & H). apply lift_Ok in Hr as [Hr ->].
    apply bind_Ok in H as (data & s1 & Hg & H).
    destruct req as [u p]. simpl in Hg.
    apply try_get_Ok in Hg as (platform & Hp & Ht & ->).
    apply bind_Ok in H as (d & s2 & Hs & H). apply lift_Ok in Hs as [Hs ->].
    apply bind_Ok in H as (l1 & s2 & Hn & H).
    unfold new_object in Hn. simpl in Hn. injection Hn as <- <-.
    apply bind_Ok in H as ([] & s3 & Hset & H).
    unfold cache_set in Hset. rewrite Hk in Hset. simpl in Hset.
    injection Hset as <-. unfold ret in H. injection H as <- <-.
    exists (u, p), platform, data, d. repeat split; assumption.
Qed.

(** With the slot of the fingerprint filled, a list operation returns the
    object in the slot and changes nothing. *)
Lemma cached_list_hit type validator request_of bucket stamp query context s query' k l :
  validator query context = Ok query' ->
  as_key (calculate_hash h query') = Some k ->
  slot_get (_cache s type) k = Some l ->
  cached_list transport h type validator request_of bucket stamp query context s
  = (Ok l, s).
Proof.
  intros Hv Hk Hslot. unfold cached_list, bind, lift, cache_get, ret.
  rewrite Hv, Hk, Hslot. reflexivity.
Qed.

Lemma returning_reference_Ok (m : M loc) s s' l :
  returning_reference m s = (Ok (Reference l), s') -> m s = (Ok l, s').
Proof.
  unfold returning_reference. intros H.
  apply bind_Ok in H as (l' & s1 & Hm & H). unfold ret in H.
  injection H as -> ->. exact Hm.
Qed.

Lemma stored_slot s type k d r :
  slot_get (_cache (stored s type k d r) type) k = Some (length (heap s)).
Proof.
  unfold stored. simpl.
  replace (dto_type_eqb type type) with true by (now destruct type).
  apply slot_get_set.
Qed.

End Running.

(** C1. Of two [get] calls on one list type whose validated queries have
    equal fingerprints, the second returns the very list object that the
    first one returned and left in the cache, and changes nothing: it makes
    no request to the transport.  The first call made at most one. *)
Theorem get_list_second_call_is_cached
  (transport : list request -> request -> response) (request_by_id : bool)
  (h : list string -> Z) (py_repr : value -> string)
  (type : dto_type) (q1 q2 : dict) (c1 c2 : PipelineContext)
  (k1 k2 : cache_key) (s0 s1 : service) (l : loc) :
  is_list type = true ->
  fingerprint h type q1 c1 = Some k1 ->
  fingerprint h type q2 c2 = Some k2 ->
  tuple_eq k1 k2 = true ->
  get transport request_by_id h py_repr type q1 c1 s0 = (Ok (Reference l), s1) ->
  get transport request_by_id h py_repr type q2 c2 s1 = (Ok (Reference l), s1)
  /\ slot_get (_cache s1 type) k1 = Some l
  /\ exists requests, calls s1 = (calls s0 ++ requests)%list /\ length requests <= 1.
Proof.
  intros Hlist Hf1 Hf2 Hk Hget.
  rewrite (get_list_frame _ _ _ _ _ Hlist) in *.
  apply returning_reference_Ok in Hget.
  apply cached_list_Ok in Hget as (q1' & k & Hv1 & Hk1 & Hcases).
  unfold fingerprint in Hf1, Hf2. rewrite Hv1, Hk1 in Hf1. injection Hf1 as ->.
  destruct (validator_of type q2 c2) as [q2' |] eqn:Hv2; [| discriminate].
  assert (Hslot : slot_get (_cache s1 type) k1 = Some l).
  { destruct Hcases as [[Hs ->] | [_ (req & p & data & d & _ & _ & _ & _ & -> & ->)]].
    - exact Hs.
    - apply stored_slot. }
  split; [| split; [exact Hslot |]].
  - unfold returning_reference, bind.
    rewrite (cached_list_hit _ _ _ _ _ _ _ _ _ _ q2' k2 l Hv2 Hf2); [reflexivity |].
    now rewrite <- (slot_get_equal_keys _ k1 k2 Hk).
  - destruct Hcases as [[_ ->] | [_ (req & p & data & d & _ & _ & _ & _ & _ & ->)]].
    + exists []. split; [now rewrite app_nil_r | simpl; lia].
    + eexists [_]. split; [reflexivity | simpl; lia].
Qed.

Lemma get_list_second_call_is_cached_witness :
  let q1 := [("platform", VPlatform NA); ("version", VStr "7.1")] in
  let q2 := [("version", VStr "7.1"); ("dataById", VInt 0); ("platform", VPlatform NA)] in
  let k1 := [ABool false; AInt 1; AStr "en_US"; APlatform NA; AStr "7.1"] in
  let s1 := snd (get example_transport false example_hash example_repr
                   ChampionListDto q1 example_context init) in
  get example_transport false example_hash example_repr ChampionListDto q2 None s1
  = (Ok (Reference 0%nat), s1)
  /\ slot_get (_cache s1 ChampionListDto) k1 = Some 0%nat
  /\ exists requests, calls s1 = (calls init ++ requests)%list /\ length requests <= 1.
Proof.
  intros q1 q2 k1 s1.
  apply (get_list_second_call_is_cached example_transport false example_hash
           example_repr ChampionListDto q1 q2 example_context None k1
           [AInt 0; AInt 1; AStr "en_US"; APlatform NA; AStr "7.1"] init s1 0%nat);
    reflexivity.
Defined.

(** ** Dicts *)

Lemma dict_get_set_same (d : dict) (k : string) (v : value) :
  dict_get (dict_set d k v) k = Some v.
Proof.
  induction d as [| [k' v'] d IH]; simpl.
  - now rewrite String.eqb_refl.
  - destruct (String.eqb k' k) eqn:E; simpl; rewrite E; [reflexivity | exact IH].
Qed.

Lemma dict_get_set_other (d : dict) (k k' : string) (v : value) :
  k <> k' -> dict_get (dict_set d k v) k' = dict_get d k'.
Proof.
  intros Hne. induction d as [| [k0 v0] d IH]; simpl.
  - apply String.eqb_neq in Hne. now rewrite Hne.
  - destruct (String.eqb k0 k) eqn:E; simpl.
    + apply String.eqb_eq in E. subst k0.
      apply String.eqb_neq in Hne. now rewrite Hne.
    + now rewrite IH.
Qed.

Lemma getitem_Some (d : dict) (k : string) (v : value) :
  dict_get d k = Some v -> getitem d k = Ok v.
Proof. unfold getitem. now intros ->. Qed.

Lemma contains_set_other (d : dict) (k k' : string) (v : value) :
  k <> k' -> contains k' (dict_set d k v) = contains k' d.
Proof. intros Hne. unfold contains. now rewrite dict_get_set_other. Qed.

Lemma contains_set_same (d : dict) (k : string) (v : value) :
  contains k (dict_set d k v) = true.
Proof. unfold contains. now rewrite dict_get_set_same. Qed.

(** ** Validation *)

(** A query with both an id and a name, or with neither, fails the first
    requirement of the validators of the single types. *)
Lemma validate_id_or_name (rest : list requirement) (query : dict)
  (context : PipelineContext) :
  contains "id" query = contains "name" query ->
  validate (has [("id", Tint); ("name", Tstr)] :: rest) query context
  = Raise InvalidQuery.
Proof.
  intros H. cbn [validate validate1 List.filter fst]. rewrite H.
  destruct (contains "name" query); reflexivity.
Qed.

(** A requirement adds no key but its own. *)
Lemma validate1_contains (r : requirement) (query query' : dict)
  (context : PipelineContext) (k : string) :
  validate1 r query context = Ok query' ->
  match r with has _ => True | can_have key _ _ => key <> k end ->
  contains k query' = contains k query.
Proof.
  destruct r as [alts | key as_ with_default]; simpl.
  - destruct (List.filter _ alts) as [| [k0 t0] [| ? ?]]; try discriminate.
    destruct (dict_get query k0); [| discriminate].
    destruct (isinstance v t0); [| discriminate].
    intros H _. now injection H as <-.
  - intros H Hne. destruct (dict_get query key).
    + destruct as_ as [t |]; [destruct (isinstance v t) |];
        try discriminate; now injection H as <-.
    + destruct with_default as [[f | v] |].
      * destruct (f query context); [| discriminate]. simpl in H.
        injection H as <-. now apply contains_set_other.
      * injection H as <-. now apply contains_set_other.
      * now injection H as <-.
Qed.

Section Single.

Variable transport : list request -> request -> response.
Variable request_by_id : bool.
Variable h : list string -> Z.
Variable py_repr : value -> string.

(** Each single operation is the shared frame applied to its own pieces. *)
Lemma get_single_frame (type : dto_type) :
  is_list type = false ->
  get transport request_by_id h py_repr type =
  fun query context =>
    returning_value
      (by_list_or_id request_by_id (validator_of type)
         (cached_list transport h (list_of type) (validator_of (list_of type))
            (list_request_of (list_of type)) (list_bucket_of (list_of type))
            (list_stamp_of (list_of type)))
         (stamp_record_with (has_includedData type))
         (by_id_of transport py_repr type) query context).
Proof. destruct type; intros H; try discriminate H; reflexivity. Qed.

Lemma validator_of_single (type : dto_type) :
  is_list type = false ->
  exists rest, validator_of type = validate (has [("id", Tint); ("name", Tstr)] :: rest).
Proof. destruct type; intros H; try discriminate H; eexists; reflexivity. Qed.

End Single.

(** C8. A query for a single entity that has both an id and a name, or
    neither, is refused with [InvalidQuery], and the service state is left
    as it was: no request has been made. *)
Theorem get_rejects_id_and_name
  (transport : list request -> request -> response) (request_by_id : bool)
  (h : list string -> Z) (py_repr : value -> string)
  (type : dto_type) (query : dict) (context : PipelineContext) (s : service) :
  is_list type = false ->
  contains "id" query = contains "name" query ->
  get transport request_by_id h py_repr type query context s
  = (Raise InvalidQuery, s).
Proof.
  intros Hsingle Hboth. rewrite (get_single_frame _ _ _ _ _ Hsingle).
  destruct (validator_of_single type Hsingle) as [rest Hv].
  unfold returning_value, by_list_or_id, bind, lift.
  rewrite Hv, (validate_id_or_name rest query context Hboth). reflexivity.
Qed.

Lemma get_rejects_id_and_name_witness :
  get example_transport false example_hash example_repr ChampionDto
    [("id", VInt 17); ("name", VStr "Teemo"); ("platform", VPlatform NA)]
    example_context init
  = (Raise InvalidQuery, init)
  /\ get example_transport false example_hash example_repr MapDto
    [("platform", VPlatform NA)] example_context init
  = (Raise InvalidQuery, init).
Proof.
  split; apply get_rejects_id_and_name; reflexivity.
Defined.

(** C5, what the code does. [get_map] for a query with an id and no name,
    with [request_by_id] off, returns [None]; it fetches nothing and changes
    nothing. *)
Theorem get_map_by_id_returns_None
  (transport : list request -> request -> response)
  (h : list string -> Z) (py_repr : value -> string)
  (query query' : dict) (context : PipelineContext) (s : service) :
  contains "name" query = false ->
  _validate_get_map_query query context = Ok query' ->
  get transport false h py_repr MapDto query context s = (Ok (Value VNone), s).
Proof.
  intros Hname Hv. simpl. unfold returning_value, get_map, bind, lift. rewrite Hv.
  assert (Hname' : contains "name" query' = false).
  { unfold _validate_get_map_query in Hv. cbn [validate] in Hv.
    apply rbind_Ok in Hv as (qa & Ha & Hv). apply rbind_Ok in Hv as (qb & Hb & Hv).
    apply rbind_Ok in Hv as (qc & Hc & Hv). apply rbind_Ok in Hv as (qd & Hd & Hv).
    injection Hv as <-.
    rewrite (validate1_contains _ _ _ _ "name" Hd) by discriminate.
    rewrite (validate1_contains _ _ _ _ "name" Hc) by discriminate.
    rewrite (validate1_contains _ _ _ _ "name" Hb) by exact I.
    rewrite (validate1_contains _ _ _ _ "name" Ha) by exact I.
    exact Hname. }
  rewrite Hname'. reflexivity.
Qed.

Lemma get_map_by_id_returns_None_witness :
  get example_transport false example_hash example_repr MapDto
    [("id", VInt 11); ("platform", VPlatform NA)] example_context init
  = (Ok (Value VNone), init).
Proof.
  eapply get_map_by_id_returns_None; reflexivity.
Defined.


(** ** Generators *)

Lemma never_NotFound_rbind {A B} (r : result A) (k : A -> result B) :
  never_NotFound r -> (forall a, never_NotFound (k a)) -> never_NotFound (rbind r k).
Proof.
  intros Hr Hk msg. destruct r as [a | e]; simpl; [apply Hk |].
  intros Heq. injection Heq as ->. now apply (Hr msg).
Qed.

Lemma never_NotFound_Ok {A} (a : A) : never_NotFound (Ok a).
Proof. intros msg; discriminate. Qed.

Lemma never_NotFound_getitem d k : never_NotFound (getitem d k).
Proof. unfold getitem. intros msg. destruct (dict_get d k); discriminate. Qed.

Lemma never_NotFound_subscript c k : never_NotFound (subscript c k).
Proof.
  intros msg. unfold subscript, getitem.
  repeat match goal with
         | |- context [match ?x with _ => _ end] => destruct x
         end; discriminate.
Qed.

Lemma never_NotFound_setitem c k v : never_NotFound (setitem c k v).
Proof. intros msg. destruct c; discriminate. Qed.

Lemma never_NotFound_region_of q : never_NotFound (region_of q).
Proof.
  intros msg. unfold region_of, getitem, as_platform.
  repeat match goal with
         | |- context [match ?x with _ => _ end] => destruct x; simpl
         end; discriminate.
Qed.

Lemma never_NotFound_assign x k rhs :
  never_NotFound rhs -> never_NotFound (assign x k rhs).
Proof.
  intros H. apply never_NotFound_rbind; [exact H |].
  intros v. apply never_NotFound_setitem.
Qed.

Lemma never_NotFound_not_in k c : never_NotFound (not_in k c).
Proof. intros msg. destruct c as [[] | | |]; discriminate. Qed.

Lemma never_NotFound_if {A} (b : bool) (r1 r2 : result A) :
  never_NotFound r1 -> never_NotFound r2 -> never_NotFound (if b then r1 else r2).
Proof. destruct b; auto. Qed.

Lemma never_NotFound_repair_item item : never_NotFound (repair_item item).
Proof.
  unfold repair_item.
  repeat first
    [ apply never_NotFound_rbind; [| intros ?]
    | apply never_NotFound_if
    | apply never_NotFound_subscript
    | apply never_NotFound_setitem
    | apply never_NotFound_not_in
    | apply never_NotFound_Ok ].
Qed.

Lemma never_NotFound_Dto v : never_NotFound (Dto v).
Proof. intros msg. destruct v; discriminate. Qed.

Lemma never_NotFound_repair_of b v : never_NotFound (repair_of b v).
Proof.
  destruct b; simpl; apply never_NotFound_Ok || apply never_NotFound_repair_item.
Qed.

Section Generators.

Variable py_repr : value -> string.

(** Each generator body is the shared frame applied to its own pieces. *)
Lemma generator_body_frame (b : generator_body) :
  generator_body_of py_repr b =
  generator_body_with py_repr (key_of py_repr b) (what_of b) (repair_of b).
Proof. destruct b; reflexivity. Qed.

(** The record of an id that is missing is reported as [NotFoundError]. *)
Lemma generator_body_missing b query data id :
  missing py_repr b data id ->
  generator_body_of py_repr b query data id
  = Raise (NotFoundError (not_found_message py_repr b id)).
Proof.
  intros (top & d & -> & Hd & Hmiss). rewrite generator_body_frame.
  unfold generator_body_with. cbn [subscript].
  rewrite (getitem_Some _ _ _ Hd). cbn [rbind]. rewrite Hmiss. reflexivity.
Qed.

(** When the lookup succeeds, nothing else in the body raises
    [NotFoundError]. *)
Lemma generator_body_found b query data id d record msg :
  subscript data (VStr "data") = Ok d ->
  subscript d (key_of py_repr b id) = Ok record ->
  generator_body_of py_repr b query data id <> Raise (NotFoundError msg).
Proof.
  intros Hd Hr. rewrite generator_body_frame. unfold generator_body_with.
  rewrite Hd. cbn [rbind]. rewrite Hr. cbn [except_KeyError rbind].
  revert msg.
  repeat first
    [ apply never_NotFound_assign
    | apply never_NotFound_region_of
    | apply never_NotFound_getitem
    | apply never_NotFound_subscript
    | apply never_NotFound_repair_of
    | apply never_NotFound_Dto
    | apply never_NotFound_Ok
    | apply never_NotFound_rbind; [| intros ?] ].
Qed.

(** A body that succeeds on a payload whose data mapping is a dict has
    found the record under a string key, and has changed that record and
    nothing else. *)
Lemma generator_body_Ok b query top d id data' dto :
  dict_get top "data" = Some (VDict d) ->
  generator_body_of py_repr b query (VDict top) id = Ok (data', dto) ->
  exists key record record',
    key_of py_repr b id = VStr key /\
    dict_get d key = Some record /\
    Dto record' = Ok (match dto with VDict x => x | _ => [] end) /\
    dto = VDict (match dto with VDict x => x | _ => [] end) /\
    data' = VDict (dict_set top "data" (VDict (dict_set d key record'))).
Proof.
  intros Hd. rewrite generator_body_frame. unfold generator_body_with, store_record.
  cbn [subscript]. rewrite (getitem_Some _ _ _ Hd). cbn [rbind]. intros H.
  apply rbind_Ok in H as (record & Hlookup & H).
  apply rbind_Ok in H as (r1 & _ & H). apply rbind_Ok in H as (r2 & _ & H).
  apply rbind_Ok in H as (r3 & _ & H). apply rbind_Ok in H as (r4 & _ & H).
  apply rbind_Ok in H as (r5 & _ & H). apply rbind_Ok in H as (x & Hdto & H).
  injection H as <- <-.
  destruct (key_of py_repr b id) as [[| | | key |] | | |];
    cbn [subscript except_KeyError] in Hlookup; try discriminate.
  unfold getitem in Hlookup.
  destruct (dict_get d key) as [rec |] eqn:Hrec; [| discriminate].
  cbn [except_KeyError] in Hlookup. injection Hlookup as ->.
  exists key, record, r5. repeat split; try assumption; reflexivity.
Qed.

Lemma next_finished g :
  g_finished g = true -> next py_repr g = (StopIteration, g).
Proof. intros H. unfold next. now rewrite H. Qed.

Lemma pull_finished n g :
  g_finished g = true -> pull py_repr n g = repeat StopIteration n.
Proof.
  intros H. induction n as [| n IH]; simpl; [reflexivity |].
  rewrite (next_finished g H). now rewrite IH.
Qed.

Lemma pull_app a b g :
  pull py_repr (a + b) g = (pull py_repr a g ++ pull py_repr b (after py_repr a g))%list.
Proof.
  revert g. induction a as [| a IH]; intros g; simpl; [reflexivity |].
  destruct (next py_repr g) as [o g']. simpl. now rewrite IH.
Qed.

(** Pulling an element that is yielded leaves the ids after it to come and
    keeps a missing id missing. *)
Lemma next_Yield g id ids :
  g_finished g = false ->
  g_ids g = id :: ids ->
  is_Yield (fst (next py_repr g)) ->
  g_finished (snd (next py_repr g)) = false /\
  g_ids (snd (next py_repr g)) = ids /\
  body (snd (next py_repr g)) = body g /\
  forall id', missing py_repr (body g) (g_data g) id' ->
              missing py_repr (body g) (g_data (snd (next py_repr g))) id'.
Proof.
  intros Hf Hids. unfold next. rewrite Hf, Hids.
  destruct (generator_body_of py_repr (body g) (g_query g) (g_data g) id)
    as [[data' dto] | e] eqn:Hbody; simpl; [intros _ | intros []].
  repeat split. intros id' (top & d & Hdata & Hd & Hmiss).
  rewrite Hdata in Hbody.
  apply (generator_body_Ok _ _ _ _ _ _ _ Hd) in Hbody
    as (key & record & record' & _ & Hrec & _ & _ & ->).
  exists (dict_set top "data" (VDict (dict_set d key record'))), (dict_set d key record').
  split; [reflexivity |]. split; [apply dict_get_set_same |].
  destruct (key_of py_repr (body g) id') as [[| | | key' |] | | |];
    cbn [subscript] in *; unfold getitem in *; try reflexivity; try discriminate.
  destruct (dict_get d key') eqn:Hk'; [discriminate |].
  rewrite dict_get_set_other; [now rewrite Hk' |].
  intros ->. congruence.
Qed.

Lemma after_yields pre g id post :
  g_finished g = false ->
  g_ids g = (pre ++ id :: post)%list ->
  missing py_repr (body g) (g_data g) id ->
  Forall is_Yield (pull py_repr (length pre) g) ->
  let g' := after py_repr (length pre) g in
  g_finished g' = false /\ g_ids g' = id :: post /\ body g' = body g /\
  missing py_repr (body g) (g_data g') id.
Proof.
  revert g. induction pre as [| a pre IH]; intros g Hf Hids Hmiss Hall; simpl.
  - auto.
  - simpl in Hall, Hids.
    destruct (next py_repr g) as [o g1] eqn:Hnext. inversion Hall as [| ? ? Ho Hrest]; subst.
    destruct (next_Yield g a _ Hf Hids) as (Hf1 & Hids1 & Hb1 & Hm1);
      [now rewrite Hnext |].
    rewrite Hnext in *. simpl in *.
    specialize (IH g1 Hf1 Hids1). rewrite Hb1 in IH.
    destruct IH as (? & ? & ? & ?); auto.
Qed.

End Generators.

(** C2, as the code has it. The element of a missing id raises
    [NotFoundError] when it is pulled, after the elements before it have
    been yielded; the failure ends the sequence: every later pull says
    [StopIteration], whatever ids were still to come. *)
Theorem missing_id_raises_and_ends_the_sequence
  (py_repr : value -> string) (g : generator)
  (pre : list value) (id : value) (post : list value) (n : nat) :
  g_finished g = false ->
  g_ids g = (pre ++ id :: post)%list ->
  missing py_repr (body g) (g_data g) id ->
  Forall is_Yield (pull py_repr (length pre) g) ->
  pull py_repr (length pre + (1 + n)) g
  = (pull py_repr (length pre) g
     ++ Raised (NotFoundError (not_found_message py_repr (body g) id))
     :: repeat StopIteration n)%list.
Proof.
  intros Hf Hids Hmiss Hall. rewrite pull_app. f_equal.
  destruct (after_yields py_repr pre g id post Hf Hids Hmiss Hall)
    as (Hf' & Hids' & Hb' & Hm').
  simpl. unfold next at 1. rewrite Hf', Hids', Hb'.
  rewrite (generator_body_missing py_repr _ _ _ _ Hm'). f_equal.
  now apply pull_finished.
Qed.

Lemma missing_id_raises_and_ends_the_sequence_witness :
  pull example_repr (1 + (1 + 2)) (example_generator champion_generator [VInt 1; VInt 999999; VInt 17])
  = (pull example_repr 1 (example_generator champion_generator [VInt 1; VInt 999999; VInt 17])
     ++ Raised (NotFoundError
                  (not_found_message example_repr champion_generator (VInt 999999)))
     :: repeat StopIteration 2)%list.
Proof.
  apply (missing_id_raises_and_ends_the_sequence example_repr
           (example_generator champion_generator [VInt 1; VInt 999999; VInt 17])
           [VInt 1] (VInt 999999) [VInt 17] 2).
  - reflexivity.
  - reflexivity.
  - eexists _, _. split; [reflexivity |]. split; reflexivity.
  - vm_compute. constructor; [exact I | constructor].
Defined.

(** C2, as stated, fails: with the missing id first, the id after it is
    never yielded although its record is in the fetched list. *)
Lemma missing_id_first_aborts_the_rest :
  let g := example_generator champion_generator [VInt 999999; VInt 1] in
  (exists d record,
     subscript (g_data g) (VStr "data") = Ok d /\
     subscript d (key_of example_repr champion_generator (VInt 1)) = Ok record)
  /\ pull example_repr 3 g
     = [Raised (NotFoundError
                  (not_found_message example_repr champion_generator (VInt 999999)));
        StopIteration; StopIteration]
  /\ ~ exists n dto, pull example_repr (S n) g !! n = Some (Yield dto).
Proof.
  intros g. split; [eexists _, _; split; reflexivity |].
  split; [reflexivity |].
  intros (n & dto & H).
  destruct n as [| n]; [discriminate H |].
  change (S (S n)) with (1 + S n) in H. rewrite pull_app in H.
  rewrite (pull_finished example_repr (S n)) in H by reflexivity.
  change (pull example_repr 1 g) with
    [Raised (NotFoundError (not_found_message example_repr champion_generator (VInt 999999)))] in H.
  simpl in H. apply list_elem_of_lookup_2 in H.
  apply list_elem_of_In in H. destruct H as [H | H]; [discriminate |].
  apply repeat_spec in H. discriminate.
Qed.

(** C10. The generator of [get_many] for summoner spells looks an id up as
    it is, the other generators look up [str(id)]: for an integer id whose
    record is in the data mapping under the id's string form, the summoner
    spell generator raises [NotFoundError] and no other generator does. *)
Theorem summoner_spell_ids_are_not_converted
  (py_repr : value -> string) (g : generator) (z : Z) (ids : list value)
  (top d : dict) (record : value) :
  g_finished g = false ->
  g_ids g = VInt z :: ids ->
  g_data g = VDict top ->
  dict_get top "data" = Some (VDict d) ->
  dict_get d (decimal z) = Some record ->
  key_of py_repr (body g) (VInt z)
  = (if match body g with summoner_spell_generator => true | _ => false end
     then VInt z else VStr (decimal z))
  /\ (body g = summoner_spell_generator ->
      fst (next py_repr g)
      = Raised (NotFoundError (not_found_message py_repr (body g) (VInt z))))
  /\ (body g <> summoner_spell_generator ->
      forall msg, fst (next py_repr g) <> Raised (NotFoundError msg)).
Proof.
  intros Hf Hids Hdata Hd Hrec. split; [now destruct (body g) |]. split.
  - intros Hb. unfold next. rewrite Hf, Hids.
    rewrite generator_body_missing; [reflexivity |].
    exists top, d. rewrite Hb. repeat split; assumption.
  - intros Hb msg. unfold next. rewrite Hf, Hids.
    destruct (generator_body_of py_repr (body g) (g_query g) (g_data g) (VInt z))
      as [[data' dto] | e] eqn:Hbody; simpl; [discriminate |].
    intros H. injection H as ->. revert Hbody.
    apply (generator_body_found py_repr _ _ _ _ (VDict d) record).
    + rewrite Hdata. cbn [subscript]. now apply getitem_Some.
    + destruct (body g); try congruence; cbn [key_of str subscript];
        now apply getitem_Some.
Qed.

Lemma summoner_spell_ids_are_not_converted_witness :
  fst (next example_repr (example_generator summoner_spell_generator [VInt 17]))
  = Raised (NotFoundError
              (not_found_message example_repr summoner_spell_generator (VInt 17)))
  /\ forall msg,
      fst (next example_repr (example_generator champion_generator [VInt 17]))
      <> Raised (NotFoundError msg).
Proof.
  split.
  - eapply (summoner_spell_ids_are_not_converted example_repr
              (example_generator summoner_spell_generator [VInt 17]) 17 []);
      reflexivity.
  - eapply (summoner_spell_ids_are_not_converted example_repr
              (example_generator champion_generator [VInt 17]) 17 []);
      try reflexivity. discriminate.
Defined.

(** ** The store *)

Lemma dict_set_set (d : dict) (k : string) (v v' : value) :
  dict_set (dict_set d k v) k v' = dict_set d k v'.
Proof.
  induction d as [| [k0 v0] d IH]; simpl.
  - now rewrite String.eqb_refl.
  - destruct (String.eqb k0 k) eqn:E; simpl; rewrite E; [reflexivity | now rewrite IH].
Qed.

Lemma records_of_set (top : dict) (d : dict) :
  records_of (dict_set top "data" (VDict d)) = Ok d.
Proof. unfold records_of. now rewrite dict_get_set_same. Qed.

Lemma records_of_Ok (top d : dict) :
  records_of top = Ok d <-> dict_get top "data" = Some (VDict d).
Proof.
  unfold records_of. destruct (dict_get top "data") as [[| | |] |]; split;
    intros H; try discriminate; congruence.
Qed.

Lemma load_allocated (l : loc) (s : service) :
  load l s <> [] -> l < length (heap s).
Proof.
  unfold load. intros H. apply lookup_lt_is_Some.
  destruct (heap s !! l) as [d |] eqn:E; [now exists d | elim H; reflexivity].
Qed.

Lemma records_of_allocated (l : loc) (s : service) (d : dict) :
  records_of (load l s) = Ok d -> l < length (heap s).
Proof.
  intros H. apply load_allocated. intros E. rewrite E in H. discriminate.
Qed.

Lemma load_stored_old (l : loc) s type k d r :
  l < length (heap s) -> load l (stored s type k d r) = load l s.
Proof. intros H. unfold load, stored. simpl. now rewrite lookup_app_l. Qed.

Lemma load_stored_new s type k d r :
  load (length (heap s)) (stored s type k d r) = d.
Proof.
  unfold load, stored. simpl.
  rewrite lookup_app_r by lia. now rewrite Nat.sub_diag.
Qed.

(** What [record_store] does to a record that is there. *)
Lemma record_store_load (l : loc) (i : nat) (v : value) (s : service)
  (d : dict) (kv : string * value) :
  records_of (load l s) = Ok d ->
  d !! i = Some kv ->
  let s' := record_store (l, i) v s in
  load l s' = dict_set (load l s) "data" (VDict (<[i := (fst kv, v)]> d)) /\
  (forall l', l' <> l -> load l' s' = load l' s) /\
  length (heap s') = length (heap s) /\
  _cache s' = _cache s /\ calls s' = calls s.
Proof.
  intros Hd Hi. pose proof (records_of_allocated _ _ _ Hd) as Hl.
  unfold record_store. simpl. rewrite Hd, Hi. simpl.
  repeat split.
  - unfold load at 1. simpl. now rewrite list_lookup_insert_eq.
  - intros l' Hne. unfold load. simpl. now rewrite list_lookup_insert_ne.
  - apply length_insert.
Qed.

(** ** What stamping may change *)

Lemma is_stamp_neq (k k' : string) : is_stamp k = true -> is_stamp k' = false -> k <> k'.
Proof. intros H H' ->. congruence. Qed.

Lemma agree_but_stamps_refl v : agree_but_stamps v v.
Proof. destruct v; simpl; auto. Qed.

Lemma agree_but_stamps_trans u v w :
  agree_but_stamps u v -> agree_but_stamps v w -> agree_but_stamps u w.
Proof.
  destruct u, v, w; simpl; try congruence; try discriminate.
  intros H1 H2 k Hk. now rewrite H2, H1.
Qed.

Lemma agree_but_stamps_set (r : dict) (k : string) (v : value) :
  is_stamp k = true -> agree_but_stamps (VDict r) (VDict (dict_set r k v)).
Proof.
  intros Hk k' Hk'. apply dict_get_set_other. now apply is_stamp_neq.
Qed.

Lemma same_record_refl a : same_record a a.
Proof. split; [reflexivity | apply agree_but_stamps_refl]. Qed.

Lemma same_records_refl (d : dict) : Forall2 same_record d d.
Proof. induction d; constructor; [apply same_record_refl | assumption]. Qed.

Lemma same_records_trans (d1 d2 d3 : dict) :
  Forall2 same_record d1 d2 -> Forall2 same_record d2 d3 -> Forall2 same_record d1 d3.
Proof.
  intros H. revert d3. induction H as [| a b l l' [Hk Hv] _ IH]; intros d3 H3.
  - inversion H3. constructor.
  - inversion H3 as [| ? c ? l'' [Hk' Hv'] Hrest]; subst. constructor.
    + split; [congruence | eapply agree_but_stamps_trans; eassumption].
    + now apply IH.
Qed.

Lemma same_but_stamps_refl top : same_but_stamps top top.
Proof.
  split; [reflexivity |].
  destruct (dict_get top "data") as [[| | | d] |]; try reflexivity.
  apply same_records_refl.
Qed.

Lemma same_but_stamps_trans t1 t2 t3 :
  same_but_stamps t1 t2 -> same_but_stamps t2 t3 -> same_but_stamps t1 t3.
Proof.
  intros [H1 H1'] [H2 H2']. split.
  - intros k Hk. now rewrite H2, H1.
  - destruct (dict_get t1 "data") as [[| | | d1] |],
             (dict_get t2 "data") as [[| | | d2] |],
             (dict_get t3 "data") as [[| | | d3] |];
      try congruence; try discriminate.
    eapply same_records_trans; eassumption.
Qed.

Lemma only_stamped_refl s : only_stamped s s.
Proof.
  split; [lia |]. split; [intros; apply same_but_stamps_refl | auto].
Qed.

Lemma only_stamped_trans s1 s2 s3 :
  only_stamped s1 s2 -> only_stamped s2 s3 -> only_stamped s1 s3.
Proof.
  intros (Hl1 & Ho1 & Hc1) (Hl2 & Ho2 & Hc2). split; [lia |]. split.
  - intros l Hl. eapply same_but_stamps_trans; [now apply Ho1 | apply Ho2; lia].
  - auto.
Qed.

Lemma step_refl s : step s s.
Proof. split; [apply only_stamped_refl | auto]. Qed.

Lemma step_trans s1 s2 s3 : step s1 s2 -> step s2 s3 -> step s1 s3.
Proof.
  intros (H1 & W1 & I1) (H2 & W2 & I2).
  split; [eapply only_stamped_trans; eassumption | auto].
Qed.

(** A state that differs only in the requests made. *)
Lemma step_calls s (rs : list request) :
  step s {| heap := heap s; _cache := _cache s; calls := rs |}.
Proof.
  split; [| split; intros H; exact H].
  split; [simpl; lia |]. split; [| auto].
  intros l _. apply same_but_stamps_refl.
Qed.

Lemma steps_bind {A B} (m : M A) (k : A -> M B) :
  steps m -> (forall a, steps (k a)) -> steps (bind m k).
Proof.
  intros Hm Hk s. unfold bind. specialize (Hm s).
  destruct (m s) as [[a | e] s1]; simpl in *; [| exact Hm].
  eapply step_trans; [exact Hm | apply Hk].
Qed.

Lemma steps_lift {A} (r : result A) : steps (lift r).
Proof. intros s. apply step_refl. Qed.

Lemma steps_ret {A} (a : A) : steps (ret a).
Proof. intros s. apply step_refl. Qed.

Lemma steps_raise {A} (e : exn) : steps (@raise A e).
Proof. intros s. apply step_refl. Qed.

(** ** The operations are steps *)

Lemma dto_type_eqb_eq (a b : dto_type) : dto_type_eqb a b = true <-> a = b.
Proof. destruct a, b; simpl; split; intros H; try discriminate; reflexivity. Qed.

Lemma slot_get_set_cases slots (k k' : cache_key) (l l' : loc) :
  slot_get (slot_set slots k l) k' = Some l' ->
  l' = l \/ slot_get slots k' = Some l'.
Proof.
  destruct (tuple_eq k k') eqn:E.
  - rewrite <- (slot_get_equal_keys _ k k' E), slot_get_set. intros H. left. congruence.
  - rewrite slot_get_set_other by exact E. auto.
Qed.

Lemma same_records_insert (d : dict) (i : nat) (kv kv' : string * value) :
  d !! i = Some kv -> same_record kv kv' -> Forall2 same_record d (<[i := kv']> d).
Proof.
  intros Hi Hs. rewrite <- (list_insert_id d i kv Hi) at 1.
  apply Forall2_insert; [apply same_records_refl | exact Hs].
Qed.

Lemma item_ok_agree v v' : agree_but_stamps v v' -> item_ok v -> item_ok v'.
Proof.
  intros Ha (d & -> & Hname & Ht & Hd & Hc & Hp).
  destruct v' as [| | | d']; simpl in Ha; try discriminate.
  exists d'. split; [reflexivity |]. unfold contains in *.
  rewrite !Ha by reflexivity. auto.
Qed.

Lemma list_items_ok_same top top' :
  same_but_stamps top top' -> list_items_ok top -> list_items_ok top'.
Proof.
  intros [_ Hdata] Hok d' Hd'. apply records_of_Ok in Hd'. rewrite Hd' in Hdata.
  destruct (dict_get top "data") as [[| | | d] |] eqn:Hd; try discriminate.
  apply records_of_Ok in Hd. specialize (Hok d Hd).
  clear -Hdata Hok. induction Hdata as [| a b l l' [_ Hab] _ IH]; [constructor |].
  inversion Hok; subst. constructor; [eapply item_ok_agree; eassumption | auto].
Qed.

(** A change that leaves the cache and the size of the store as they are
    and touches stamps only keeps the invariant. *)
Lemma step_of_only_stamped s s' :
  only_stamped s s' ->
  _cache s' = _cache s -> length (heap s') = length (heap s) ->
  step s s'.
Proof.
  intros Hos Hc Hl.
  assert (Hw : wf s -> wf s').
  { intros Hwf t k l. rewrite Hc, Hl. apply Hwf. }
  split; [exact Hos |]. split; [exact Hw |]. intros [Hwf Hitems]. split; [auto |].
  - intros k l. rewrite Hc. intros Hslot.
    destruct Hos as (_ & Hobj & _).
    eapply list_items_ok_same; [apply Hobj; eapply Hwf; eassumption |].
    eapply Hitems; eassumption.
Qed.

Lemma record_load_dict (r : record_ref) (s : service) (rec : dict) :
  record_load r s = VDict rec ->
  exists d kv, records_of (load (fst r) s) = Ok d /\ d !! snd r = Some kv /\
               snd kv = VDict rec.
Proof.
  unfold record_load.
  destruct (records_of (load (fst r) s)) as [d |] eqn:Hd; [| discriminate].
  destruct (d !! snd r) as [kv |] eqn:Hi; [| discriminate].
  intros H. exists d, kv. auto.
Qed.

(** Writing a stamp on a record of a stored list object. *)
Lemma steps_record_assign (r : record_ref) (k : string) (rhs : result value) :
  is_stamp k = true -> steps (record_assign r k rhs).
Proof.
  intros Hk s. unfold record_assign.
  destruct rhs as [v |]; [| apply step_refl].
  destruct (record_load r s) as [| | | rec] eqn:Hrec; simpl; try apply step_refl.
  apply record_load_dict in Hrec as (d & kv & Hd & Hi & Hkv).
  destruct r as [l i]. simpl in *.
  destruct (record_store_load l i (VDict (dict_set rec k v)) s d kv Hd Hi)
    as (Hload & Hother & Hlen & Hcache & _).
  apply step_of_only_stamped; try assumption.
  split; [lia |]. split; [| now rewrite Hcache].
  intros l0 _. destruct (Nat.eq_dec l0 l) as [-> | Hne].
  - rewrite Hload. split.
    + intros k0 Hk0. apply dict_get_set_other. congruence.
    + apply records_of_Ok in Hd. rewrite Hd, dict_get_set_same.
      apply (same_records_insert d i kv); [assumption |].
      split; [reflexivity |]. simpl. rewrite Hkv. now apply agree_but_stamps_set.
  - rewrite Hother by assumption. apply same_but_stamps_refl.
Qed.

Section Steps.

Variable transport : list request -> request -> response.
Variable request_by_id : bool.
Variable h : list string -> Z.
Variable py_repr : value -> string.

Lemma steps_try_get url params query bucket :
  steps (try_get transport url params query bucket).
Proof.
  intros s. unfold try_get, _get.
  destruct (getitem query "platform"); [| apply step_refl].
  destruct (transport _ _) as [msg | data]; simpl; apply step_calls.
Qed.

Lemma steps_data_values l : steps (data_values l).
Proof. intros s. apply step_refl. Qed.

Lemma steps_record_dto r : steps (record_dto r).
Proof. intros s. apply step_refl. Qed.

Lemma steps_stamp_record_with included r query :
  steps (stamp_record_with included r query).
Proof.
  unfold stamp_record_with.
  repeat first
    [ apply steps_record_assign; reflexivity
    | apply steps_bind; [| intros ?]
    | destruct included ].
Qed.

Lemma steps_fetch_by_id request_of bucket stamp query :
  steps (fetch_by_id transport request_of bucket stamp query).
Proof.
  unfold fetch_by_id.
  repeat first
    [ apply steps_lift | apply steps_ret | apply steps_try_get
    | apply steps_bind; [| intros ?] ].
Qed.

(** Storing a new list object in an empty slot. *)
Lemma step_stored s type k d r :
  slot_get (_cache s type) k = None ->
  (type = ItemListDto -> list_items_ok d) ->
  step s (stored s type k d r).
Proof.
  intros Hnone Hd. split.
  - split; [unfold stored; simpl; rewrite length_app; lia |]. split.
    + intros l Hl. rewrite load_stored_old by assumption. apply same_but_stamps_refl.
    + intros t k0 l Hslot. unfold stored. simpl.
      destruct (dto_type_eqb t type) eqn:Et; [| assumption].
      apply dto_type_eqb_eq in Et. subst t.
      rewrite slot_get_set_other; [assumption |].
      destruct (tuple_eq k k0) eqn:E; [| reflexivity].
      rewrite (slot_get_equal_keys _ k k0 E) in Hnone. congruence.
  - assert (Hw : wf s -> wf (stored s type k d r)).
    { intros Hwf t k0 l. unfold stored. simpl. rewrite length_app. simpl.
      destruct (dto_type_eqb t type).
      * intros H. apply slot_get_set_cases in H as [-> | H]; [lia |].
        apply Hwf in H. lia.
      * intros H. apply Hwf in H. lia. }
    split; [exact Hw |]. intros [Hwf Hitems]. split; [auto |].
    + intros k0 l. unfold stored at 1. cbn [_cache].
      destruct (dto_type_eqb ItemListDto type) eqn:Et.
      * apply dto_type_eqb_eq in Et. intros H.
        apply slot_get_set_cases in H as [-> | H].
        -- rewrite load_stored_new. now apply Hd.
        -- rewrite load_stored_old by (eapply Hwf; eassumption).
           eapply Hitems; eassumption.
      * intros H. rewrite load_stored_old by (eapply Hwf; eassumption).
        eapply Hitems; eassumption.
Qed.

Lemma steps_cached_list type validator request_of bucket stamp query context :
  (type = ItemListDto -> forall q data d, stamp q data = Ok d -> list_items_ok d) ->
  steps (cached_list transport h type validator request_of bucket stamp query context).
Proof.
  intros Hstamp s. unfold cached_list, bind, lift, cache_get.
  destruct (validator query context) as [query' |]; [| apply step_refl].
  destruct (as_key (calculate_hash h query')) as [k |] eqn:Hk; [| apply step_refl].
  destruct (slot_get (_cache s type) k) as [l |] eqn:Hslot; [apply step_refl |].
  destruct (request_of query') as [[u p] |]; [| apply step_refl]. simpl.
  unfold try_get, _get.
  destruct (getitem query' "platform") as [platform |]; [| apply step_refl].
  destruct (transport (calls s) _) as [msg | data]; [apply step_calls |].
  destruct (stamp query' data) as [d |] eqn:Hd; [| apply step_calls].
  unfold new_object, cache_set. simpl. rewrite Hk. simpl.
  apply (step_stored s type k d); [assumption |].
  intros ->. eapply Hstamp; [reflexivity | eassumption].
Qed.

Lemma steps_by_list_or_id validator get_list included by_id query context :
  (forall q c, steps (get_list q c)) ->
  (forall q, steps (by_id q)) ->
  steps (by_list_or_id request_by_id validator get_list
           (stamp_record_with included) by_id query context).
Proof.
  intros Hlist Hid. unfold by_list_or_id.
  apply steps_bind; [apply steps_lift | intros q].
  destruct (request_by_id || contains "name" q); [| apply Hid].
  apply steps_bind; [apply Hlist | intros l].
  apply steps_bind; [apply steps_data_values | intros dtos].
  apply steps_bind; [apply steps_lift | intros [i |]]; [| apply steps_raise].
  apply steps_bind; [apply steps_stamp_record_with | intros _].
  apply steps_record_dto.
Qed.

End Steps.

(** ** Stamping and repairing local values *)

Lemma assign_Ok (x : value) (k : string) (rhs : result value) (x' : value) :
  assign x k rhs = Ok x' ->
  exists d v, x = VDict d /\ rhs = Ok v /\ x' = VDict (dict_set d k v).
Proof.
  unfold assign. intros H. apply rbind_Ok in H as (v & Hv & H).
  destruct x as [| | | d]; try discriminate. injection H as <-. eauto.
Qed.

Lemma rmap_Ok {A B} (f : A -> result B) (l : list A) (l' : list B) :
  rmap f l = Ok l' -> Forall2 (fun a b => f a = Ok b) l l'.
Proof.
  revert l'. induction l as [| a l IH]; intros l' H; simpl in H.
  - injection H as <-. constructor.
  - apply rbind_Ok in H as (b & Hb & H). apply rbind_Ok in H as (bs & Hbs & H).
    injection H as <-. constructor; auto.
Qed.

Lemma for_values_Ok (c : value) (body : value -> result value) (c' : value) :
  for_values c body = Ok c' ->
  exists d d', c = VDict d /\ c' = VDict d' /\
               Forall2 (fun a b => fst a = fst b /\ body (snd a) = Ok (snd b)) d d'.
Proof.
  destruct c as [| | | d]; try discriminate. simpl. intros H.
  apply rbind_Ok in H as (d' & Hd' & H). injection H as <-.
  exists d, d'. repeat split. apply rmap_Ok in Hd'.
  induction Hd' as [| a b l l' Hab _ IH]; constructor; [| exact IH].
  apply rbind_Ok in Hab as (v & Hv & Hab). injection Hab as <-. auto.
Qed.

Lemma dict_get_with_default_other (d : dict) (k k' : string) (v : value) :
  k <> k' -> dict_get (with_default_field d k v) k' = dict_get d k'.
Proof.
  intros Hne. unfold with_default_field.
  destruct (contains k d); [reflexivity | now apply dict_get_set_other].
Qed.

Lemma contains_with_default (d : dict) (k : string) (v : value) :
  contains k (with_default_field d k v) = true.
Proof.
  unfold with_default_field. destruct (contains k d) eqn:E; [exact E |].
  apply contains_set_same.
Qed.

Lemma contains_with_default_other (d : dict) (k k' : string) (v : value) :
  k <> k' -> contains k' (with_default_field d k v) = contains k' d.
Proof. intros Hne. unfold contains. now rewrite dict_get_with_default_other. Qed.

(** The repair rules succeed on a dict with an id and on nothing else, and
    give [repaired]. *)
Lemma repair_item_Ok (item item' : value) :
  repair_item item = Ok item' ->
  exists d id, item = VDict d /\ dict_get d "id" = Some id /\
               item' = VDict (repaired d id).
Proof.
  destruct item as [[| | | |] | | |  d]; try discriminate.
  unfold repair_item. cbn [subscript]. unfold getitem.
  destruct (dict_get d "id") as [id |] eqn:Hid; [| discriminate].
  cbn [rbind]. intros H. exists d, id. split; [reflexivity |]. split; [exact Hid |].
  unfold repaired, with_default_field.
  destruct (py_eq id (VInt 3632)); cbn [setitem rbind not_in] in H;
    repeat match type of H with
           | context [contains ?k ?x] => destruct (contains k x); cbn [negb setitem rbind not_in] in H
           end;
    now injection H as <-.
Qed.

Lemma repaired_item_ok (d : dict) (id : value) :
  dict_get d "id" = Some id -> item_ok (VDict (repaired d id)).
Proof.
  intros Hid. exists (repaired d id). split; [reflexivity |]. unfold repaired.
  split; [| repeat split].
  - intros id'.
    rewrite !dict_get_with_default_other by discriminate.
    destruct (py_eq id (VInt 3632)) eqn:E.
    + intros _ _. apply dict_get_set_same.
    + rewrite Hid. intros H. injection H as <-. congruence.
  - rewrite !contains_with_default_other by discriminate. apply contains_with_default.
  - rewrite !contains_with_default_other by discriminate. apply contains_with_default.
  - rewrite !contains_with_default_other by discriminate. apply contains_with_default.
  - apply contains_with_default.
Qed.

Lemma item_ok_set (d : dict) (k : string) (v : value) :
  is_stamp k = true -> item_ok (VDict d) -> item_ok (VDict (dict_set d k v)).
Proof. intros Hk. apply item_ok_agree. now apply agree_but_stamps_set. Qed.

(** The list that [get_item_list] stores holds repaired records only. *)
Lemma item_list_stamp_ok (query : dict) (data : value) (d : dict) :
  item_list_stamp query data = Ok d -> list_items_ok d.
Proof.
  unfold item_list_stamp. intros H.
  apply rbind_Ok in H as (d1 & H1 & H). apply rbind_Ok in H as (d2 & H2 & H).
  apply rbind_Ok in H as (d3 & H3 & H). apply rbind_Ok in H as (items & Hitems & H).
  apply rbind_Ok in H as (items' & Hfor & H).
  apply assign_Ok in H3 as (top & v3 & _ & _ & ->).
  apply for_values_Ok in Hfor as (recs & recs' & -> & -> & Hall).
  cbn [store_back Dto] in H. injection H as <-.
  intros d Hd. rewrite records_of_set in Hd. injection Hd as <-.
  clear -Hall. induction Hall as [| a b l l' [_ Hab] _ IH]; constructor; [| exact IH].
  apply rbind_Ok in Hab as (r0 & Hrep & Hab).
  apply rbind_Ok in Hab as (r1 & Hr1 & Hab). apply rbind_Ok in Hab as (r2 & Hr2 & Hab).
  apply rbind_Ok in Hab as (r3 & Hr3 & Hab).
  apply repair_item_Ok in Hrep as (d0 & id & _ & Hid & ->).
  apply assign_Ok in Hr1 as (x1 & v1 & Hx1 & _ & ->). injection Hx1 as <-.
  apply assign_Ok in Hr2 as (x2 & v2 & Hx2 & _ & ->). injection Hx2 as <-.
  apply assign_Ok in Hr3 as (x3 & v3 & Hx3 & _ & ->). injection Hx3 as <-.
  apply assign_Ok in Hab as (x4 & v4 & Hx4 & _ & ->). injection Hx4 as <-.
  repeat (apply item_ok_set; [reflexivity |]). now apply repaired_item_ok.
Qed.

Section Get.

Variable transport : list request -> request -> response.
Variable request_by_id : bool.
Variable h : list string -> Z.
Variable py_repr : value -> string.

Lemma steps_get_list (type : dto_type) query context :
  steps (cached_list transport h type (validator_of type) (list_request_of type)
           (list_bucket_of type) (list_stamp_of type) query context).
Proof.
  apply steps_cached_list. intros -> q data d. apply item_list_stamp_ok.
Qed.

(** Every [get] is a step: it keeps what is stored but for stamps, keeps
    the filled slots, and keeps the invariant. *)
Lemma steps_get (type : dto_type) query context :
  steps (get transport request_by_id h py_repr type query context).
Proof.
  destruct (is_list type) eqn:Hl.
  - rewrite (get_list_frame _ _ _ _ _ Hl). unfold returning_reference.
    apply steps_bind; [apply steps_get_list | intros l; apply steps_ret].
  - rewrite (get_single_frame _ _ _ _ _ Hl). unfold returning_value.
    apply steps_bind; [| intros v; apply steps_ret].
    apply steps_by_list_or_id.
    + intros q c. apply steps_get_list.
    + intros q. destruct type; simpl;
        apply steps_fetch_by_id || apply steps_ret.
Qed.

End Get.

Lemma wf_init : wf init.
Proof. intros t k l H. discriminate. Qed.

Lemma invariant_init : invariant init.
Proof. split; [apply wf_init | intros k l H; discriminate]. Qed.

(** C9, as the code has it. No [get] empties or rebinds a filled slot of
    the cache, and to a stored list object it does nothing but overwrite
    stamps (region, version, locale, includedData) of its records: the
    entries of the list, the keys and the order of its records and every
    other field of every record stay as they were. *)
Theorem cached_lists_change_in_stamps_only
  (transport : list request -> request -> response) (request_by_id : bool)
  (h : list string -> Z) (py_repr : value -> string)
  (type : dto_type) (query : dict) (context : PipelineContext)
  (s s' : service) (r : result object) :
  wf s ->
  get transport request_by_id h py_repr type query context s = (r, s') ->
  wf s' /\
  forall t k l,
    slot_get (_cache s t) k = Some l ->
    slot_get (_cache s' t) k = Some l /\ same_but_stamps (load l s) (load l s').
Proof.
  intros Hwf Hget.
  pose proof (steps_get transport request_by_id h py_repr type query context s) as Hs.
  rewrite Hget in Hs. simpl in Hs. destruct Hs as ((_ & Hobj & Hslots) & Hw & _).
  split; [auto |]. intros t k l Hslot. split; [auto |].
  apply Hobj. eapply Hwf; eassumption.
Qed.

Lemma cached_lists_change_in_stamps_only_witness :
  let s := snd (get example_transport false example_hash example_repr MapListDto
                  [("platform", VPlatform NA); ("version", VStr "7.1")]
                  example_context init) in
  let s' := snd (get example_transport false example_hash example_repr MapDto
                   [("name", VStr "Teemo"); ("platform", VPlatform NA)]
                   example_context s) in
  wf s' /\
  forall t k l,
    slot_get (_cache s t) k = Some l ->
    slot_get (_cache s' t) k = Some l /\ same_but_stamps (load l s) (load l s').
Proof.
  intros s s'.
  apply (cached_lists_change_in_stamps_only example_transport false example_hash
           example_repr MapDto [("name", VStr "Teemo"); ("platform", VPlatform NA)]
           example_context s s'
           (fst (get example_transport false example_hash example_repr MapDto
                   [("name", VStr "Teemo"); ("platform", VPlatform NA)]
                   example_context s))).
  - pose proof (steps_get example_transport false example_hash example_repr MapListDto
                  [("platform", VPlatform NA); ("version", VStr "7.1")]
                  example_context init) as (_ & Hw & _).
    apply Hw, wf_init.
  - apply surjective_pairing.
Defined.

(** C9, as stated, fails: a map list is fetched and cached, then a map is
    asked for by name; the list-and-filter path stamps the matching record
    of the cached list in place, and the cached list has changed. *)
Lemma get_by_name_changes_the_cached_list :
  let s := snd (get example_transport false example_hash example_repr MapListDto
                  [("platform", VPlatform NA); ("version", VStr "7.1")]
                  example_context init) in
  let s' := snd (get example_transport false example_hash example_repr MapDto
                   [("name", VStr "Teemo"); ("platform", VPlatform NA)]
                   example_context s) in
  slot_get (_cache s MapListDto) [AInt 1; AStr "en_US"; APlatform NA; AStr "7.1"]
  = Some 0%nat
  /\ slot_get (_cache s' MapListDto) [AInt 1; AStr "en_US"; APlatform NA; AStr "7.1"]
     = Some 0%nat
  /\ record_load (0%nat, 1%nat) s
     = VDict [("id", VInt 17); ("name", VStr "Teemo")]
  /\ record_load (0%nat, 1%nat) s'
     = VDict [("id", VInt 17); ("name", VStr "Teemo"); ("region", VStr "NA");
              ("version", VStr "7.1"); ("locale", VStr "en_US")]
  /\ load 0%nat s' <> load 0%nat s.
Proof.
  intros s s'. repeat split. vm_compute. discriminate.
Qed.

(** ** Single gets *)

(** A successful [record_assign] found a dict and set the field in it. *)
Lemma record_assign_Ok (r : record_ref) (k : string) (rhs : result value)
  (s s' : service) :
  record_assign r k rhs s = (Ok tt, s') ->
  exists v rec, rhs = Ok v /\ record_load r s = VDict rec /\
                record_load r s' = VDict (dict_set rec k v).
Proof.
  unfold record_assign. destruct rhs as [v |]; [| discriminate].
  destruct (record_load r s) as [| | | rec] eqn:Hrec; try discriminate.
  simpl. intros H. injection H as <-. exists v, rec. repeat split.
  apply record_load_dict in Hrec as (d & kv & Hd & Hi & Hkv). destruct r as [l i].
  simpl in *.
  destruct (record_store_load l i (VDict (dict_set rec k v)) s d kv Hd Hi)
    as (Hload & _).
  unfold record_load. simpl. rewrite Hload, records_of_set.
  rewrite list_lookup_insert_eq by (eapply lookup_lt_Some; eassumption). reflexivity.
Qed.

(** The fields that [stamp_record_with] leaves on the record. *)
Lemma stamp_record_with_Ok (included : bool) (r : record_ref) (query : dict)
  (s s' : service) :
  stamp_record_with included r query s = (Ok tt, s') ->
  exists x region version locale,
    record_load r s' = VDict x /\
    region_of query = Ok region /\ dict_get x "region" = Some region /\
    getitem query "version" = Ok version /\ dict_get x "version" = Some version /\
    getitem query "locale" = Ok locale /\ dict_get x "locale" = Some locale /\
    (included = true ->
     exists data, getitem query "includedData" = Ok data /\
                  dict_get x "includedData" = Some data).
Proof.
  unfold stamp_record_with. intros H.
  apply bind_Ok in H as ([] & s1 & H1 & H). apply bind_Ok in H as ([] & s2 & H2 & H).
  apply record_assign_Ok in H1 as (region & r0 & Hreg & _ & L1).
  apply record_assign_Ok in H2 as (version & r1 & Hver & L1' & L2).
  rewrite L1 in L1'. injection L1' as <-.
  destruct included.
  - apply bind_Ok in H as ([] & s3 & H3 & H4).
    apply record_assign_Ok in H3 as (locale & r2 & Hloc & L2' & L3).
    rewrite L2 in L2'. injection L2' as <-.
    apply record_assign_Ok in H4 as (data & r3 & Hinc & L3' & L4).
    rewrite L3 in L3'. injection L3' as <-.
    eexists _, region, version, locale. split; [exact L4 |].
    repeat split; try assumption.
    + rewrite !dict_get_set_other by discriminate. apply dict_get_set_same.
    + rewrite !dict_get_set_other by discriminate. apply dict_get_set_same.
    + rewrite !dict_get_set_other by discriminate. apply dict_get_set_same.
    + intros _. exists data. split; [assumption | apply dict_get_set_same].
  - apply record_assign_Ok in H as (locale & r2 & Hloc & L2' & L3).
    rewrite L2 in L2'. injection L2' as <-.
    eexists _, region, version, locale. split; [exact L3 |].
    repeat split; try assumption; try discriminate.
    + rewrite !dict_get_set_other by discriminate. apply dict_get_set_same.
    + rewrite !dict_get_set_other by discriminate. apply dict_get_set_same.
    + apply dict_get_set_same.
Qed.

Section SingleGets.

Variable transport : list request -> request -> response.
Variable request_by_id : bool.
Variable h : list string -> Z.
Variable py_repr : value -> string.

(** What a successful single get did: it went by id, or it got the list,
    stamped one of its records in place and returned a copy of it. *)
Lemma by_list_or_id_Ok validator get_list included by_id query context s s' v :
  by_list_or_id request_by_id validator get_list (stamp_record_with included) by_id
    query context s = (Ok v, s') ->
  exists query',
    validator query context = Ok query' /\
    ((request_by_id || contains "name" query' = false /\ by_id query' s = (Ok v, s')) \/
     (request_by_id || contains "name" query' = true /\
      exists l i s1 x,
        get_list (list_query query') context s = (Ok l, s1) /\
        stamp_record_with included (l, i) query' s1 = (Ok tt, s') /\
        record_load (l, i) s' = VDict x /\ v = VDict x)).
Proof.
  unfold by_list_or_id. intros H.
  apply bind_Ok in H as (query' & s0 & Hv & H). apply lift_Ok in Hv as [Hv ->].
  exists query'. split; [assumption |].
  destruct (request_by_id || contains "name" query'); [right | left; auto].
  split; [reflexivity |].
  apply bind_Ok in H as (l & s1 & Hl & H).
  apply bind_Ok in H as (dtos & s2 & Hd & H).
  unfold data_values in Hd. injection Hd as _ <-.
  apply bind_Ok in H as (found & s2 & Hf & H). apply lift_Ok in Hf as [_ ->].
  destruct found as [i |]; [| discriminate].
  apply bind_Ok in H as ([] & s2 & Hs & H).
  unfold record_dto in H.
  destruct (record_load (l, i) s2) as [| | | x] eqn:Hx; try discriminate.
  simpl in H. injection H as <- <-.
  exists l, i, s1, x. auto.
Qed.

Lemma fetch_by_id_Ok request_of bucket stamp query s s' v :
  fetch_by_id transport request_of bucket stamp query s = (Ok v, s') ->
  exists data dto, stamp query data = Ok dto /\ v = VDict dto.
Proof.
  unfold fetch_by_id. intros H.
  apply bind_Ok in H as (req & s0 & _ & H). apply bind_Ok in H as (data & s1 & _ & H).
  apply bind_Ok in H as (dto & s2 & Hd & H). apply lift_Ok in Hd as [Hd ->].
  unfold ret in H. injection H as <- <-. eauto.
Qed.

Lemma returning_value_Ok (m : M value) s s' v :
  returning_value m s = (Ok (Value v), s') -> m s = (Ok v, s').
Proof.
  unfold returning_value. intros H.
  apply bind_Ok in H as (v' & s1 & Hm & H). unfold ret in H.
  injection H as -> ->. exact Hm.
Qed.

End SingleGets.

(** What [get_item] does to the data fetched by id leaves a repaired
    record. *)
Lemma item_stamp_ok (query : dict) (data : value) (d : dict) :
  item_stamp query data = Ok d -> item_ok (VDict d).
Proof.
  unfold item_stamp. intros H.
  apply rbind_Ok in H as (d1 & _ & H). apply rbind_Ok in H as (d2 & _ & H).
  apply rbind_Ok in H as (d3 & _ & H). apply rbind_Ok in H as (d4 & _ & H).
  apply rbind_Ok in H as (d5 & Hrep & H).
  apply repair_item_Ok in Hrep as (d0 & id & _ & Hid & ->).
  injection H as <-. now apply repaired_item_ok.
Qed.

(** The values that the repair rules leave in the fields they look at. *)
Lemma repaired_fields (d : dict) (id : value) :
  dict_get (repaired d id) "name"
  = (if py_eq id (VInt 3632) then Some (VStr EmptyString) else dict_get d "name")
  /\ dict_get (repaired d id) "tags" = Some (default (VList []) (dict_get d "tags"))
  /\ dict_get (repaired d id) "depth" = Some (default (VInt 1) (dict_get d "depth"))
  /\ dict_get (repaired d id) "colloq"
     = Some (default (VStr EmptyString) (dict_get d "colloq"))
  /\ dict_get (repaired d id) "plaintext"
     = Some (default (VStr EmptyString) (dict_get d "plaintext")).
Proof.
  assert (Hdef : forall (x : dict) k v,
             dict_get (with_default_field x k v) k = Some (default v (dict_get x k))).
  { intros x k v. unfold with_default_field, contains.
    destruct (dict_get x k) eqn:E; simpl; [exact E | apply dict_get_set_same]. }
  assert (Hname : forall k, k <> "name" ->
             dict_get (if py_eq id (VInt 3632)
                       then dict_set d "name" (VStr EmptyString) else d) k
             = dict_get d k).
  { intros k Hk. destruct (py_eq id (VInt 3632)); [| reflexivity].
    apply dict_get_set_other. congruence. }
  unfold repaired. repeat split.
  - rewrite !dict_get_with_default_other by discriminate.
    destruct (py_eq id (VInt 3632)); [apply dict_get_set_same | reflexivity].
  - rewrite !dict_get_with_default_other by discriminate.
    rewrite Hdef, Hname by discriminate. reflexivity.
  - rewrite !dict_get_with_default_other by discriminate.
    rewrite Hdef, dict_get_with_default_other, Hname by discriminate. reflexivity.
  - rewrite !dict_get_with_default_other by discriminate.
    rewrite Hdef, !dict_get_with_default_other, Hname by discriminate. reflexivity.
  - rewrite Hdef, !dict_get_with_default_other, Hname by discriminate. reflexivity.
Qed.

(** C7. Every item record that the service produces is repaired: the item
    3632 has the empty name, and tags, depth, colloq and plaintext are
    there, with the defaults [[]], [1] and the empty string where the raw
    record had none.  This holds for a single get by id and by the list,
    for the records of a list and for the elements of [get_many]; the cache
    only ever holds repaired item lists. *)
Theorem item_records_are_repaired
  (transport : list request -> request -> response) (request_by_id : bool)
  (h : list string -> Z) (py_repr : value -> string) (s : service) :
  invariant s ->
  (forall query context v s',
     get transport request_by_id h py_repr ItemDto query context s
     = (Ok (Value v), s') -> item_ok v)
  /\ (forall query context l s',
        get transport request_by_id h py_repr ItemListDto query context s
        = (Ok (Reference l), s') -> list_items_ok (load l s'))
  /\ (forall g dto g',
        body g = item_generator -> next py_repr g = (Yield dto, g') -> item_ok dto)
  /\ (forall item item',
        repair_item item = Ok item' ->
        exists d id,
          item = VDict d /\ dict_get d "id" = Some id /\ item' = VDict (repaired d id)
          /\ dict_get (repaired d id) "name"
             = (if py_eq id (VInt 3632) then Some (VStr EmptyString)
                else dict_get d "name")
          /\ dict_get (repaired d id) "tags"
             = Some (default (VList []) (dict_get d "tags"))
          /\ dict_get (repaired d id) "depth"
             = Some (default (VInt 1) (dict_get d "depth"))
          /\ dict_get (repaired d id) "colloq"
             = Some (default (VStr EmptyString) (dict_get d "colloq"))
          /\ dict_get (repaired d id) "plaintext"
             = Some (default (VStr EmptyString) (dict_get d "plaintext")))
  /\ (forall type query context,
        invariant (snd (get transport request_by_id h py_repr type query context s))).
Proof.
  intros Hinv. split; [| split; [| split; [| split]]].
  - intros query context v s' Hget.
    rewrite (get_single_frame _ _ _ _ ItemDto eq_refl) in Hget.
    apply returning_value_Ok in Hget.
    apply by_list_or_id_Ok in Hget as (q' & _ & [[_ Hid] | [_ Hlist]]).
    + simpl in Hid. apply fetch_by_id_Ok in Hid as (data & dto & Hdto & ->).
      eapply item_stamp_ok; eassumption.
    + destruct Hlist as (l & i & s1 & x & Hl & Hst & Hx & ->).
      pose proof (steps_get_list transport h ItemListDto (list_query q') context s)
        as (_ & _ & Hi1).
      simpl in Hl, Hi1. rewrite Hl in Hi1. simpl in Hi1. specialize (Hi1 Hinv).
      apply cached_list_Ok in Hl as (q1 & k & _ & _ & Hcase).
      assert (Hslot : slot_get (_cache s1 ItemListDto) k = Some l).
      { destruct Hcase as [[Hs ->] | [_ (req & p & data & d & _ & _ & _ & _ & -> & ->)]];
          [exact Hs | apply stored_slot]. }
      change (has_includedData ItemDto) with true in Hst.
      pose proof (steps_stamp_record_with true (l, i) q' s1) as ((_ & _ & Hslots) & _ & Hi2).
      rewrite Hst in Hslots, Hi2. simpl in Hslots, Hi2.
      destruct (Hi2 Hi1) as [_ Hitems].
      apply Hslots in Hslot. specialize (Hitems k l Hslot).
      apply record_load_dict in Hx as (d & kv & Hd & Hkv & Hsnd). simpl in *.
      specialize (Hitems d Hd). rewrite <- Hsnd.
      apply (Forall_lookup_1 _ _ _ _ Hitems Hkv).
  - intros query context l s' Hget.
    pose proof (steps_get transport request_by_id h py_repr ItemListDto query context s)
      as (_ & _ & Hi).
    rewrite Hget in Hi. simpl in Hi. destruct (Hi Hinv) as [_ Hitems].
    rewrite (get_list_frame _ _ _ _ ItemListDto eq_refl) in Hget.
    apply returning_reference_Ok in Hget.
    apply cached_list_Ok in Hget as (q1 & k & _ & _ & Hcase).
    apply (Hitems k).
    destruct Hcase as [[Hs ->] | [_ (req & p & data & d & _ & _ & _ & _ & -> & ->)]];
      [exact Hs | apply stored_slot].
  - intros g dto g' Hb. unfold next.
    destruct (g_finished g); [discriminate |].
    destruct (g_ids g) as [| id ids]; [discriminate |]. rewrite Hb. simpl.
    destruct (item_generator_body py_repr (g_query g) (g_data g) id)
      as [[data' dto'] |] eqn:Hbody; [| discriminate].
    intros H. injection H as <- _. unfold item_generator_body in Hbody.
    apply rbind_Ok in Hbody as (r0 & _ & Hbody). apply rbind_Ok in Hbody as (r1 & _ & Hbody).
    apply rbind_Ok in Hbody as (r2 & _ & Hbody). apply rbind_Ok in Hbody as (r3 & _ & Hbody).
    apply rbind_Ok in Hbody as (r4 & _ & Hbody). apply rbind_Ok in Hbody as (r5 & Hrep & Hbody).
    apply repair_item_Ok in Hrep as (d0 & id0 & _ & Hid & ->).
    simpl in Hbody. injection Hbody as _ <-. now apply repaired_item_ok.
  - intros item item' Hrep.
    apply repair_item_Ok in Hrep as (d & id & -> & Hid & ->).
    exists d, id. split; [reflexivity |]. split; [assumption |]. split; [reflexivity |].
    apply repaired_fields.
  - intros type query context.
    pose proof (steps_get transport request_by_id h py_repr type query context s)
      as (_ & _ & Hi).
    now apply Hi.
Qed.

(** ** Stamps *)

Lemma has_stamps_stamped (d : dict) (region version locale data : value) :
  has_stamps (stamped d region version locale data) region version locale (Some data).
Proof.
  unfold has_stamps, stamped. repeat split.
  - rewrite !dict_get_set_other by discriminate. apply dict_get_set_same.
  - rewrite !dict_get_set_other by discriminate. apply dict_get_set_same.
  - rewrite !dict_get_set_other by discriminate. apply dict_get_set_same.
  - apply dict_get_set_same.
Qed.

(** The four stamps, followed by whatever comes next. *)
Lemma stamp4_then {A} (query : dict) (x : value) (rv : result value)
  (k : value -> result A) (a : A) :
  (let* x := assign x "region" (region_of query) in
   let* x := assign x "version" rv in
   let* x := assign x "locale" (getitem query "locale") in
   let* x := assign x "includedData" (getitem query "includedData") in
   k x)%result = Ok a ->
  exists d region version locale data,
    x = VDict d /\ region_of query = Ok region /\ rv = Ok version /\
    getitem query "locale" = Ok locale /\ getitem query "includedData" = Ok data /\
    k (VDict (stamped d region version locale data)) = Ok a.
Proof.
  intros H.
  apply rbind_Ok in H as (x1 & H1 & H). apply rbind_Ok in H as (x2 & H2 & H).
  apply rbind_Ok in H as (x3 & H3 & H). apply rbind_Ok in H as (x4 & H4 & H).
  apply assign_Ok in H1 as (d & region & -> & Hr & ->).
  apply assign_Ok in H2 as (d1 & version & E1 & Hv & ->). injection E1 as <-.
  apply assign_Ok in H3 as (d2 & locale & E2 & Hl & ->). injection E2 as <-.
  apply assign_Ok in H4 as (d3 & data & E3 & Hi & ->). injection E3 as <-.
  exists d, region, version, locale, data. auto 10.
Qed.

Lemma stamp4_Ok (query : dict) (x : value) (rv : result value) (x' : value) :
  (let* x := assign x "region" (region_of query) in
   let* x := assign x "version" rv in
   let* x := assign x "locale" (getitem query "locale") in
   assign x "includedData" (getitem query "includedData"))%result = Ok x' ->
  exists d version, x = VDict d /\ rv = Ok version /\
    exists x0, x' = VDict x0 /\ stamped_from query version x0.
Proof.
  intros H.
  apply rbind_Ok in H as (x1 & H1 & H). apply rbind_Ok in H as (x2 & H2 & H).
  apply rbind_Ok in H as (x3 & H3 & H4).
  apply assign_Ok in H1 as (d & region & -> & Hr & ->).
  apply assign_Ok in H2 as (d1 & version & E1 & Hv & ->). injection E1 as <-.
  apply assign_Ok in H3 as (d2 & locale & E2 & Hl & ->). injection E2 as <-.
  apply assign_Ok in H4 as (d3 & data & E3 & Hi & ->). injection E3 as <-.
  exists d, version. repeat split; try assumption.
  eexists. split; [reflexivity |]. exists region, locale, data.
  split; [assumption |]. split; [assumption |]. split; [assumption |].
  apply has_stamps_stamped.
Qed.

Lemma dict_get_repaired_other (d : dict) (id : value) (k : string) :
  is_stamp k = true -> dict_get (repaired d id) k = dict_get d k.
Proof.
  intros Hk. unfold repaired.
  rewrite !dict_get_with_default_other
    by (intros <-; discriminate Hk).
  destruct (py_eq id (VInt 3632)); [| reflexivity].
  apply dict_get_set_other. intros <-. discriminate Hk.
Qed.

Lemma has_stamps_repaired d id region version locale data :
  has_stamps d region version locale (Some data) ->
  has_stamps (repaired d id) region version locale (Some data).
Proof.
  unfold has_stamps. rewrite !dict_get_repaired_other by reflexivity. auto.
Qed.

(** The four stamps, then possibly the repair rules, then the copy into a
    dto. *)
Lemma stamp4_repair_Dto (query : dict) (x : value) (rv : result value)
  (repair : value -> result value) (dto : dict) :
  repair = Ok \/ repair = repair_item ->
  (let* x := assign x "region" (region_of query) in
   let* x := assign x "version" rv in
   let* x := assign x "locale" (getitem query "locale") in
   let* x := assign x "includedData" (getitem query "includedData") in
   let* x := repair x in
   Dto x)%result = Ok dto ->
  exists version, rv = Ok version /\ stamped_from query version dto.
Proof.
  intros Hrep H.
  apply stamp4_then in H as (d & region & version & locale & data & _ & Hr & Hv & Hl & Hi & H).
  exists version. split; [assumption |]. exists region, locale, data.
  split; [assumption |]. split; [assumption |]. split; [assumption |].
  apply rbind_Ok in H as (x' & Hx' & H).
  destruct Hrep as [-> | ->].
  - injection Hx' as <-. injection H as <-. apply has_stamps_stamped.
  - apply repair_item_Ok in Hx' as (d0 & id & E & _ & ->). injection E as <-.
    injection H as <-. apply has_stamps_repaired, has_stamps_stamped.
Qed.

(** *** The records that a list operation stores *)

(** The top level of a list object that a list operation builds. *)
Lemma list_stamp_top (type : dto_type) (query : dict) (data : value) (d : dict) :
  is_list type = true ->
  list_stamp_of type query data = Ok d ->
  exists region locale,
    region_of query = Ok region /\ getitem query "locale" = Ok locale /\
    dict_get d "region" = Some region /\ dict_get d "locale" = Some locale /\
    (has_includedData type = true ->
     exists included, getitem query "includedData" = Ok included /\
                      dict_get d "includedData" = Some included).
Proof.
  intros Hl H.
  destruct type; try discriminate Hl; cbn [list_stamp_of] in H.
  all: unfold champion_list_stamp, mastery_list_stamp, rune_list_stamp, item_list_stamp,
      map_list_stamp, summoner_spell_list_stamp in H.
  all: apply rbind_Ok in H as (x1 & H1 & H); apply rbind_Ok in H as (x2 & H2 & H).
  all: apply assign_Ok in H1 as (d0 & region & -> & Hr & ->).
  all: apply assign_Ok in H2 as (d1 & locale & E & Hloc & ->); injection E as <-.
  all: exists region, locale.
  all: split; [assumption |]; split; [assumption |].
  5: { injection H as <-. split; [| split; [| discriminate]].
       - rewrite dict_get_set_other by discriminate. apply dict_get_set_same.
       - apply dict_get_set_same. }
  all: apply rbind_Ok in H as (x3 & H3 & H).
  all: apply assign_Ok in H3 as (d2 & included & E & Hinc & ->); injection E as <-.
  all: apply rbind_Ok in H as (recs & _ & H); apply rbind_Ok in H as (recs' & _ & H).
  all: cbn [store_back Dto] in H; injection H as <-.
  all: split; [| split; [| intros _; exists included; split; [assumption |]]].
  all: rewrite !dict_get_set_other by discriminate; apply dict_get_set_same.
Qed.

(** The records of a new champion, rune or item list carry the stamps of
    the query, its version included. *)
Lemma list_stamp_records (type : dto_type) (query : dict) (data : value) (d recs : dict) :
  records_get_query_version type = true ->
  list_stamp_of type query data = Ok d ->
  records_of d = Ok recs ->
  Forall (fun kv => exists x version,
            snd kv = VDict x /\ getitem query "version" = Ok version /\
            stamped_from query version x) recs.
Proof.
  intros Ht H Hrecs.
  destruct type; try discriminate Ht; cbn [list_stamp_of] in H.
  all: unfold champion_list_stamp, rune_list_stamp, item_list_stamp in H.
  all: apply rbind_Ok in H as (x1 & _ & H); apply rbind_Ok in H as (x2 & _ & H).
  all: apply rbind_Ok in H as (x3 & H3 & H).
  all: apply assign_Ok in H3 as (d2 & included & -> & _ & ->).
  all: apply rbind_Ok in H as (c & _ & H); apply rbind_Ok in H as (c' & Hfor & H).
  all: apply for_values_Ok in Hfor as (r & r' & -> & -> & Hall).
  all: cbn [store_back Dto] in H; injection H as <-.
  all: rewrite records_of_set in Hrecs; injection Hrecs as <-.
  all: clear -Hall; induction Hall as [| a b l l' [_ Hab] _ IH]; constructor; try exact IH.
  - apply stamp4_Ok in Hab as (d & version & _ & Hv & x0 & -> & Hs). eauto.
  - apply stamp4_Ok in Hab as (d & version & _ & Hv & x0 & -> & Hs). eauto.
  - apply rbind_Ok in Hab as (item & _ & Hab).
    apply stamp4_Ok in Hab as (d & version & _ & Hv & x0 & -> & Hs). eauto.
Qed.

(** The records of a new mastery list carry the region, locale and
    includedData of the query and the version of the payload, which is the
    version of the list object. *)
Lemma mastery_list_stamp_records (query : dict) (data : value) (d recs : dict) :
  mastery_list_stamp query data = Ok d ->
  records_of d = Ok recs ->
  Forall (fun kv => exists x version,
            snd kv = VDict x /\ dict_get d "version" = Some version /\
            subscript data (VStr "version") = Ok version /\
            stamped_from query version x) recs.
Proof.
  unfold mastery_list_stamp. intros H Hrecs.
  apply rbind_Ok in H as (x1 & H1 & H); apply rbind_Ok in H as (x2 & H2 & H);
    apply rbind_Ok in H as (x3 & H3 & H).
  apply assign_Ok in H1 as (d0 & region & -> & _ & ->).
  apply assign_Ok in H2 as (d1 & locale & E & _ & ->); injection E as <-.
  apply assign_Ok in H3 as (d2 & included & E & _ & ->); injection E as <-.
  apply rbind_Ok in H as (c & _ & H); apply rbind_Ok in H as (c' & Hfor & H).
  apply for_values_Ok in Hfor as (r & r' & -> & -> & Hall).
  cbn [store_back Dto] in H; injection H as <-.
  rewrite records_of_set in Hrecs; injection Hrecs as <-.
  rewrite !dict_get_set_other by discriminate.
  cbn [subscript]. unfold getitem.
  induction Hall as [| a b l l' [_ Hab] _ IH]; constructor; try exact IH.
  apply stamp4_Ok in Hab as (d & version & _ & Hv & x0 & -> & Hs).
  exists x0, version. split; [reflexivity |].
  cbn [subscript] in Hv. unfold getitem in Hv.
  rewrite !dict_get_set_other in Hv by discriminate.
  destruct (dict_get d0 "version") as [v |]; [| discriminate].
  injection Hv as <-. auto.
Qed.

(** *** The elements of [get_many] *)

Lemma store_record_version (data key record version : value) :
  subscript data (VStr "version") = Ok version ->
  subscript (store_record data key record) (VStr "version") = Ok version.
Proof.
  intros Hv. unfold store_record.
  destruct (subscript data (VStr "data")) as [d |]; [| exact Hv].
  destruct data as [[| | | |] | | | top]; try discriminate Hv.
  cbn [store_back subscript] in *. unfold getitem in *.
  now rewrite dict_get_set_other by discriminate.
Qed.

Section Elements.

Variable transport : list request -> request -> response.
Variable py_repr : value -> string.

(** An element that is yielded carries the region, locale and includedData
    of the query of the generator and the version at the top of its data;
    the query and that version stay for the elements to come. *)
Lemma next_Yield_stamps (g g' : generator) (dto : value) :
  next py_repr g = (Yield dto, g') ->
  exists x version,
    dto = VDict x /\
    subscript (g_data g) (VStr "version") = Ok version /\
    stamped_from (g_query g) version x /\
    g_query g' = g_query g /\
    subscript (g_data g') (VStr "version") = Ok version.
Proof.
  unfold next. destruct (g_finished g); [discriminate |].
  destruct (g_ids g) as [| id ids]; [discriminate |].
  destruct (generator_body_of py_repr (body g) (g_query g) (g_data g) id)
    as [[data' dto'] |] eqn:Hbody; [| discriminate].
  intros H. injection H as <- <-. simpl.
  rewrite generator_body_frame in Hbody. unfold generator_body_with in Hbody.
  apply rbind_Ok in Hbody as (record & _ & Hbody).
  apply stamp4_then in Hbody
    as (d & region & version & locale & data & _ & Hr & Hv & Hl & Hi & Hbody).
  apply rbind_Ok in Hbody as (r & Hrep & Hbody).
  apply rbind_Ok in Hbody as (x & Hx & Hbody). injection Hbody as <- <-.
  exists x, version. split; [reflexivity |]. split; [assumption |].
  split; [| split; [reflexivity | now apply store_record_version]].
  exists region, locale, data. repeat (split; [assumption |]).
  destruct (body g); simpl in Hrep;
    try (injection Hrep as <-; injection Hx as <-; apply has_stamps_stamped).
  apply repair_item_Ok in Hrep as (d0 & id0 & E & _ & ->). injection E as <-.
  injection Hx as <-. apply has_stamps_repaired, has_stamps_stamped.
Qed.

Lemma next_not_Yield (g : generator) :
  ~ is_Yield (fst (next py_repr g)) -> g_finished (snd (next py_repr g)) = true.
Proof.
  unfold next. destruct (g_finished g) eqn:Hf; [auto |].
  destruct (g_ids g) as [| id ids]; [auto |].
  destruct (generator_body_of py_repr (body g) (g_query g) (g_data g) id)
    as [[data' dto'] |]; simpl; [intros H; now elim H | auto].
Qed.

Lemma pulled_stamps (n : nat) (g : generator) (dto : value) :
  pull py_repr (S n) g !! n = Some (Yield dto) ->
  exists x version,
    dto = VDict x /\
    subscript (g_data g) (VStr "version") = Ok version /\
    stamped_from (g_query g) version x.
Proof.
  revert g. induction n as [| n IH]; intros g; simpl.
  - destruct (next py_repr g) as [o g'] eqn:Hn. simpl. intros H. injection H as ->.
    apply next_Yield_stamps in Hn as (x & version & H). exists x, version. tauto.
  - destruct (next py_repr g) as [o g'] eqn:Hn. simpl. intros H.
    destruct o as [dto0 | e |].
    + apply next_Yield_stamps in Hn as (_ & version & _ & Hv & _ & Hq & Hv').
      apply IH in H as (x & version' & Hx & Hv'' & Hs).
      rewrite Hq in Hs. exists x, version'. split; [assumption |].
      split; [congruence | assumption].
    + pose proof (next_not_Yield g) as Hf. rewrite Hn in Hf. simpl in Hf.
      change (let (o, g'0) := next py_repr g' in o :: pull py_repr n g'0)
        with (pull py_repr (S n) g') in H.
      rewrite pull_finished in H by (apply Hf; auto).
      apply list_elem_of_lookup_2, list_elem_of_In, repeat_spec in H. discriminate.
    + pose proof (next_not_Yield g) as Hf. rewrite Hn in Hf. simpl in Hf.
      change (let (o, g'0) := next py_repr g' in o :: pull py_repr n g'0)
        with (pull py_repr (S n) g') in H.
      rewrite pull_finished in H by (apply Hf; auto).
      apply list_elem_of_lookup_2, list_elem_of_In, repeat_spec in H. discriminate.
Qed.

(** The generator that [get_many] returns: its query is the validated
    query, its data what the transport answered, nothing pulled yet. *)
Lemma get_many_Ok (type : dto_type) operation query context s s' g :
  get_many transport type = Some operation ->
  operation query context s = (Ok g, s') ->
  exists query' r,
    many_validator_of type query context = Ok query' /\
    g_query g = query' /\ g_finished g = false /\
    transport (calls s) r = Payload (g_data g).
Proof.
  intros Hop H.
  destruct type; try discriminate Hop; injection Hop as <-;
    cbn [many_validator_of] in *.
  all: unfold get_many_champion, get_many_mastery, get_many_rune, get_many_item,
         get_many_summoner_spell in H.
  all: apply bind_Ok in H as (q' & s0 & Hv & H); apply lift_Ok in Hv as [Hv ->].
  all: apply bind_Ok in H as (req & s0 & Hreq & H); apply lift_Ok in Hreq as [_ ->].
  all: apply bind_Ok in H as (data & s1 & Hg & H).
  all: apply try_get_Ok in Hg as (platform & _ & Ht & _).
  all: apply bind_Ok in H as (ids & s2 & _ & H).
  all: unfold ret in H; injection H as <- _.
  all: eexists q', _; repeat split; [exact Hv | exact Ht].
Qed.

End Elements.

Section Stamps.

Variable transport : list request -> request -> response.
Variable request_by_id : bool.
Variable h : list string -> Z.
Variable py_repr : value -> string.

(** What the by-id path of a single type returns carries the stamps of the
    query. *)
Lemma by_id_stamps (type : dto_type) (query : dict) (s s' : service) (x : dict) :
  by_id_of transport py_repr type query s = (Ok (VDict x), s') ->
  exists version, getitem query "version" = Ok version /\ stamped_from query version x.
Proof.
  intros H.
  destruct type; cbn [by_id_of] in H; try discriminate H.
  all: apply fetch_by_id_Ok in H as (data & dto & Hdto & E); injection E as ->.
  all: unfold champion_stamp, mastery_stamp, rune_stamp, item_stamp,
         summoner_spell_stamp in Hdto.
  4: { apply (stamp4_repair_Dto query data _ repair_item); [now right | exact Hdto]. }
  all: apply (stamp4_repair_Dto query data _ Ok); [now left | exact Hdto].
Qed.

Lemma single_get_stamps (type : dto_type) query context s s' x :
  is_list type = false ->
  get transport request_by_id h py_repr type query context s
  = (Ok (Value (VDict x)), s') ->
  exists query' region version locale,
    validator_of type query context = Ok query' /\
    region_of query' = Ok region /\
    getitem query' "version" = Ok version /\
    getitem query' "locale" = Ok locale /\
    has_stamps x region version locale None /\
    (has_includedData type = true ->
     exists data, getitem query' "includedData" = Ok data /\
                  dict_get x "includedData" = Some data).
Proof.
  intros Hsingle Hget. rewrite (get_single_frame _ _ _ _ _ Hsingle) in Hget.
  apply returning_value_Ok in Hget.
  apply by_list_or_id_Ok in Hget as (q' & Hv & [[_ Hid] | [_ Hlist]]).
  - apply by_id_stamps in Hid
      as (version & Hver & region & locale & data & Hr & Hl & Hi & Hx1 & Hx2 & Hx3 & Hx4).
    exists q', region, version, locale. repeat (split; [assumption |]).
    split; [repeat split; assumption |]. intros _. exists data. auto.
  - destruct Hlist as (l & i & s1 & x0 & _ & Hst & Hx & E). injection E as ->.
    apply stamp_record_with_Ok in Hst
      as (x1 & region & version & locale & Hx' & Hr & Hxr & Hver & Hxv & Hl & Hxl & Hinc).
    rewrite Hx in Hx'. injection Hx' as <-.
    exists q', region, version, locale. repeat (split; [assumption |]).
    split; [repeat split; assumption | exact Hinc].
Qed.

(** A list operation that finds the slot of the fingerprint empty builds
    the list object that it returns. *)
Lemma new_list_Ok (type : dto_type) query context s s' l k :
  is_list type = true ->
  fingerprint h type query context = Some k ->
  slot_get (_cache s type) k = None ->
  get transport request_by_id h py_repr type query context s
  = (Ok (Reference l), s') ->
  exists query' data,
    validator_of type query context = Ok query' /\
    list_stamp_of type query' data = Ok (load l s').
Proof.
  intros Hl Hf Hnone Hget. rewrite (get_list_frame _ _ _ _ _ Hl) in Hget.
  apply returning_reference_Ok in Hget.
  apply cached_list_Ok in Hget as (q' & k' & Hv & Hk & Hcase).
  unfold fingerprint in Hf. rewrite Hv, Hk in Hf. injection Hf as ->.
  destruct Hcase as [[Hs _] | [_ (req & p & data & d & _ & _ & _ & Hd & -> & ->)]];
    [congruence |].
  exists q', data. split; [assumption |]. now rewrite load_stored_new.
Qed.

End Stamps.

(** C4, as the code has it. A record returned by a single get carries the
    region, version and locale of the validated query (and its includedData,
    except for maps), whatever the payload supplied.  An element yielded by
    [get_many] carries the region, locale and includedData of the validated
    query, and the version found at the top of the fetched payload, not the
    one of the query.  A list object that a list operation builds carries
    the region and locale of the validated query (and its includedData,
    except for maps); the records of a new champion, rune or item list carry
    the stamps of the query, its version included, and those of a new
    mastery list carry the version of the payload instead. *)
Theorem records_carry_the_stamps
  (transport : list request -> request -> response) (request_by_id : bool)
  (h : list string -> Z) (py_repr : value -> string) :
  (forall type query context s s' x,
     is_list type = false ->
     get transport request_by_id h py_repr type query context s
     = (Ok (Value (VDict x)), s') ->
     exists query' region version locale,
       validator_of type query context = Ok query' /\
       region_of query' = Ok region /\
       getitem query' "version" = Ok version /\
       getitem query' "locale" = Ok locale /\
       has_stamps x region version locale None /\
       (has_includedData type = true ->
        exists data, getitem query' "includedData" = Ok data /\
                     dict_get x "includedData" = Some data))
  /\ (forall type operation query context s s' g,
        get_many transport type = Some operation ->
        operation query context s = (Ok g, s') ->
        exists query' r,
          many_validator_of type query context = Ok query' /\
          transport (calls s) r = Payload (g_data g) /\
          forall n dto,
            pull py_repr (S n) g !! n = Some (Yield dto) ->
            exists x version,
              dto = VDict x /\
              subscript (g_data g) (VStr "version") = Ok version /\
              stamped_from query' version x)
  /\ (forall type query context s s' l k,
        is_list type = true ->
        fingerprint h type query context = Some k ->
        slot_get (_cache s type) k = None ->
        get transport request_by_id h py_repr type query context s
        = (Ok (Reference l), s') ->
        exists query' region locale,
          validator_of type query context = Ok query' /\
          region_of query' = Ok region /\ getitem query' "locale" = Ok locale /\
          dict_get (load l s') "region" = Some region /\
          dict_get (load l s') "locale" = Some locale /\
          (has_includedData type = true ->
           exists included, getitem query' "includedData" = Ok included /\
                            dict_get (load l s') "includedData" = Some included) /\
          (records_get_query_version type = true ->
           forall recs, records_of (load l s') = Ok recs ->
             Forall (fun kv => exists x version,
                       snd kv = VDict x /\ getitem query' "version" = Ok version /\
                       stamped_from query' version x) recs) /\
          (type = MasteryListDto ->
           forall recs, records_of (load l s') = Ok recs ->
             Forall (fun kv => exists x version,
                       snd kv = VDict x /\
                       dict_get (load l s') "version" = Some version /\
                       stamped_from query' version x) recs)).
Proof.
  split; [| split].
  - intros type query context s s' x. apply single_get_stamps.
  - intros type operation query context s s' g Hop Hget.
    apply (get_many_Ok _ _ _ _ _ _ _ _ Hop) in Hget as (q' & r & Hv & Hq & _ & Ht).
    exists q', r. split; [assumption |]. split; [assumption |].
    intros n dto Hpull. rewrite <- Hq. now apply (pulled_stamps py_repr n).
  - intros type query context s s' l k Hl Hf Hnone Hget.
    destruct (new_list_Ok _ _ _ _ _ _ _ _ _ _ _ Hl Hf Hnone Hget)
      as (q' & data & Hv & Hstamp).
    destruct (list_stamp_top _ _ _ _ Hl Hstamp)
      as (region & locale & Hr & Hloc & Hdr & Hdl & Hinc).
    exists q', region, locale. repeat (split; [assumption |]). split.
    + intros Ht recs. now apply (list_stamp_records type q' data).
    + intros -> recs Hrecs.
      pose proof (mastery_list_stamp_records q' data _ recs Hstamp Hrecs) as Hall.
      eapply Forall_impl; [exact Hall |].
      intros kv (x & version & Hx & Hd & _ & Hs). eauto.
Qed.

Lemma records_carry_the_stamps_witness :
  let query := [("ids", VList [VInt 1]); ("platform", VPlatform NA);
                ("version", VStr "7.1")] in
  exists g query' r,
    fst (get_many_champion example_transport query example_context init) = Ok g /\
    many_validator_of ChampionDto query example_context = Ok query' /\
    example_transport (calls init) r = Payload (g_data g) /\
    forall n dto,
      pull example_repr (S n) g !! n = Some (Yield dto) ->
      exists x version,
        dto = VDict x /\
        subscript (g_data g) (VStr "version") = Ok version /\
        stamped_from query' version x.
Proof.
  intros query.
  destruct (get_many_champion example_transport query example_context init)
    as [[g |] s'] eqn:Hget; [| discriminate Hget].
  destruct (proj1 (proj2 (records_carry_the_stamps example_transport false
                            example_hash example_repr))
              ChampionDto _ query example_context init s' g eq_refl Hget)
    as (q' & r & H).
  exists g, q', r. split; [reflexivity | exact H].
Defined.

(** C4, as stated, fails: the champions are asked for with version 7.1,
    the payload says 7.2 at its top and 0.0 in the record, and the element
    that is yielded carries 7.2, not the version of the query. *)
Lemma get_many_yields_the_payload_version :
  let query := [("ids", VList [VInt 1]); ("platform", VPlatform NA);
                ("version", VStr "7.1")] in
  exists g,
    fst (get_many_champion example_transport query example_context init) = Ok g /\
    getitem (g_query g) "version" = Ok (VStr "7.1") /\
    pull example_repr 1 g
    = [Yield (VDict [("id", VInt 1); ("name", VStr "Annie"); ("version", VStr "7.2");
                     ("region", VStr "NA"); ("locale", VStr "en_US");
                     ("includedData", VSet ["all"])])].
Proof.
  intros query. eexists. split; [reflexivity |]. split; reflexivity.
Qed.

Lemma item_records_are_repaired_witness :
  item_ok (VDict [("id", VInt 3632); ("name", VStr EmptyString);
                  ("tags", VList [VStr "Trinket"]); ("region", VStr "NA");
                  ("version", VStr "7.1"); ("locale", VStr "en_US");
                  ("includedData", VSet ["all"]); ("depth", VInt 1);
                  ("colloq", VStr EmptyString); ("plaintext", VStr EmptyString)]).
Proof.
  apply (proj1 (item_records_are_repaired
                  (fun _ _ => Payload (VDict [("id", VInt 3632); ("name", VStr "Placeholder");
                                              ("tags", VList [VStr "Trinket"])]))
                  false example_hash example_repr init invariant_init)
           [("id", VInt 3632); ("platform", VPlatform NA)] example_context _
           (snd (get (fun _ _ => Payload (VDict [("id", VInt 3632); ("name", VStr "Placeholder");
                                                 ("tags", VList [VStr "Trinket"])]))
                   false example_hash example_repr ItemDto
                   [("id", VInt 3632); ("platform", VPlatform NA)] example_context init))).
  reflexivity.
Defined.

(** The item 3632 through the list: its name is emptied when the list is
    built, and the single get by name of the other item finds the defaults
    in place. *)
Example item_list_is_repaired :
  let transport := fun (_ : list request) (_ : request) => Payload example_items in
  let s := snd (get transport true example_hash example_repr ItemListDto
                  [("platform", VPlatform NA); ("version", VStr "7.1")]
                  example_context init) in
  record_load (0%nat, 0%nat) s
  = VDict [("id", VInt 3632); ("name", VStr EmptyString);
           ("tags", VList [VStr "Trinket"]); ("depth", VInt 1);
           ("colloq", VStr EmptyString); ("plaintext", VStr EmptyString);
           ("region", VStr "NA"); ("version", VStr "7.1"); ("locale", VStr "en_US");
           ("includedData", VSet ["all"])]
  /\ fst (get transport true example_hash example_repr ItemDto
            [("id", VInt 1001); ("platform", VPlatform NA)] example_context s)
     = Ok (Value (VDict [("id", VInt 1001); ("name", VStr "Boots");
                         ("tags", VList []); ("depth", VInt 1);
                         ("colloq", VStr EmptyString); ("plaintext", VStr EmptyString);
                         ("region", VStr "NA"); ("version", VStr "7.1");
                         ("locale", VStr "en_US"); ("includedData", VSet ["all"])])).
Proof. split; reflexivity. Qed.

(** *** A list query without a version *)

Lemma repair_item_dict (d : dict) (id : value) :
  dict_get d "id" = Some id -> repair_item (VDict d) = Ok (VDict (repaired d id)).
Proof.
  intros Hid. unfold repair_item. cbn [subscript]. rewrite (getitem_Some _ _ _ Hid).
  cbn [rbind]. unfold repaired, with_default_field.
  destruct (py_eq id (VInt 3632)); cbn [setitem rbind not_in];
    repeat match goal with
           | |- context [negb (contains ?k ?x)] =>
               destruct (contains k x); cbn [negb setitem rbind not_in]
           end;
    reflexivity.
Qed.

(** The request of a list operation can only be built from a query that
    has a platform, a locale and, but for maps, includedData. *)
Lemma list_request_Ok (type : dto_type) (query : dict) (req : string * dict) :
  records_get_query_version type = true ->
  list_request_of type query = Ok req ->
  exists region locale included,
    region_of query = Ok region /\ getitem query "locale" = Ok locale /\
    getitem query "includedData" = Ok included.
Proof.
  intros Ht H.
  destruct type; try discriminate Ht; cbn [list_request_of] in H.
  all: unfold champion_list_request, rune_list_request, item_list_request in H.
  all: apply rbind_Ok in H as (locale & Hl & H); apply rbind_Ok in H as (tags & Htags & H).
  1: apply rbind_Ok in H as (dataById & _ & H).
  all: apply rbind_Ok in H as (u & Hu & _).
  all: unfold tags_of in Htags; apply rbind_Ok in Htags as (included & Hi & _).
  all: unfold url_of in Hu; apply rbind_Ok in Hu as (platform & Hp & Hu);
    apply rbind_Ok in Hu as (p & Hp' & _).
  all: exists (VStr (p_region_value p)), locale, included.
  all: unfold region_of; rewrite Hp; cbn [rbind]; rewrite Hp'; auto.
Qed.

Lemma list_stamp_without_version (type : dto_type) (query top : dict)
  (key : string) (rec more : dict) (region locale included : value) :
  records_get_query_version type = true ->
  dict_get query "version" = None ->
  region_of query = Ok region ->
  getitem query "locale" = Ok locale ->
  getitem query "includedData" = Ok included ->
  dict_get top "data" = Some (VDict ((key, VDict rec) :: more)) ->
  (type = ItemListDto -> contains "id" rec = true) ->
  list_stamp_of type query (VDict top) = Raise KeyError.
Proof.
  intros Ht Hver Hr Hl Hi Hdata Hid.
  assert (Hversion : getitem query "version" = Raise KeyError)
    by (unfold getitem; now rewrite Hver).
  destruct type; try discriminate Ht; cbn [list_stamp_of].
  all: unfold champion_list_stamp, rune_list_stamp, item_list_stamp, assign.
  all: rewrite Hr, Hl, Hi, Hversion; cbn [rbind setitem subscript].
  all: unfold getitem at 1; rewrite !dict_get_set_other by discriminate; rewrite Hdata.
  all: cbn [rbind for_values rmap snd fst setitem]; try reflexivity.
  specialize (Hid eq_refl). unfold contains in Hid.
  destruct (dict_get rec "id") as [id |] eqn:E; [| discriminate].
  rewrite (repair_item_dict rec id E). reflexivity.
Qed.

(** C6, what the code does. A champion, rune or item list query without a
    version passes validation (the version is optional and has no default);
    on an empty slot the list is fetched, and stamping its first record
    raises [KeyError] on [query["version"]].  Nothing is stored. *)
Theorem list_without_version_raises_KeyError
  (transport : list request -> request -> response) (request_by_id : bool)
  (h : list string -> Z) (py_repr : value -> string)
  (type : dto_type) (query query' : dict) (context : PipelineContext)
  (s : service) (k : cache_key) (req : string * dict) (platform : value)
  (top : dict) (key : string) (rec more : dict) :
  records_get_query_version type = true ->
  validator_of type query context = Ok query' ->
  dict_get query' "version" = None ->
  as_key (calculate_hash h query') = Some k ->
  slot_get (_cache s type) k = None ->
  list_request_of type query' = Ok req ->
  getitem query' "platform" = Ok platform ->
  transport (calls s) (request_for req platform (list_bucket_of type))
  = Payload (VDict top) ->
  dict_get top "data" = Some (VDict ((key, VDict rec) :: more)) ->
  (type = ItemListDto -> contains "id" rec = true) ->
  get transport request_by_id h py_repr type query context s
  = (Raise KeyError,
     {| heap := heap s; _cache := _cache s;
        calls := calls s ++ [request_for req platform (list_bucket_of type)] |}).
Proof.
  intros Ht Hv Hver Hk Hslot Hreq Hp Htr Hdata Hid.
  assert (Hl : is_list type = true) by (destruct type; try discriminate Ht; reflexivity).
  destruct (list_request_Ok type query' req Ht Hreq)
    as (region & locale & included & Hr & Hloc & Hinc).
  rewrite (get_list_frame _ _ _ _ _ Hl).
  unfold returning_reference, cached_list, bind, lift, cache_get.
  rewrite Hv, Hk, Hslot, Hreq. unfold try_get, _get. rewrite Hp.
  unfold request_for in Htr. rewrite Htr.
  rewrite (list_stamp_without_version type query' top key rec more region locale included)
    by assumption.
  reflexivity.
Qed.

Lemma list_without_version_raises_KeyError_witness :
  get example_transport false example_hash example_repr ChampionListDto
    [("platform", VPlatform NA); ("locale", VStr "en_US")] example_context init
  = (Raise KeyError,
     {| heap := []; _cache := _cache init;
        calls := [request_for
                    ("https://na1.api.riotgames.com/lol/static-data/v3/champions",
                     [("locale", VStr "en_US"); ("tags", VStr "all");
                      ("dataById", VBool false)])
                    (VPlatform NA) "staticdata/champions"] |}).
Proof.
  eapply (list_without_version_raises_KeyError example_transport false example_hash
            example_repr ChampionListDto
            [("platform", VPlatform NA); ("locale", VStr "en_US")]
            _ example_context init); reflexivity.
Defined.

(** ** [get_many] is a step too *)

Lemma steps_get_many (transport : list request -> request -> response)
  (type : dto_type) operation query context :
  get_many transport type = Some operation -> steps (operation query context).
Proof.
  intros Hop. destruct type; try discriminate Hop; injection Hop as <-.
  all: unfold get_many_champion, get_many_mastery, get_many_rune, get_many_item,
         get_many_summoner_spell.
  all: repeat first
         [ apply steps_lift | apply steps_ret | apply steps_try_get
         | apply steps_bind; [| intros ?] ].
Qed.

(** * The operations that keep no cache *)

Lemma validate_has_platform (rest : list requirement) (query : dict)
  (context : PipelineContext) (p : Platform) :
  dict_get query "platform" = Some (VPlatform p) ->
  validate (has [("platform", TPlatform)] :: rest) query context
  = validate rest query context.
Proof.
  intros H. cbn [validate validate1 List.filter fst]. unfold contains.
  rewrite H. cbn. rewrite H. reflexivity.
Qed.

Lemma validate_has_platform_Ok (rest : list requirement) (query query' : dict)
  (context : PipelineContext) :
  validate (has [("platform", TPlatform)] :: rest) query context = Ok query' ->
  exists p, dict_get query "platform" = Some (VPlatform p) /\
            validate rest query context = Ok query'.
Proof.
  cbn [validate validate1 List.filter fst]. unfold contains.
  destruct (dict_get query "platform") as [v |] eqn:Hp; cbn; [| discriminate].
  rewrite Hp. destruct v as [a | | |]; cbn; try discriminate.
  destruct a; cbn; try discriminate. eauto.
Qed.

(** What validation makes of an optional version and a locale with the
    default of the platform. *)
Lemma validate_version_locale_Ok (query query' : dict) (context : PipelineContext)
  (p : Platform) :
  dict_get query "platform" = Some (VPlatform p) ->
  validate [can_have "version" (Some Tstr) None;
            can_have "locale" (Some Tstr) (Some (default_call _get_default_locale))]
    query context = Ok query' ->
  dict_get query' "locale" = Some (locale_for query p) /\
  forall k, k <> "locale" -> dict_get query' k = dict_get query k.
Proof.
  intros Hp. cbn [validate validate1]. unfold locale_for.
  destruct (dict_get query "version") as [v |].
  - destruct (isinstance v Tstr); [| discriminate]. cbn [rbind].
    destruct (dict_get query "locale") as [l |] eqn:Hl.
    + destruct (isinstance l Tstr); [| discriminate]. cbn [rbind].
      intros H. injection H as <-. auto.
    + unfold _get_default_locale, getitem. rewrite Hp. cbn.
      intros H. injection H as <-. split.
      * apply dict_get_set_same.
      * intros k Hk. apply dict_get_set_other. congruence.
  - cbn [rbind].
    destruct (dict_get query "locale") as [l |] eqn:Hl.
    + destruct (isinstance l Tstr); [| discriminate]. cbn [rbind].
      intros H. injection H as <-. auto.
    + unfold _get_default_locale, getitem. rewrite Hp. cbn.
      intros H. injection H as <-. split.
      * apply dict_get_set_same.
      * intros k Hk. apply dict_get_set_other. congruence.
Qed.

Section Plain.

Variable transport : list request -> request -> response.

(** Each of these operations is the shared frame applied to its own
    pieces. *)
Lemma get_plain_frame (type : plain_type) :
  get_plain transport type
  = plain_get transport (plain_validator_of type) (plain_request_of type)
      (plain_bucket_of type) (plain_stamp_of type).
Proof. destruct type; reflexivity. Qed.

Lemma plain_get_Ok validator request_of bucket stamp query context s s' v :
  plain_get transport validator request_of bucket stamp query context s = (Ok v, s') ->
  exists query' req platform data dto,
    validator query context = Ok query' /\
    request_of query' = Ok req /\
    getitem query' "platform" = Ok platform /\
    transport (calls s) (request_for req platform bucket) = Payload data /\
    stamp query' data = Ok dto /\
    v = VDict dto /\
    s' = requested s (request_for req platform bucket).
Proof.
  unfold plain_get. intros H.
  apply bind_Ok in H as (query' & s0 & Hv & H). apply lift_Ok in Hv as [Hv ->].
  apply bind_Ok in H as (req & s0 & Hr & H). apply lift_Ok in Hr as [Hr ->].
  apply bind_Ok in H as (data & s1 & Hg & H).
  apply bind_Ok in H as (dto & s2 & Hd & H). apply lift_Ok in Hd as [Hd ->].
  unfold ret in H. injection H as <- <-.
  destruct req as [url params].
  apply try_get_Ok in Hg as (platform & Hp & Ht & ->).
  exists query', (url, params), platform, data, dto. auto 10.
Qed.

(** The request of each of these operations goes to the host of the
    platform of the query. *)
Lemma plain_request_Ok (type : plain_type) (query : dict) (req : string * dict) :
  plain_request_of type query = Ok req ->
  exists p, dict_get query "platform" = Some (VPlatform p) /\
            fst req = url_for p (plain_path_of type).
Proof.
  assert (Hu : forall path url, url_of query path = Ok url ->
               exists p, dict_get query "platform" = Some (VPlatform p) /\
                         url = url_for p path).
  { intros path url. unfold url_of, getitem, url_for.
    destruct (dict_get query "platform") as [v |]; [| discriminate]. cbn [rbind].
    destruct v as [a | | |]; try discriminate. destruct a; try discriminate.
    cbn. intros H. injection H as <-. eauto. }
  destruct type; cbn [plain_request_of plain_path_of];
    unfold versions_request, realms_request, language_request,
      language_strings_request, profile_icons_request; intros H.
  1-3: apply rbind_Ok in H as (url & Hurl & H); injection H as <-;
       apply Hu in Hurl as (p & Hp & ->); eauto.
  all: apply rbind_Ok in H as (locale & _ & H);
       apply rbind_Ok in H as (url & Hurl & H); injection H as <-;
       apply Hu in Hurl as (p & Hp & ->); eauto.
Qed.

Lemma get_plain_Ok (type : plain_type) query context s s' v :
  get_plain transport type query context s = (Ok v, s') ->
  exists query' p params data dto,
    plain_validator_of type query context = Ok query' /\
    dict_get query' "platform" = Some (VPlatform p) /\
    let r := request_for (url_for p (plain_path_of type), params) (VPlatform p)
               (plain_bucket_of type) in
    transport (calls s) r = Payload data /\
    plain_stamp_of type query' data = Ok dto /\
    v = VDict dto /\
    s' = requested s r.
Proof.
  rewrite get_plain_frame. intros H.
  apply plain_get_Ok in H
    as (query' & req & platform & data & dto & Hv & Hr & Hp & Ht & Hs & -> & ->).
  apply plain_request_Ok in Hr as (p & Hq & Hu).
  unfold getitem in Hp. rewrite Hq in Hp. injection Hp as <-.
  destruct req as [url params]. cbn [fst] in Hu. subst url.
  exists query', p, params, data, dto. auto 10.
Qed.

End Plain.

(** X1.  The operations for versions, realms, languages, language strings
    and profile icons keep no cache: the second of two successful gets
    sends a request of its own, whatever the first one fetched, and neither
    touches the cache of the lists or the store. *)
Theorem plain_get_second_call_fetches_again
  (transport : list request -> request -> response)
  (type : plain_type) (q1 q2 : dict) (c1 c2 : PipelineContext)
  (s0 s1 s2 : service) (v1 v2 : value) :
  get_plain transport type q1 c1 s0 = (Ok v1, s1) ->
  get_plain transport type q2 c2 s1 = (Ok v2, s2) ->
  heap s2 = heap s0 /\ _cache s2 = _cache s0 /\
  exists r1 r2 d1 d2,
    calls s2 = (calls s0 ++ [r1; r2])%list /\
    transport (calls s0) r1 = Payload d1 /\
    transport (calls s0 ++ [r1])%list r2 = Payload d2 /\
    snd (rate_limiter r1) = plain_bucket_of type /\
    snd (rate_limiter r2) = plain_bucket_of type.
Proof.
  intros H1 H2.
  apply get_plain_Ok in H1
    as (q1' & p1 & params1 & d1 & dto1 & _ & _ & Ht1 & _ & _ & ->).
  apply get_plain_Ok in H2
    as (q2' & p2 & params2 & d2 & dto2 & _ & _ & Ht2 & _ & _ & ->).
  cbn [requested heap _cache calls] in *.
  split; [reflexivity |]. split; [reflexivity |].
  eexists _, _, d1, d2. rewrite <- app_assoc. cbn [app].
  split; [reflexivity |]. split; [exact Ht1 |]. split; [exact Ht2 |].
  split; reflexivity.
Qed.

Lemma plain_get_second_call_fetches_again_witness :
  let q := [("platform", VPlatform NA)] in
  let s1 := snd (get_plain example_transport RealmDto q None init) in
  let s2 := snd (get_plain example_transport RealmDto q None s1) in
  heap s2 = heap init /\ _cache s2 = _cache init /\
  exists r1 r2 d1 d2,
    calls s2 = (calls init ++ [r1; r2])%list /\
    example_transport (calls init) r1 = Payload d1 /\
    example_transport (calls init ++ [r1])%list r2 = Payload d2 /\
    snd (rate_limiter r1) = plain_bucket_of RealmDto /\
    snd (rate_limiter r2) = plain_bucket_of RealmDto.
Proof.
  cbv zeta.
  eapply (plain_get_second_call_fetches_again example_transport RealmDto
            [("platform", VPlatform NA)] [("platform", VPlatform NA)] None None init).
  - vm_compute. reflexivity.
  - vm_compute. reflexivity.
Defined.

Lemma region_of_platform (query : dict) (p : Platform) :
  dict_get query "platform" = Some (VPlatform p) ->
  region_of query = Ok (region_for p).
Proof. intros H. unfold region_of, getitem. rewrite H. reflexivity. Qed.

Lemma url_of_platform (query : dict) (p : Platform) (path : string) :
  dict_get query "platform" = Some (VPlatform p) ->
  url_of query path = Ok (url_for p path).
Proof. intros H. unfold url_of, getitem. rewrite H. reflexivity. Qed.

(** X2.  [get_versions] and [get_language] take any payload: whatever the
    transport answers for a query with a platform, a list or anything else,
    comes back as it is under the key [versions] or [languages], beside the
    region of the platform; the request has no parameters. *)
Theorem wrapping_gets_take_any_payload
  (transport : list request -> request -> response)
  (type : plain_type) (key : string) (query : dict) (context : PipelineContext)
  (s : service) (p : Platform) (data : value) :
  wraps type = Some key ->
  dict_get query "platform" = Some (VPlatform p) ->
  let r := request_for (url_for p (plain_path_of type), []) (VPlatform p)
             (plain_bucket_of type) in
  transport (calls s) r = Payload data ->
  get_plain transport type query context s
  = (Ok (VDict [("region", region_for p); (key, data)]), requested s r).
Proof.
  intros Hw Hp r Ht. subst r.
  destruct type; cbn [wraps] in Hw; try discriminate; injection Hw as <-;
    cbn [get_plain plain_path_of plain_bucket_of] in *.
  - unfold get_versions, _validate_get_versions_query.
    rewrite (validate_has_platform [] query context p Hp). cbn [validate].
    unfold bind at 1. unfold lift at 1. unfold versions_request, versions_stamp.
    rewrite (url_of_platform query p _ Hp), (region_of_platform query p Hp).
    unfold bind, lift, ret, try_get, _get, getitem. rewrite Hp. cbn.
    unfold request_for in Ht. cbn in Ht. rewrite Ht. reflexivity.
  - unfold get_language, _validate_get_languages_query.
    rewrite (validate_has_platform [] query context p Hp). cbn [validate].
    unfold bind at 1. unfold lift at 1. unfold language_request, language_stamp.
    rewrite (url_of_platform query p _ Hp), (region_of_platform query p Hp).
    unfold bind, lift, ret, try_get, _get, getitem. rewrite Hp. cbn.
    unfold request_for in Ht. cbn in Ht. rewrite Ht. reflexivity.
Qed.

Lemma wrapping_gets_take_any_payload_witness :
  get_plain languages_transport LanguagesDto
    [("platform", VPlatform NA); ("locale", VStr "ko_KR")] None init
  = (Ok (VDict [("region", VStr "NA"); ("languages", example_languages)]),
     requested init
       (request_for ("https://na1.api.riotgames.com/lol/static-data/v3/languages", [])
          (VPlatform NA) "staticdata/language")).
Proof.
  apply (wrapping_gets_take_any_payload languages_transport LanguagesDto "languages"
           [("platform", VPlatform NA); ("locale", VStr "ko_KR")] None init NA
           example_languages); reflexivity.
Defined.

(** X3.  [get_realms], [get_language_strings] and [get_profile_icons]
    write their stamps over the payload: the payload is a dict, the result
    has the region of the platform and, for the two with a locale, the
    locale of the query or else the default locale of the platform, which
    is also the locale that was requested; every other entry of the
    payload is in the result as it came. *)
Theorem stamps_override_the_payload
  (transport : list request -> request -> response)
  (type : plain_type) (query : dict) (context : PipelineContext)
  (s s' : service) (v : value) :
  wraps type = None ->
  get_plain transport type query context s = (Ok v, s') ->
  exists p r d dto,
    dict_get query "platform" = Some (VPlatform p) /\
    transport (calls s) r = Payload (VDict d) /\
    s' = requested s r /\
    v = VDict dto /\
    dict_get dto "region" = Some (region_for p) /\
    (In "locale" (plain_stamps_of type) ->
     dict_get dto "locale" = Some (locale_for query p) /\
     dict_get (params r) "locale" = Some (locale_for query p)) /\
    forall k, ~ In k (plain_stamps_of type) -> dict_get dto k = dict_get d k.
Proof.
  intros Hw H. rewrite get_plain_frame in H.
  apply plain_get_Ok in H
    as (query' & req & platform & data & dto & Hv & Hr & Hp & Ht & Hs & -> & ->).
  assert (Hstrings :
    forall path bucket,
      validate [has [("platform", TPlatform)];
                can_have "version" (Some Tstr) None;
                can_have "locale" (Some Tstr) (Some (default_call _get_default_locale))]
        query context = Ok query' ->
      (let* locale := getitem query' "locale" in
       let params := [("locale", locale)] in
       let params := with_version query' params in
       let* url := url_of query' path in
       Ok (url, params))%result = Ok req ->
      (let* data := assign data "region" (region_of query') in
       let* data := assign data "locale" (getitem query' "locale") in
       Dto data)%result = Ok dto ->
      transport (calls s) (request_for req platform bucket) = Payload data ->
      exists p r d dto0,
        dict_get query "platform" = Some (VPlatform p) /\
        transport (calls s) r = Payload (VDict d) /\
        requested s (request_for req platform bucket) = requested s r /\
        VDict dto = VDict dto0 /\
        dict_get dto0 "region" = Some (region_for p) /\
        (In "locale" ["region"; "locale"] ->
         dict_get dto0 "locale" = Some (locale_for query p) /\
         dict_get (params r) "locale" = Some (locale_for query p)) /\
        forall k, ~ In k ["region"; "locale"] -> dict_get dto0 k = dict_get d k).
  { intros path bucket Hv' Hr' Hs' Ht'.
    apply validate_has_platform_Ok in Hv' as (p & Hq & Hv').
    destruct (validate_version_locale_Ok query query' context p Hq Hv') as [Hl Hk].
    apply rbind_Ok in Hs' as (x1 & H1 & Hs').
    apply rbind_Ok in Hs' as (x2 & H2 & Hs').
    apply assign_Ok in H1 as (d & region & -> & Hreg & ->).
    apply assign_Ok in H2 as (d2 & locale & Hd2 & Hloc & ->).
    injection Hd2 as <-. cbn [Dto] in Hs'. injection Hs' as <-.
    rewrite (region_of_platform query' p) in Hreg
      by (rewrite Hk by discriminate; exact Hq).
    injection Hreg as <-.
    unfold getitem in Hloc. rewrite Hl in Hloc. injection Hloc as <-.
    exists p, (request_for req platform bucket), d. eexists.
    split; [exact Hq |]. split; [exact Ht' |]. split; [reflexivity |].
    split; [reflexivity |]. split.
    { rewrite dict_get_set_other by discriminate. apply dict_get_set_same. }
    split.
    { intros _. split; [apply dict_get_set_same |].
      unfold getitem in Hr'. rewrite Hl in Hr'. cbn [rbind] in Hr'.
      apply rbind_Ok in Hr' as (url & _ & Hr'). injection Hr' as <-.
      cbn [request_for params snd]. unfold with_version.
      destruct (dict_get query' "version").
      - rewrite dict_get_set_other by discriminate. reflexivity.
      - reflexivity. }
    intros k Hk'. rewrite !dict_get_set_other; [reflexivity | |];
      intros <-; apply Hk'; cbn; auto. }
  destruct type; cbn [wraps] in Hw; try discriminate;
    cbn [plain_validator_of plain_request_of plain_stamp_of plain_bucket_of
         plain_stamps_of] in *.
  - (* realms *)
    unfold _validate_get_realms_query in Hv.
    apply validate_has_platform_Ok in Hv as (p & Hq & Hv).
    cbn [validate] in Hv. injection Hv as <-.
    unfold realms_stamp in Hs.
    apply rbind_Ok in Hs as (x1 & H1 & Hs).
    apply assign_Ok in H1 as (d & region & -> & Hreg & ->).
    cbn [Dto] in Hs. injection Hs as <-.
    rewrite (region_of_platform query p Hq) in Hreg. injection Hreg as <-.
    exists p, (request_for req platform "staticdata/realms"), d. eexists.
    split; [exact Hq |]. split; [exact Ht |]. split; [reflexivity |].
    split; [reflexivity |]. split; [apply dict_get_set_same |].
    split; [intros [Hin | []]; discriminate |].
    intros k Hk. apply dict_get_set_other. intros <-. apply Hk. cbn. auto.
  - exact (Hstrings _ _ Hv Hr Hs Ht).
  - exact (Hstrings _ _ Hv Hr Hs Ht).
Qed.

Lemma stamps_override_the_payload_witness :
  let query := [("platform", VPlatform EUW)] in
  let v := fst (get_plain example_transport LanguageStringsDto query None init) in
  let s' := snd (get_plain example_transport LanguageStringsDto query None init) in
  exists p r d dto,
    dict_get query "platform" = Some (VPlatform p) /\
    example_transport (calls init) r = Payload (VDict d) /\
    s' = requested init r /\
    v = Ok (VDict dto) /\
    dict_get dto "region" = Some (region_for p) /\
    (In "locale" (plain_stamps_of LanguageStringsDto) ->
     dict_get dto "locale" = Some (locale_for query p) /\
     dict_get (params r) "locale" = Some (locale_for query p)) /\
    forall k, ~ In k (plain_stamps_of LanguageStringsDto) ->
              dict_get dto k = dict_get d k.
Proof.
  cbv zeta.
  destruct (stamps_override_the_payload example_transport LanguageStringsDto
              [("platform", VPlatform EUW)] None init
              (snd (get_plain example_transport LanguageStringsDto
                      [("platform", VPlatform EUW)] None init))
              (VDict [("type", VStr "champion"); ("version", VStr "7.2");
                      ("data", VDict [("1", VDict [("id", VInt 1); ("name", VStr "Annie");
                                                   ("version", VStr "0.0")]);
                                      ("17", VDict [("id", VInt 17); ("name", VStr "Teemo")])]);
                      ("region", VStr "EUW"); ("locale", VStr "en_GB")])
              eq_refl eq_refl)
    as (p & r & d & dto & Hq & Ht & Hs & Hv & Hrest).
  exists p, r, d, dto. split; [exact Hq |]. split; [exact Ht |].
  split; [exact Hs |]. split; [| exact Hrest].
  rewrite <- Hv. reflexivity.
Defined.

(** * The generators over platforms *)

Lemma getitem_Ok (d : dict) (k : string) (v : value) :
  getitem d k = Ok v -> dict_get d k = Some v.
Proof. unfold getitem. destruct (dict_get d k); congruence. Qed.

(** What the body of a generator over platforms makes of a payload. *)
Lemma platform_stamp_Ok (b : platform_body) (query : dict) (p : Platform)
  (data : value) (dto : dict) :
  platform_stamp_of b query p data = Ok dto ->
  exists d,
    data = VDict d /\
    dict_get dto "region" = Some (region_for p) /\
    (In "locale" (platform_stamps_of b) ->
     dict_get dto "locale" = Some (locale_for query p)) /\
    (In "includedData" (platform_stamps_of b) ->
     dict_get dto "includedData" = dict_get query "includedData") /\
    forall k, ~ In k (platform_stamps_of b) ->
              (b = item_list_generator -> k <> "data") ->
              dict_get dto k = dict_get d k.
Proof.
  assert (Hlist : forall (k : value -> result dict),
    (let* data := assign data "region" (Ok (region_for p)) in
     let* data := assign data "locale" (Ok (locale_for query p)) in
     let* data := assign data "includedData" (getitem query "includedData") in
     k data)%result = Ok dto ->
    exists d included,
      data = VDict d /\ dict_get query "includedData" = Some included /\
      k (VDict (dict_set (dict_set (dict_set d "region" (region_for p))
                            "locale" (locale_for query p))
                  "includedData" included)) = Ok dto).
  { intros k H.
    apply rbind_Ok in H as (x1 & H1 & H). apply rbind_Ok in H as (x2 & H2 & H).
    apply rbind_Ok in H as (x3 & H3 & H).
    apply assign_Ok in H1 as (d & v1 & -> & Hv1 & ->). injection Hv1 as <-.
    apply assign_Ok in H2 as (d2 & v2 & Hd2 & Hv2 & ->). injection Hd2 as <-.
    injection Hv2 as <-.
    apply assign_Ok in H3 as (d3 & v3 & Hd3 & Hv3 & ->). injection Hd3 as <-.
    apply getitem_Ok in Hv3. eauto 10. }
  assert (Hthree : forall d included,
    dict_get query "includedData" = Some included ->
    let dto := dict_set (dict_set (dict_set d "region" (region_for p))
                           "locale" (locale_for query p)) "includedData" included in
    dict_get dto "region" = Some (region_for p) /\
    dict_get dto "locale" = Some (locale_for query p) /\
    dict_get dto "includedData" = dict_get query "includedData" /\
    forall k, ~ In k ["region"; "locale"; "includedData"] ->
              dict_get dto k = dict_get d k).
  { intros d included Hi. cbv zeta. split; [| split; [| split]].
    - rewrite !dict_get_set_other by discriminate. apply dict_get_set_same.
    - rewrite dict_get_set_other by discriminate. apply dict_get_set_same.
    - rewrite Hi. apply dict_get_set_same.
    - intros k Hk. rewrite !dict_get_set_other; [reflexivity | | |];
        intros <-; apply Hk; cbn; auto. }
  assert (Hplain : forall b',
    platform_stamps_of b' = ["region"; "locale"; "includedData"] ->
    b' <> item_list_generator ->
    (let* data := assign data "region" (Ok (region_for p)) in
     let* data := assign data "locale" (Ok (locale_for query p)) in
     let* data := assign data "includedData" (getitem query "includedData") in
     Dto data)%result = Ok dto ->
    exists d,
      data = VDict d /\
      dict_get dto "region" = Some (region_for p) /\
      (In "locale" (platform_stamps_of b') ->
       dict_get dto "locale" = Some (locale_for query p)) /\
      (In "includedData" (platform_stamps_of b') ->
       dict_get dto "includedData" = dict_get query "includedData") /\
      forall k, ~ In k (platform_stamps_of b') ->
                (b' = item_list_generator -> k <> "data") ->
                dict_get dto k = dict_get d k).
  { intros b' Hb' _ H. apply Hlist in H as (d & included & -> & Hi & H).
    cbn [Dto] in H. injection H as <-. rewrite Hb'.
    destruct (Hthree d included Hi) as (H1 & H2 & H3 & H4).
    exists d. auto 10. }
  assert (Htwo :
    (let* data := assign data "region" (Ok (region_for p)) in
     let* data := assign data "locale" (Ok (locale_for query p)) in
     Dto data)%result = Ok dto ->
    exists d,
      data = VDict d /\
      dict_get dto "region" = Some (region_for p) /\
      (In "locale" ["region"; "locale"] ->
       dict_get dto "locale" = Some (locale_for query p)) /\
      (In "includedData" ["region"; "locale"] ->
       dict_get dto "includedData" = dict_get query "includedData") /\
      forall k, ~ In k ["region"; "locale"] ->
                (False -> k <> "data") ->
                dict_get dto k = dict_get d k).
  { intros H.
    apply rbind_Ok in H as (x1 & H1 & H). apply rbind_Ok in H as (x2 & H2 & H).
    apply assign_Ok in H1 as (d & v1 & -> & Hv1 & ->). injection Hv1 as <-.
    apply assign_Ok in H2 as (d2 & v2 & Hd2 & Hv2 & ->). injection Hd2 as <-.
    injection Hv2 as <-. cbn [Dto] in H. injection H as <-.
    exists d. split; [reflexivity |]. split.
    { rewrite dict_get_set_other by discriminate. apply dict_get_set_same. }
    split; [intros _; apply dict_get_set_same |].
    split; [intros [Hin | [Hin | []]]; discriminate |].
    intros k Hk _. rewrite !dict_get_set_other; [reflexivity | |];
      intros <-; apply Hk; cbn; auto. }
  assert (Hone :
    (let* data := assign data "region" (Ok (region_for p)) in
     Dto data)%result = Ok dto ->
    exists d,
      data = VDict d /\
      dict_get dto "region" = Some (region_for p) /\
      (In "locale" ["region"] ->
       dict_get dto "locale" = Some (locale_for query p)) /\
      (In "includedData" ["region"] ->
       dict_get dto "includedData" = dict_get query "includedData") /\
      forall k, ~ In k ["region"] ->
                (False -> k <> "data") ->
                dict_get dto k = dict_get d k).
  { intros H.
    apply rbind_Ok in H as (x1 & H1 & H).
    apply assign_Ok in H1 as (d & v1 & -> & Hv1 & ->). injection Hv1 as <-.
    cbn [Dto] in H. injection H as <-.
    exists d. split; [reflexivity |]. split; [apply dict_get_set_same |].
    split; [intros [Hin | []]; discriminate |].
    split; [intros [Hin | []]; discriminate |].
    intros k Hk _. rewrite dict_get_set_other; [reflexivity |].
    intros <-. apply Hk. cbn. auto. }
  destruct b; cbn [platform_stamp_of].
  - apply (Hplain champion_list_generator); [reflexivity | discriminate].
  - apply (Hplain mastery_list_generator); [reflexivity | discriminate].
  - apply (Hplain rune_list_generator); [reflexivity | discriminate].
  - (* items: the records are repaired, the entries of the top are kept *)
    unfold many_item_list_stamp. intros H.
    apply Hlist in H as (d & included & -> & Hi & H).
    apply rbind_Ok in H as (items & Hitems & H).
    apply rbind_Ok in H as (items' & Hfor & H).
    apply for_values_Ok in Hfor as (recs & recs' & -> & -> & _).
    cbn [store_back Dto] in H. injection H as <-.
    destruct (Hthree d included Hi) as (H1 & H2 & H3 & H4).
    exists d. split; [reflexivity |]. cbn [platform_stamps_of].
    split; [rewrite dict_get_set_other by discriminate; exact H1 |].
    split; [intros _; rewrite dict_get_set_other by discriminate; exact H2 |].
    split; [intros _; rewrite dict_get_set_other by discriminate; exact H3 |].
    intros k Hk Hdata. rewrite dict_get_set_other.
    + apply H4, Hk.
    + intros <-. apply Hdata; reflexivity.
  - apply (Hplain summoner_spell_list_generator); [reflexivity | discriminate].
  - intros H. destruct (Hone H) as (d & ? & ? & ? & ? & Hk). exists d.
    cbn [platform_stamps_of]. repeat (split; [assumption |]).
    intros k Hin _. apply Hk; [exact Hin | intros []].
  - intros H. destruct (Hone H) as (d & ? & ? & ? & ? & Hk). exists d.
    cbn [platform_stamps_of]. repeat (split; [assumption |]).
    intros k Hin _. apply Hk; [exact Hin | intros []].
  - intros H. destruct (Htwo H) as (d & ? & ? & ? & ? & Hk). exists d.
    cbn [platform_stamps_of]. repeat (split; [assumption |]).
    intros k Hin _. apply Hk; [exact Hin | intros []].
  - intros H. destruct (Htwo H) as (d & ? & ? & ? & ? & Hk). exists d.
    cbn [platform_stamps_of]. repeat (split; [assumption |]).
    intros k Hin _. apply Hk; [exact Hin | intros []].
Qed.

Section Platforms.

Variable transport : list request -> request -> response.
Variable Platform_of : string -> option Platform.
Variable py_repr : value -> string.

Abbreviation next_of := (next_platform transport Platform_of py_repr).
Abbreviation pull_of := (pull_platforms transport Platform_of py_repr).
Abbreviation Platform_ := (to_Platform Platform_of py_repr).

(** The body of each generator is the shared frame applied to its own
    pieces. *)
Lemma platform_body_frame (b : platform_body) :
  platform_body_of transport Platform_of py_repr b
  = platform_body_with transport Platform_of py_repr (platform_path_of b)
      (platform_bucket_of b) (platform_stamp_of b).
Proof. destruct b; reflexivity. Qed.

Lemma get_many_platforms_frame type operation :
  get_many_platforms type = Some operation ->
  exists b, operation = many_platforms b (platform_validator_of b) (platform_params_of b).
Proof.
  destruct type as [[] | []]; cbn [get_many_platforms]; intros H;
    try discriminate; injection H as <-.
  - exists champion_list_generator. reflexivity.
  - exists mastery_list_generator. reflexivity.
  - exists rune_list_generator. reflexivity.
  - exists item_list_generator. reflexivity.
  - exists summoner_spell_list_generator. reflexivity.
  - exists realms_generator. reflexivity.
  - exists language_generator. reflexivity.
  - exists language_strings_generator. reflexivity.
  - exists profile_icons_generator. reflexivity.
Qed.

(** One run of the body, case by case. *)
Lemma platform_body_run (b : platform_body) (query params : dict) (x : value)
  (s : service) :
  platform_body_of transport Platform_of py_repr b query params x s
  = match Platform_ x with
    | Raise e => (Raise e, s)
    | Ok p =>
        let r := platform_request b params p in
        match transport (calls s) r with
        | NotFound404 msg => (Raise (NotFoundError msg), requested s r)
        | Payload data =>
            (match platform_stamp_of b query p data with
             | Ok dto => Ok (VDict dto)
             | Raise e => Raise e
             end, requested s r)
        end
    end.
Proof.
  rewrite platform_body_frame. unfold platform_body_with, bind, lift.
  destruct (Platform_ x) as [p | e]; [| reflexivity].
  unfold try_get_for, _get, platform_request, requested. cbn.
  destruct (transport _ _) as [msg | data]; [reflexivity |].
  destruct (platform_stamp_of b query p data); reflexivity.
Qed.

Lemma next_platform_finished g s :
  pg_finished g = true -> next_of g s = (StopIteration, g, s).
Proof. intros H. unfold next_platform. rewrite H. reflexivity. Qed.

Lemma pull_platforms_finished n g s :
  pg_finished g = true -> pull_of n g s = (repeat StopIteration n, g, s).
Proof.
  intros H. induction n as [| n IH]; [reflexivity |].
  cbn [pull_platforms repeat]. rewrite (next_platform_finished g s H), IH.
  reflexivity.
Qed.

(** One pull: at most one request, for the first of the platforms left,
    and nothing else of the service changes. *)
Lemma next_platform_requests g s o g' s' :
  next_of g s = (o, g', s') ->
  heap s' = heap s /\ _cache s' = _cache s /\
  exists rs,
    calls s' = (calls s ++ rs)%list /\
    length (List.filter is_Yieldb [o]) <= length rs /\
    length rs <= 1 /\
    length rs + length (pg_platforms g') <= length (pg_platforms g).
Proof.
  unfold next_platform.
  destruct (pg_finished g) eqn:Hf.
  { intros H. injection H as <- <- <-. split; [reflexivity |]. split; [reflexivity |].
    exists []. rewrite app_nil_r. cbn. repeat split; auto; lia. }
  destruct (pg_platforms g) as [| x rest] eqn:Hp.
  { intros H. injection H as <- <- <-. split; [reflexivity |]. split; [reflexivity |].
    exists []. rewrite app_nil_r. cbn. repeat split; auto; lia. }
  rewrite platform_body_run.
  destruct (Platform_ x) as [p | e].
  - cbv zeta. destruct (transport _ _) as [msg | data].
    + intros H. injection H as <- <- <-. cbn.
      split; [reflexivity |]. split; [reflexivity |].
      eexists [_]. cbn. repeat split; auto; lia.
    + destruct (platform_stamp_of _ _ _ _); intros H; injection H as <- <- <-; cbn;
        (split; [reflexivity |]); (split; [reflexivity |]);
        eexists [_]; cbn; repeat split; auto; lia.
  - intros H. injection H as <- <- <-. split; [reflexivity |]. split; [reflexivity |].
    exists []. rewrite app_nil_r. cbn. repeat split; auto; lia.
Qed.

Lemma pull_platforms_requests n g s os g' s' :
  pull_of n g s = (os, g', s') ->
  heap s' = heap s /\ _cache s' = _cache s /\
  exists rs,
    calls s' = (calls s ++ rs)%list /\
    length (List.filter is_Yieldb os) <= length rs /\
    length rs <= n /\
    length rs <= length (pg_platforms g).
Proof.
  revert g s os g' s'. induction n as [| n IH]; intros g s os g' s'.
  - cbn. intros H. injection H as <- <- <-. split; [reflexivity |].
    split; [reflexivity |]. exists []. rewrite app_nil_r. cbn. repeat split; lia.
  - cbn [pull_platforms].
    destruct (next_of g s) as [[o g1] s1] eqn:Hn.
    destruct (pull_of n g1 s1) as [[os1 g2] s2] eqn:Hpl.
    intros H. injection H as <- <- <-.
    apply next_platform_requests in Hn as (Hh1 & Hc1 & rs1 & Hr1 & Hy1 & Hl1 & Hp1).
    apply IH in Hpl as (Hh2 & Hc2 & rs2 & Hr2 & Hy2 & Hl2 & Hp2).
    split; [congruence |]. split; [congruence |].
    exists (rs1 ++ rs2)%list. rewrite Hr2, Hr1, <- app_assoc.
    split; [reflexivity |]. rewrite length_app.
    cbn [List.filter length] in *.
    destruct (is_Yieldb o); cbn [length] in *; repeat split; lia.
Qed.

Lemma many_platforms_state b validator params_of query context s :
  snd (many_platforms b validator params_of query context s) = s.
Proof.
  unfold many_platforms, bind, lift, ret.
  destruct (validator query context) as [q |]; [| reflexivity].
  destruct (params_of q); [| reflexivity].
  destruct (let* platforms := getitem q "platforms" in py_list platforms)%result;
    reflexivity.
Qed.

End Platforms.

(** X4.  The generators over platforms fetch when they are pulled:
    building one sends no request, whatever the query; pulling [n]
    elements sends at most [n] requests and at most one for each platform,
    at least one for every element that is yielded, and changes nothing
    else of the service: these operations neither read nor fill the
    cache of the lists. *)
Theorem platform_generators_fetch_when_pulled
  (transport : list request -> request -> response)
  (Platform_of : string -> option Platform) (py_repr : value -> string)
  (type : dto_type + plain_type)
  (operation : dict -> PipelineContext -> M platform_generator)
  (query : dict) (context : PipelineContext) (s : service) :
  get_many_platforms type = Some operation ->
  snd (operation query context s) = s /\
  forall (n : nat) (g : platform_generator) (s0 : service),
    let '(os, _, s1) := pull_platforms transport Platform_of py_repr n g s0 in
    heap s1 = heap s0 /\ _cache s1 = _cache s0 /\
    exists rs,
      calls s1 = (calls s0 ++ rs)%list /\
      length (List.filter is_Yieldb os) <= length rs /\
      length rs <= n /\
      length rs <= length (pg_platforms g).
Proof.
  intros Hop. apply get_many_platforms_frame in Hop as [b ->].
  split; [apply many_platforms_state |].
  intros n g s0.
  destruct (pull_platforms transport Platform_of py_repr n g s0) as [[os g'] s1] eqn:Hpl.
  exact (pull_platforms_requests transport Platform_of py_repr n g s0 os g' s1 Hpl).
Qed.

Lemma platform_generators_fetch_when_pulled_witness :
  let query := [("platforms", VList [VStr "na1"; VStr "euw1"])] in
  snd (get_many_realms query None init) = init /\
  forall (n : nat) (g : platform_generator) (s0 : service),
    let '(os, _, s1) := pull_platforms example_transport example_platforms example_repr
                          n g s0 in
    heap s1 = heap s0 /\ _cache s1 = _cache s0 /\
    exists rs,
      calls s1 = (calls s0 ++ rs)%list /\
      length (List.filter is_Yieldb os) <= length rs /\
      length rs <= n /\
      length rs <= length (pg_platforms g).
Proof.
  exact (platform_generators_fetch_when_pulled example_transport example_platforms
           example_repr (inr RealmDto) get_many_realms
           [("platforms", VList [VStr "na1"; VStr "euw1"])] None init eq_refl).
Defined.

Section Pulls.

Variable transport : list request -> request -> response.
Variable Platform_of : string -> option Platform.
Variable py_repr : value -> string.

Lemma to_Platform_Ok (x : value) (p : Platform) :
  to_Platform Platform_of py_repr x = Ok p ->
  exists name, x = VStr name /\ Platform_of (upper name) = Some p.
Proof.
  unfold to_Platform. destruct x as [a | | |]; try discriminate.
  destruct a as [| | | name |]; try discriminate.
  destruct (Platform_of (upper name)) as [p' |] eqn:Hp; [| discriminate].
  intros H. injection H as <-. eauto.
Qed.

(** A pull that yields, taken apart. *)
Lemma next_platform_Yield g s dto g' s' :
  next_platform transport Platform_of py_repr g s = (Yield dto, g', s') ->
  exists name rest p data x,
    pg_finished g = false /\
    pg_platforms g = VStr name :: rest /\
    Platform_of (upper name) = Some p /\
    transport (calls s) (platform_request (pg_body g) (pg_params g) p) = Payload data /\
    platform_stamp_of (pg_body g) (pg_query g) p data = Ok x /\
    dto = VDict x /\
    g' = {| pg_body := pg_body g; pg_query := pg_query g; pg_params := pg_params g;
            pg_platforms := rest; pg_finished := false |} /\
    s' = requested s (platform_request (pg_body g) (pg_params g) p).
Proof.
  unfold next_platform.
  destruct (pg_finished g); [discriminate |].
  destruct (pg_platforms g) as [| x rest]; [discriminate |].
  rewrite platform_body_run.
  destruct (to_Platform Platform_of py_repr x) as [p | e] eqn:Hx; [| discriminate].
  apply to_Platform_Ok in Hx as (name & -> & Hp).
  cbv zeta. destruct (transport _ _) as [msg | data] eqn:Ht; [discriminate |].
  destruct (platform_stamp_of _ _ _ _) as [x |] eqn:Hs; [| discriminate].
  intros H. injection H as <- <- <-.
  exists name, rest, p, data, x. auto 10.
Qed.

(** A pull that raises leaves a finished generator. *)
Lemma next_platform_Raised g s e g' s' :
  next_platform transport Platform_of py_repr g s = (Raised e, g', s') ->
  pg_finished g' = true /\ pg_platforms g' = tl (pg_platforms g).
Proof.
  unfold next_platform.
  destruct (pg_finished g); [discriminate |].
  destruct (pg_platforms g) as [| x rest]; [discriminate |].
  destruct (platform_body_of _ _ _ _ _ _ _ _) as [[dto | e'] s1];
    intros H; [discriminate |].
  injection H as _ <- _. split; reflexivity.
Qed.

End Pulls.

(** X5.  An element pulled from a generator over platforms is the payload
    of the next platform with the stamps of the operation written over it:
    the platform is the one named by the string in upper case, the request
    goes to its host with the parameters that were built with the
    generator, the payload is a dict, and the element has the region of
    the platform, the locale of the query or else the default locale of the
    platform, and the includedData of the query, where the operation
    writes these.  Every other entry is as it came in the payload (but for
    the records of an item list): the records of a list are not stamped. *)
Theorem pulled_platform_element
  (transport : list request -> request -> response)
  (Platform_of : string -> option Platform) (py_repr : value -> string)
  (g g' : platform_generator) (s s' : service) (dto : value) :
  next_platform transport Platform_of py_repr g s = (Yield dto, g', s') ->
  exists name rest p d x,
    pg_platforms g = VStr name :: rest /\
    pg_platforms g' = rest /\
    Platform_of (upper name) = Some p /\
    transport (calls s) (platform_request (pg_body g) (pg_params g) p)
    = Payload (VDict d) /\
    s' = requested s (platform_request (pg_body g) (pg_params g) p) /\
    dto = VDict x /\
    dict_get x "region" = Some (region_for p) /\
    (In "locale" (platform_stamps_of (pg_body g)) ->
     dict_get x "locale" = Some (locale_for (pg_query g) p)) /\
    (In "includedData" (platform_stamps_of (pg_body g)) ->
     dict_get x "includedData" = dict_get (pg_query g) "includedData") /\
    forall k, ~ In k (platform_stamps_of (pg_body g)) ->
              (pg_body g = item_list_generator -> k <> "data") ->
              dict_get x k = dict_get d k.
Proof.
  intros H.
  apply next_platform_Yield in H
    as (name & rest & p & data & x & _ & Hp & Hn & Ht & Hs & -> & -> & ->).
  apply platform_stamp_Ok in Hs as (d & -> & Hregion & Hlocale & Hincluded & Hrest).
  exists name, rest, p, d, x. auto 12.
Qed.

Lemma pulled_platform_element_witness :
  let g := example_platform_generator champion_list_generator [VStr "euw1"; VStr "na1"] in
  let dto := VDict [("type", VStr "champion"); ("version", VStr "7.2");
                    ("data", VDict [("1", VDict [("id", VInt 1); ("name", VStr "Annie");
                                                 ("version", VStr "0.0")]);
                                    ("17", VDict [("id", VInt 17); ("name", VStr "Teemo")])]);
                    ("region", VStr "EUW"); ("locale", VStr "en_GB");
                    ("includedData", VSet ["all"])] in
  fst (fst (next_platform example_transport example_platforms example_repr g init))
  = Yield dto /\
  exists name rest p d x,
    pg_platforms g = VStr name :: rest /\
    example_platforms (upper name) = Some p /\
    example_transport (calls init) (platform_request (pg_body g) (pg_params g) p)
    = Payload (VDict d) /\
    dto = VDict x /\
    dict_get x "region" = Some (region_for p) /\
    dict_get x "locale" = Some (locale_for (pg_query g) p) /\
    forall k, ~ In k (platform_stamps_of (pg_body g)) ->
              (pg_body g = item_list_generator -> k <> "data") ->
              dict_get x k = dict_get d k.
Proof.
  cbv zeta. split; [reflexivity |].
  destruct (pulled_platform_element example_transport example_platforms example_repr
              (example_platform_generator champion_list_generator
                 [VStr "euw1"; VStr "na1"])
              _ init _ _ eq_refl)
    as (name & rest & p & d & x & Hp & _ & Hn & Ht & _ & Hx & Hregion & Hlocale & _ & Hk).
  exists name, rest, p, d, x.
  split; [exact Hp |]. split; [exact Hn |]. split; [exact Ht |]. split; [exact Hx |].
  split; [exact Hregion |]. split; [apply Hlocale; cbn; auto |]. exact Hk.
Defined.

(** X6.  A pull that raises ends a generator over platforms: whatever was
    raised (a platform that is no string or no platform, a payload that
    was not found or that is no dict), every later pull says
    [StopIteration] and sends no request, so the platforms after the
    failing one are never fetched. *)
Theorem platform_failure_ends_the_sequence
  (transport : list request -> request -> response)
  (Platform_of : string -> option Platform) (py_repr : value -> string)
  (g g' : platform_generator) (s s' : service) (e : exn) (n : nat) :
  next_platform transport Platform_of py_repr g s = (Raised e, g', s') ->
  pull_platforms transport Platform_of py_repr n g' s'
  = (repeat StopIteration n, g', s')
  /\ pg_platforms g' = tl (pg_platforms g).
Proof.
  intros H. apply next_platform_Raised in H as [Hf Hp].
  split; [| exact Hp]. apply pull_platforms_finished, Hf.
Qed.

Lemma platform_failure_ends_the_sequence_witness :
  let g := example_platform_generator mastery_list_generator [VStr "kr"; VStr "euw1"] in
  let r := next_platform example_transport example_platforms example_repr g init in
  fst (fst r) = Raised (ValueError "? is not a valid Platform")
  /\ pull_platforms example_transport example_platforms example_repr 3 (snd (fst r)) (snd r)
     = (repeat StopIteration 3, snd (fst r), snd r)
  /\ pg_platforms (snd (fst r)) = tl (pg_platforms g).
Proof.
  cbv zeta. split; [reflexivity |].
  apply (platform_failure_ends_the_sequence example_transport example_platforms
           example_repr
           (example_platform_generator mastery_list_generator [VStr "kr"; VStr "euw1"])
           _ init _ (ValueError "? is not a valid Platform") 3).
  reflexivity.
Defined.

(** X7.  [get_many_language] needs a dict where [get_language] does not:
    when the transport answers the languages request of a platform with
    something that is no dict (the list of the locales, say), pulling the
    element of that platform raises [TypeError] and the generator ends,
    while [get_language] for the same platform sends the same request and
    returns the answer under [languages]. *)
Theorem language_by_platform_needs_a_dict
  (transport : list request -> request -> response)
  (Platform_of : string -> option Platform) (py_repr : value -> string)
  (query : dict) (context : PipelineContext) (s s0 : service)
  (g : platform_generator) (name : string) (rest : list value)
  (p : Platform) (data : value) :
  get_many_language query context s0 = (Ok g, s0) ->
  pg_platforms g = VStr name :: rest ->
  Platform_of (upper name) = Some p ->
  let r := platform_request language_generator [] p in
  transport (calls s) r = Payload data ->
  (forall d, data <> VDict d) ->
  (exists g',
     next_platform transport Platform_of py_repr g s = (Raised TypeError, g', requested s r)
     /\ pg_finished g' = true)
  /\ get_plain transport LanguagesDto [("platform", VPlatform p)] context s
     = (Ok (VDict [("region", region_for p); ("languages", data)]), requested s r).
Proof.
  intros Hg Hp Hn r Ht Hd. split.
  - unfold get_many_language in Hg.
    apply bind_Ok in Hg as (q' & s1 & _ & Hg). apply bind_Ok in Hg as (ps & s2 & Hps & Hg).
    apply lift_Ok in Hps as [Hps _]. injection Hps as <-.
    apply bind_Ok in Hg as (pl & s3 & _ & Hg). unfold ret in Hg. injection Hg as <-.
    cbn [pg_platforms] in Hp. subst pl.
    unfold next_platform. cbn [pg_finished pg_platforms pg_body pg_query pg_params].
    rewrite platform_body_run. unfold to_Platform. rewrite Hn. cbv zeta.
    fold r. rewrite Ht.
    assert (Hs : platform_stamp_of language_generator q' p data = Raise TypeError).
    { cbn [platform_stamp_of]. unfold many_language_stamp, assign. cbn [rbind].
      destruct data as [a | | |]; try reflexivity.
      exfalso. eapply Hd. reflexivity. }
    rewrite Hs. eexists. split; reflexivity.
  - cbn [get_plain]. unfold get_language, _validate_get_languages_query.
    rewrite (validate_has_platform [] [("platform", VPlatform p)] context p eq_refl).
    cbn [validate]. unfold bind at 1. unfold lift at 1.
    unfold language_request, language_stamp.
    rewrite (url_of_platform [("platform", VPlatform p)] p _ eq_refl),
            (region_of_platform [("platform", VPlatform p)] p eq_refl).
    unfold bind, lift, ret, try_get, _get, getitem. cbn.
    unfold r, platform_request in Ht. cbn in Ht. rewrite Ht. reflexivity.
Qed.

Lemma language_by_platform_needs_a_dict_witness :
  let query := [("platforms", VList [VStr "na1"; VStr "euw1"])] in
  let r := platform_request language_generator [] NA in
  (exists g g',
     get_many_language query None init = (Ok g, init) /\
     next_platform languages_transport example_platforms example_repr g init
     = (Raised TypeError, g', requested init r)
     /\ pg_finished g' = true)
  /\ get_plain languages_transport LanguagesDto [("platform", VPlatform NA)] None init
     = (Ok (VDict [("region", VStr "NA"); ("languages", example_languages)]),
        requested init r).
Proof.
  cbv zeta.
  destruct (language_by_platform_needs_a_dict languages_transport example_platforms
              example_repr [("platforms", VList [VStr "na1"; VStr "euw1"])] None init init
              _ "na1" [VStr "euw1"] NA example_languages eq_refl eq_refl eq_refl eq_refl)
    as [(g' & Hnext & Hf) Hget].
  { intros d. discriminate. }
  split; [| exact Hget].
  eexists _, g'. split; [reflexivity |]. split; [exact Hnext | exact Hf].
Defined.

Lemma many_item_list_stamp_Ok (query : dict) (p : Platform) (data : value) (x : dict) :
  many_item_list_stamp query p data = Ok x ->
  exists d recs recs',
    data = VDict d /\
    dict_get d "data" = Some (VDict recs) /\
    dict_get x "data" = Some (VDict recs') /\
    Forall2 (fun a b => fst a = fst b /\
                        exists r id, snd a = VDict r /\ dict_get r "id" = Some id /\
                                     snd b = VDict (repaired r id)) recs recs'.
Proof.
  unfold many_item_list_stamp. intros H.
  apply rbind_Ok in H as (x1 & H1 & H). apply rbind_Ok in H as (x2 & H2 & H).
  apply rbind_Ok in H as (x3 & H3 & H). apply rbind_Ok in H as (items & Hitems & H).
  apply rbind_Ok in H as (items' & Hfor & H).
  apply assign_Ok in H1 as (d & v1 & -> & _ & ->).
  apply assign_Ok in H2 as (d2 & v2 & Hd2 & _ & ->). injection Hd2 as <-.
  apply assign_Ok in H3 as (d3 & v3 & Hd3 & _ & ->). injection Hd3 as <-.
  apply for_values_Ok in Hfor as (recs & recs' & -> & -> & Hall).
  cbn [store_back Dto] in H. injection H as <-.
  cbn [subscript] in Hitems. apply getitem_Ok in Hitems.
  rewrite !dict_get_set_other in Hitems by discriminate.
  exists d, recs, recs'. split; [reflexivity |]. split; [exact Hitems |].
  split; [apply dict_get_set_same |].
  clear -Hall. induction Hall as [| a b l l' [Hk Hab] _ IH]; constructor; [| exact IH].
  split; [exact Hk |].
  apply repair_item_Ok in Hab as (r & id & Ha & Hid & Hb). eauto.
Qed.

(** X8.  The item lists of [get_many] come repaired and nothing more: the
    records of a yielded list are the records of the payload, under the
    same keys and in the same order, each with the repair rules applied
    (the empty name of item 3632 and the defaults of tags, depth, colloq
    and plaintext), and without the stamps that [get] puts on the records
    of the list it caches. *)
Theorem item_lists_by_platform_are_repaired
  (transport : list request -> request -> response)
  (Platform_of : string -> option Platform) (py_repr : value -> string)
  (g g' : platform_generator) (s s' : service) (dto : value) :
  pg_body g = item_list_generator ->
  next_platform transport Platform_of py_repr g s = (Yield dto, g', s') ->
  exists r d recs x recs',
    s' = requested s r /\
    transport (calls s) r = Payload (VDict d) /\
    dict_get d "data" = Some (VDict recs) /\
    dto = VDict x /\
    dict_get x "data" = Some (VDict recs') /\
    Forall2 (fun a b => fst a = fst b /\
                        exists r id, snd a = VDict r /\ dict_get r "id" = Some id /\
                                     snd b = VDict (repaired r id)) recs recs' /\
    list_items_ok x.
Proof.
  intros Hb H.
  apply next_platform_Yield in H
    as (name & rest & p & data & x & _ & Hp & Hn & Ht & Hs & -> & -> & ->).
  rewrite Hb in Hs. cbn [platform_stamp_of] in Hs.
  apply many_item_list_stamp_Ok in Hs as (d & recs & recs' & -> & Hd & Hx & Hall).
  exists (platform_request (pg_body g) (pg_params g) p), d, recs, x, recs'.
  split; [reflexivity |]. split; [exact Ht |]. split; [exact Hd |].
  split; [reflexivity |]. split; [exact Hx |]. split; [exact Hall |].
  intros recs0 Hr. apply records_of_Ok in Hr. rewrite Hx in Hr. injection Hr as <-.
  clear -Hall. induction Hall as [| a b l l' (_ & r & id & _ & Hid & Hb) _ IH];
    constructor; [| exact IH].
  rewrite Hb. apply repaired_item_ok, Hid.
Qed.

Lemma item_lists_by_platform_are_repaired_witness :
  let g := example_platform_generator item_list_generator [VStr "NA1"] in
  let transport := fun (_ : list request) (_ : request) => Payload example_items in
  exists x recs',
    fst (fst (next_platform transport example_platforms example_repr g init))
    = Yield (VDict x) /\
    dict_get x "data" = Some (VDict recs') /\
    Forall2 (fun a b => fst a = fst b /\
                        exists r id, snd a = VDict r /\ dict_get r "id" = Some id /\
                                     snd b = VDict (repaired r id))
      [("3632", VDict [("id", VInt 3632); ("name", VStr "Placeholder");
                       ("tags", VList [VStr "Trinket"])]);
       ("1001", VDict [("id", VInt 1001); ("name", VStr "Boots")])] recs' /\
    list_items_ok x.
Proof.
  cbv zeta.
  destruct (item_lists_by_platform_are_repaired
              (fun _ _ => Payload example_items) example_platforms example_repr
              (example_platform_generator item_list_generator [VStr "NA1"])
              (snd (fst (next_platform (fun _ _ => Payload example_items)
                           example_platforms example_repr
                           (example_platform_generator item_list_generator [VStr "NA1"])
                           init)))
              init
              (snd (next_platform (fun _ _ => Payload example_items)
                      example_platforms example_repr
                      (example_platform_generator item_list_generator [VStr "NA1"])
                      init))
              (match fst (fst (next_platform (fun _ _ => Payload example_items)
                                 example_platforms example_repr
                                 (example_platform_generator item_list_generator
                                    [VStr "NA1"]) init)) with
               | Yield dto => dto
               | _ => VNone
               end)
              eq_refl eq_refl)
    as (r & d & recs & x & recs' & _ & Ht & Hd & Hx & Hx' & Hall & Hok).
  injection Ht as <-. injection Hd as <-.
  exists x, recs'. split; [| split; [exact Hx' | split; [exact Hall | exact Hok]]].
  rewrite <- Hx. reflexivity.
Defined.

(** * More on the cached operations *)

(** X9.  [find_matching_attribute] finds the first match: it answers
    with a position exactly when the dto there has the attribute equal to
    the value and no dto before it has, with [None] exactly when no dto
    has, and it can only raise [AttributeError], for something that is no
    dict in front of the first match. *)
Theorem find_matching_attribute_first (dtos : list value) (attr : string) (v : value) :
  (forall i,
     find_matching_attribute dtos attr v = Ok (Some i) <->
     (exists d, dtos !! i = Some (VDict d) /\
                py_eq (default VNone (dict_get d attr)) v = true) /\
     (forall j, j < i ->
        exists d, dtos !! j = Some (VDict d) /\
                  py_eq (default VNone (dict_get d attr)) v = false))
  /\ (find_matching_attribute dtos attr v = Ok None <->
      Forall (fun x => exists d, x = VDict d /\
                                 py_eq (default VNone (dict_get d attr)) v = false) dtos)
  /\ (forall e, find_matching_attribute dtos attr v = Raise e -> e = AttributeError).
Proof.
  induction dtos as [| x dtos (IHsome & IHnone & IHraise)].
  - cbn [find_matching_attribute]. split; [| split].
    + intros i. split; [discriminate |]. intros [(d & Hd & _) _]. discriminate.
    + split; [constructor | reflexivity].
    + discriminate.
  - cbn [find_matching_attribute].
    destruct x as [a | xs | xs | d].
    1-3: split; [| split];
      [ intros i; split; [discriminate |];
        intros [(d & Hd & Hm) Hbefore];
        destruct i as [| i];
        [ cbn in Hd; discriminate
        | destruct (Hbefore 0) as (d0 & Hd0 & _); [lia | cbn in Hd0; discriminate] ]
      | split; [discriminate |];
        intros H; inversion H as [| ? ? (d & Hd & _) _]; discriminate
      | intros e H; injection H as <-; reflexivity ].
    destruct (py_eq (default VNone (dict_get d attr)) v) eqn:Hm.
    + split; [| split].
      * intros i. split.
        -- intros H. injection H as <-. split.
           ++ exists d. split; [reflexivity | exact Hm].
           ++ intros j Hj. lia.
        -- intros [_ Hbefore]. destruct i as [| i]; [reflexivity |].
           destruct (Hbefore 0) as (d0 & Hd0 & Hm0); [lia |].
           cbn in Hd0. injection Hd0 as <-. congruence.
      * split; [discriminate |].
        intros H. inversion H as [| ? ? (d0 & Hd0 & Hm0) _].
        injection Hd0 as <-. congruence.
      * discriminate.
    + destruct (find_matching_attribute dtos attr v) as [[i0 |] | e0] eqn:Hrest;
        cbn [rbind option_map].
      * split; [| split].
        -- intros i. split.
           ++ intros H. injection H as <-.
              destruct (proj1 (IHsome i0) eq_refl) as [Hat Hbefore]. split.
              ** exact Hat.
              ** intros [| j] Hj; [exists d; auto |]. apply Hbefore. lia.
           ++ intros [Hat Hbefore]. destruct i as [| i].
              ** destruct Hat as (d0 & Hd0 & Hm0). cbn in Hd0. injection Hd0 as <-.
                 congruence.
              ** assert (Hi : Ok (Some i0) = Ok (Some i)).
                 { apply IHsome. split; [exact Hat |].
                   intros j Hj. apply (Hbefore (S j)). lia. }
                 congruence.
        -- split; [discriminate |].
           intros H. inversion H as [| ? ? _ Hall]. apply IHnone in Hall. discriminate.
        -- discriminate.
      * split; [| split].
        -- intros i. split; [discriminate |].
           intros [Hat Hbefore]. destruct i as [| i].
           ++ destruct Hat as (d0 & Hd0 & Hm0). cbn in Hd0. injection Hd0 as <-.
              congruence.
           ++ assert (Hi : Ok None = Ok (Some i)).
              { apply IHsome. split; [exact Hat |].
                intros j Hj. apply (Hbefore (S j)). lia. }
              discriminate.
        -- split; [| reflexivity]. intros _. constructor.
           ++ exists d. auto.
           ++ apply IHnone. reflexivity.
        -- discriminate.
      * split; [| split].
        -- intros i. split; [discriminate |].
           intros [Hat Hbefore]. destruct i as [| i].
           ++ destruct Hat as (d0 & Hd0 & Hm0). cbn in Hd0. injection Hd0 as <-.
              congruence.
           ++ assert (Hi : Raise e0 = Ok (Some i)).
              { apply IHsome. split; [exact Hat |].
                intros j Hj. apply (Hbefore (S j)). lia. }
              discriminate.
        -- split; [discriminate |].
           intros H. inversion H as [| ? ? _ Hall]. apply IHnone in Hall. discriminate.
        -- intros e H. injection H as <-. apply IHraise. reflexivity.
Qed.













Section Cost.

Variable transport : list request -> request -> response.
Variable request_by_id : bool.
Variable h : list string -> Z.
Variable py_repr : value -> string.


(** One run of a list operation, whatever its outcome: a hit or an early
    failure leaves the service as it was; a fetch whose payload cannot be
    stamped leaves the request only; a fetch that succeeds stores the new
    list in a slot that was empty. *)
Lemma cached_list_run type validator request_of bucket stamp query context s :
  let r := fst (cached_list transport h type validator request_of bucket stamp
                  query context s) in
  let s' := snd (cached_list transport h type validator request_of bucket stamp
                   query context s) in
  s' = s
  \/ (exists rq e, s' = requested s rq /\ r = Raise e)
  \/ (exists rq d k, s' = stored s type k d rq /\ r = Ok (length (heap s)) /\
                     slot_get (_cache s type) k = None).
Proof.
  cbv zeta. unfold cached_list, bind, lift, cache_get, cache_set, new_object, ret.
  destruct (validator query context) as [q |]; [| left; reflexivity].
  destruct (as_key (calculate_hash h q)) as [k |] eqn:Hk; [| left; reflexivity].
  destruct (slot_get (_cache s type) k) as [l |] eqn:Hslot; [left; reflexivity |].
  destruct (request_of q) as [req |]; [| left; reflexivity].
  unfold try_get, _get.
  destruct (getitem q "platform") as [platform |]; [| left; reflexivity].
  destruct (transport _ _) as [msg | data]; cbn [fst snd].
  - right. left. eexists _, _. split; reflexivity.
  - destruct (stamp q data) as [d |]; cbn [fst snd].
    + right. right. cbn [fst snd heap _cache calls].
      exists (request_for req platform bucket), d, k.
      split; [reflexivity |]. split; [reflexivity | exact Hslot].
    + right. left. eexists _, _. split; reflexivity.
Qed.






End Cost.


(** X11.  A list operation that fails stores nothing: when the [get] of a
    list type raises, for whatever reason, the store and the cache are as
    they were before the call; at most the one request was sent. *)
Theorem failed_list_get_stores_nothing
  (transport : list request -> request -> response) (request_by_id : bool)
  (h : list string -> Z) (py_repr : value -> string)
  (type : dto_type) (query : dict) (context : PipelineContext)
  (s s' : service) (e : exn) :
  is_list type = true ->
  get transport request_by_id h py_repr type query context s = (Raise e, s') ->
  heap s' = heap s /\ _cache s' = _cache s /\
  (calls s' = calls s \/ exists rq, calls s' = (calls s ++ [rq])%list).
Proof.
  intros Hl. rewrite (get_list_frame transport request_by_id h py_repr type Hl).
  unfold returning_reference, bind, ret.
  pose proof (cached_list_run transport h type (validator_of type) (list_request_of type)
                (list_bucket_of type) (list_stamp_of type) query context s) as Hrun.
  cbv zeta in Hrun.
  destruct (cached_list transport h type (validator_of type) (list_request_of type)
              (list_bucket_of type) (list_stamp_of type) query context s)
    as [[l | e'] s1]; [discriminate |].
  cbn [fst snd] in Hrun. intros H. injection H as _ <-.
  destruct Hrun as [-> | [(rq & e0 & -> & _) | (rq & d & k & _ & Hr & _)]].
  - auto.
  - cbn. eauto.
  - discriminate.
Qed.

Lemma failed_list_get_stores_nothing_witness :
  let s' := snd (get example_transport false example_hash example_repr ChampionListDto
                   [("platform", VPlatform NA); ("locale", VStr "en_US")]
                   example_context init) in
  heap s' = heap init /\ _cache s' = _cache init /\
  (calls s' = calls init \/ exists rq, calls s' = (calls init ++ [rq])%list).
Proof.
  cbv zeta.
  apply (failed_list_get_stores_nothing example_transport false example_hash
           example_repr ChampionListDto
           [("platform", VPlatform NA); ("locale", VStr "en_US")] example_context
           init _ KeyError eq_refl).
  reflexivity.
Defined.




(** * Repeating a [get] that went through the list *)

Lemma dict_set_id (d : dict) (k : string) (v : value) :
  dict_get d k = Some v -> dict_set d k v = d.
Proof.
  induction d as [| [k' v'] d IH]; cbn [dict_get dict_set]; [discriminate |].
  destruct (String.eqb k' k).
  - intros H. injection H as ->. reflexivity.
  - intros H. rewrite (IH H). reflexivity.
Qed.








Section Repeating.

Variable transport : list request -> request -> response.
Variable request_by_id : bool.
Variable h : list string -> Z.
Variable py_repr : value -> string.



End Repeating.





(** * The errors that leave the service *)

Lemma safe_Ok {A} (a : A) : safe (Ok a).
Proof. intros e H. discriminate. Qed.

Lemma safe_Raise {A} (e : exn) : translated e -> safe (@Raise A e).
Proof. intros He e' H. injection H as <-. exact He. Qed.

Lemma safe_rbind {A B} (r : result A) (k : A -> result B) :
  safe r -> (forall a, safe (k a)) -> safe (rbind r k).
Proof.
  intros Hr Hk e. destruct r as [a | e']; cbn [rbind].
  - apply Hk.
  - intros H. injection H as <-. apply Hr. reflexivity.
Qed.

Ltac by_cases :=
  unfold safe; intros;
  repeat match goal with
         | H : context [match ?x with _ => _ end] |- _ => destruct x
         end;
  try discriminate;
  match goal with
  | H : Raise _ = Raise _ |- _ => injection H as <-; exact I
  end.

Lemma safe_getitem d k : safe (getitem d k).
Proof. unfold getitem. by_cases. Qed.

Lemma safe_subscript c k : safe (subscript c k).
Proof.
  intros e. unfold subscript.
  destruct c as [a | xs | xs | d].
  - destruct a; try (intros H; injection H as <-; exact I).
    destruct k as [a' | | |]; try (intros H; injection H as <-; exact I).
    destruct (num a'); [| intros H; injection H as <-; exact I].
    destruct (index _ _); [| intros H; injection H as <-; exact I].
    destruct (_ !! _); [discriminate | intros H; injection H as <-; exact I].
  - intros H; injection H as <-; exact I.
  - destruct k as [a' | | |]; try (intros H; injection H as <-; exact I).
    destruct (num a'); [| intros H; injection H as <-; exact I].
    destruct (index _ _); [| intros H; injection H as <-; exact I].
    destruct (_ !! _); [discriminate | intros H; injection H as <-; exact I].
  - destruct k as [a' | | |]; try (intros H; injection H as <-; exact I).
    destruct a'; try (intros H; injection H as <-; exact I).
    apply safe_getitem.
Qed.

Lemma safe_setitem c k v : safe (setitem c k v).
Proof. unfold setitem. by_cases. Qed.

Lemma safe_assign x k rhs : safe rhs -> safe (assign x k rhs).
Proof. intros H. apply safe_rbind; [exact H | intros v; apply safe_setitem]. Qed.

Lemma safe_Dto v : safe (Dto v).
Proof. unfold Dto. by_cases. Qed.

Lemma safe_py_list v : safe (py_list v).
Proof. unfold py_list. by_cases. Qed.

Lemma safe_as_platform v : safe (as_platform v).
Proof. unfold as_platform. by_cases. Qed.

Lemma safe_not_in k c : safe (not_in k c).
Proof. unfold not_in. by_cases. Qed.

Lemma safe_records_of top : safe (records_of top).
Proof. unfold records_of. by_cases. Qed.

Lemma safe_rmap {A B} (f : A -> result B) (l : list A) :
  (forall a, safe (f a)) -> safe (rmap f l).
Proof.
  intros Hf. induction l as [| a l IH]; cbn [rmap]; [apply safe_Ok |].
  apply safe_rbind; [apply Hf | intros b].
  apply safe_rbind; [exact IH | intros bs; apply safe_Ok].
Qed.

Lemma safe_join sep xs : safe (join sep xs).
Proof.
  unfold join. apply safe_rbind; [| intros ss; apply safe_Ok].
  apply safe_rmap. intros v. by_cases.
Qed.

Lemma safe_tags_of query : safe (tags_of query).
Proof.
  unfold tags_of.
  apply safe_rbind; [apply safe_getitem | intros v].
  apply safe_rbind; [apply safe_py_list | intros l].
  apply safe_rbind; [apply safe_join | intros s; apply safe_Ok].
Qed.

Lemma safe_region_of query : safe (region_of query).
Proof.
  unfold region_of.
  apply safe_rbind; [apply safe_getitem | intros v].
  apply safe_rbind; [apply safe_as_platform | intros p; apply safe_Ok].
Qed.

Lemma safe_url_of query path : safe (url_of query path).
Proof.
  unfold url_of.
  apply safe_rbind; [apply safe_getitem | intros v].
  apply safe_rbind; [apply safe_as_platform | intros p; apply safe_Ok].
Qed.

Lemma safe_url_of_id py_repr query path : safe (url_of_id py_repr query path).
Proof.
  unfold url_of_id.
  apply safe_rbind; [apply safe_url_of | intros base].
  apply safe_rbind; [apply safe_getitem | intros id; apply safe_Ok].
Qed.

Lemma safe_if {A} (b : bool) (r1 r2 : result A) :
  safe r1 -> safe r2 -> safe (if b then r1 else r2).
Proof. destruct b; auto. Qed.

Lemma safe_repair_item item : safe (repair_item item).
Proof.
  unfold repair_item.
  repeat first [ apply safe_rbind; [| intros ?]
               | apply safe_if
               | apply safe_subscript | apply safe_setitem | apply safe_not_in
               | apply safe_Ok ].
Qed.

Lemma safe_for_values c body : (forall v, safe (body v)) -> safe (for_values c body).
Proof.
  intros Hb. unfold for_values.
  destruct c as [a | xs | xs | d]; try (apply safe_Raise; exact I).
  apply safe_rbind; [| intros d'; apply safe_Ok].
  apply safe_rmap. intros kv.
  apply safe_rbind; [apply Hb | intros v; apply safe_Ok].
Qed.

Lemma safe_for_each c body : (forall v, safe (body v)) -> safe (for_each c body).
Proof.
  intros Hb. unfold for_each.
  assert (Hkeys : safe (let* l := py_list c in let* _ := rmap body l in Ok c)%result).
  { apply safe_rbind; [apply safe_py_list | intros l].
    apply safe_rbind; [apply safe_rmap, Hb | intros _; apply safe_Ok]. }
  destruct c as [a | xs | xs | d]; try exact Hkeys.
  - destruct a; try exact Hkeys; apply safe_Raise; exact I.
  - apply safe_rbind; [apply safe_rmap, Hb | intros xs'; apply safe_Ok].
Qed.

Lemma safe_find_matching_attribute dtos attr v :
  safe (find_matching_attribute dtos attr v).
Proof.
  induction dtos as [| dto dtos IH]; cbn [find_matching_attribute]; [apply safe_Ok |].
  destruct dto as [a | xs | xs | d]; try (apply safe_Raise; exact I).
  destruct (py_eq _ _); [apply safe_Ok |].
  apply safe_rbind; [exact IH | intros r; apply safe_Ok].
Qed.

Lemma safe_except_KeyError {A} (r : result A) (e : exn) :
  translated e -> safe r -> safe (except_KeyError r e).
Proof.
  intros He Hr. unfold except_KeyError.
  destruct r as [a | e']; [apply safe_Ok |].
  destruct e'; try exact Hr. apply safe_Raise, He.
Qed.

Lemma safe__get_default_locale query context : safe (_get_default_locale query context).
Proof.
  unfold _get_default_locale.
  apply safe_rbind; [apply safe_getitem | intros v].
  apply safe_rbind; [apply safe_as_platform | intros p; apply safe_Ok].
Qed.

Lemma safe__get_default_version query context :
  tame context -> safe (_get_default_version query context).
Proof.
  intros Ht. unfold _get_default_version.
  destruct context as [pipeline |]; cbn [rbind]; [| apply safe_Raise; exact I].
  apply safe_rbind; [apply safe_getitem | intros platform].
  apply safe_rbind; [apply Ht | intros realms; apply safe_subscript].
Qed.

Lemma safe_validate1 (r : requirement) (query : dict) (context : PipelineContext) :
  safe_requirement context r -> safe (validate1 r query context).
Proof.
  intros Hr. destruct r as [alternatives | key as_ with_default]; cbn [validate1].
  - destruct (List.filter _ _) as [| [k t] [| kt rest]]; try (apply safe_Raise; exact I).
    destruct (dict_get query k); [| apply safe_Raise; exact I].
    destruct (isinstance _ _); [apply safe_Ok | apply safe_Raise; exact I].
  - destruct (dict_get query key).
    + destruct as_ as [t |]; [| apply safe_Ok].
      destruct (isinstance _ _); [apply safe_Ok | apply safe_Raise; exact I].
    + destruct with_default as [[f | v] |]; try apply safe_Ok.
      apply safe_rbind; [apply Hr | intros v; apply safe_Ok].
Qed.

Lemma safe_validate (rs : list requirement) (query : dict) (context : PipelineContext) :
  Forall (safe_requirement context) rs -> safe (validate rs query context).
Proof.
  intros Hrs. revert query. induction Hrs as [| r rs Hr _ IH]; intros query;
    cbn [validate]; [apply safe_Ok |].
  apply safe_rbind; [apply safe_validate1, Hr | exact IH].
Qed.

(** The requirements of every validator of the service are safe. *)
Ltac safe_requirements :=
  repeat constructor;
  cbn [safe_requirement]; try exact I; intros;
  first [ apply safe__get_default_locale | apply safe__get_default_version; assumption ].

Lemma safe_validator_of (type : dto_type) query context :
  tame context -> safe (validator_of type query context).
Proof.
  intros Ht. destruct type; apply safe_validate; safe_requirements.
Qed.

Lemma safe_many_validator_of (type : dto_type) query context :
  tame context -> safe (many_validator_of type query context).
Proof.
  intros Ht. destruct type; apply safe_validate; safe_requirements.
Qed.

Lemma safe_plain_validator_of (type : plain_type) query context :
  tame context -> safe (plain_validator_of type query context).
Proof.
  intros Ht. destruct type; apply safe_validate; safe_requirements.
Qed.

Lemma safe_platform_validator_of (b : platform_body) query context :
  tame context -> safe (platform_validator_of b query context).
Proof.
  intros Ht. destruct b; apply safe_validate; safe_requirements.
Qed.

(** The pieces of the operations: requests and stamps. *)
Ltac safety :=
  repeat (cbv beta zeta;
          first [ apply safe_Ok
                | apply safe_Raise; exact I
                | apply safe_getitem | apply safe_subscript | apply safe_setitem
                | apply safe_Dto | apply safe_tags_of | apply safe_region_of
                | apply safe_url_of | apply safe_url_of_id | apply safe_py_list
                | apply safe_repair_item
                | apply safe_assign
                | apply safe_for_values; intros ?
                | apply safe_for_each; intros ?
                | apply safe_except_KeyError; [exact I |]
                | apply safe_rbind; [| intros ?] ]).

Lemma safe_list_request_of (type : dto_type) query : safe (list_request_of type query).
Proof.
  destruct type; cbn [list_request_of];
    unfold champion_list_request, mastery_list_request, rune_list_request,
      item_list_request, map_list_request, summoner_spell_list_request; safety.
Qed.

Lemma safe_list_stamp_of (type : dto_type) query data :
  safe (list_stamp_of type query data).
Proof.
  destruct type; cbn [list_stamp_of];
    unfold champion_list_stamp, mastery_list_stamp, rune_list_stamp,
      item_list_stamp, map_list_stamp, summoner_spell_list_stamp; safety.
Qed.

Lemma safe_plain_request_of (type : plain_type) query : safe (plain_request_of type query).
Proof.
  destruct type; cbn [plain_request_of];
    unfold versions_request, realms_request, language_request,
      language_strings_request, profile_icons_request; safety.
Qed.

Lemma safe_plain_stamp_of (type : plain_type) query data :
  safe (plain_stamp_of type query data).
Proof.
  destruct type; cbn [plain_stamp_of];
    unfold versions_stamp, realms_stamp, language_stamp,
      language_strings_stamp, profile_icons_stamp; safety.
Qed.

Lemma safe_platform_params_of (b : platform_body) query :
  safe (platform_params_of b query).
Proof.
  destruct b; cbn [platform_params_of];
    unfold many_champion_list_params, many_mastery_list_params, many_rune_list_params,
      many_item_list_params, many_summoner_spell_list_params, many_realms_params,
      many_language_params, many_language_strings_params, many_profile_icons_params;
    safety.
Qed.

Lemma safe_platform_stamp_of (b : platform_body) query p data :
  safe (platform_stamp_of b query p data).
Proof.
  destruct b; cbn [platform_stamp_of];
    unfold many_champion_list_stamp, many_mastery_list_stamp, many_rune_list_stamp,
      many_item_list_stamp, many_summoner_spell_list_stamp, many_realms_stamp,
      many_language_stamp, many_language_strings_stamp, many_profile_icons_stamp;
    safety.
Qed.

Lemma safe_generator_body_of py_repr (b : generator_body) query data id :
  safe (generator_body_of py_repr b query data id).
Proof.
  rewrite generator_body_frame. unfold generator_body_with.
  apply safe_rbind.
  { apply safe_except_KeyError; [exact I |]. safety. }
  intros record. safety.
  destruct b; cbn [repair_of]; safety.
Qed.

Lemma safe_cast {A B} (e : exn) : safe (@Raise A e) -> safe (@Raise B e).
Proof. intros H e' He. injection He as <-. apply H. reflexivity. Qed.

(** The computations on the service. *)
Lemma safe_run_bind {A B} (m : M A) (k : A -> M B) :
  safe_run m -> (forall a, safe_run (k a)) -> safe_run (bind m k).
Proof.
  intros Hm Hk s. unfold bind. specialize (Hm s).
  destruct (m s) as [[a | e] s1]; cbn [fst] in *; [apply Hk | exact (safe_cast e Hm)].
Qed.

Lemma safe_run_lift {A} (r : result A) : safe r -> safe_run (lift r).
Proof. intros Hr s. exact Hr. Qed.

Lemma safe_run_ret {A} (a : A) : safe_run (ret a).
Proof. intros s. apply safe_Ok. Qed.

Lemma safe_run_raise {A} (e : exn) : translated e -> safe_run (@raise A e).
Proof. intros He s. apply safe_Raise, He. Qed.

Lemma safe_run_record_assign r k rhs : safe rhs -> safe_run (record_assign r k rhs).
Proof.
  intros Hr s. unfold record_assign.
  destruct rhs as [v | e]; [| exact (safe_cast e Hr)].
  pose proof (safe_setitem (record_load r s) k v) as Hs.
  destruct (setitem (record_load r s) k v) as [rec | e];
    [apply safe_Ok | exact (safe_cast e Hs)].
Qed.

Lemma safe_run_stamp_record_with included r query :
  safe_run (stamp_record_with included r query).
Proof.
  unfold stamp_record_with.
  apply safe_run_bind; [apply safe_run_record_assign, safe_region_of | intros _].
  apply safe_run_bind; [apply safe_run_record_assign, safe_getitem | intros _].
  destruct included.
  - apply safe_run_bind; [apply safe_run_record_assign, safe_getitem | intros _].
    apply safe_run_record_assign, safe_getitem.
  - apply safe_run_record_assign, safe_getitem.
Qed.

Section Errors.

Variable transport : list request -> request -> response.
Variable request_by_id : bool.
Variable h : list string -> Z.
Variable py_repr : value -> string.

(** The translation itself: what [_get] raises comes out of [try_get] as
    [NotFoundError]. *)
Lemma safe_run_try_get url params query bucket :
  safe_run (try_get transport url params query bucket).
Proof.
  intros s. unfold try_get, _get.
  pose proof (safe_getitem query "platform") as Hp.
  destruct (getitem query "platform") as [platform | e]; [| exact Hp].
  destruct (transport _ _); cbn [fst]; [apply safe_Raise; exact I | apply safe_Ok].
Qed.

Lemma safe_run_cached_list type validator request_of bucket stamp query context :
  safe (validator query context) ->
  (forall q, safe (request_of q)) ->
  (forall q data, safe (stamp q data)) ->
  safe_run (cached_list transport h type validator request_of bucket stamp
              query context).
Proof.
  intros Hv Hr Hs. unfold cached_list.
  apply safe_run_bind; [apply safe_run_lift, Hv | intros q].
  apply safe_run_bind.
  { intros s. unfold cache_get. destruct (as_key _);
      [apply safe_Ok | apply safe_Raise; exact I]. }
  intros [l |]; [apply safe_run_ret |].
  apply safe_run_bind; [apply safe_run_lift, Hr | intros req].
  apply safe_run_bind; [apply safe_run_try_get | intros data].
  apply safe_run_bind; [apply safe_run_lift, Hs | intros d].
  apply safe_run_bind; [intros s; apply safe_Ok | intros l].
  apply safe_run_bind; [| intros _; apply safe_run_ret].
  intros s. unfold cache_set. destruct (as_key _);
    [apply safe_Ok | apply safe_Raise; exact I].
Qed.

Lemma safe_run_fetch_by_id request_of bucket stamp query :
  safe (request_of query) ->
  (forall data, safe (stamp query data)) ->
  safe_run (fetch_by_id transport request_of bucket stamp query).
Proof.
  intros Hr Hs. unfold fetch_by_id.
  apply safe_run_bind; [apply safe_run_lift, Hr | intros req].
  apply safe_run_bind; [apply safe_run_try_get | intros data].
  apply safe_run_bind; [apply safe_run_lift, Hs | intros d]. apply safe_run_ret.
Qed.

Lemma safe_run_by_id_of (type : dto_type) query :
  safe_run (by_id_of transport py_repr type query).
Proof.
  destruct type; cbn [by_id_of]; try apply safe_run_ret;
    apply safe_run_fetch_by_id;
    unfold champion_request, mastery_request, rune_request, item_request,
      summoner_spell_request, champion_stamp, mastery_stamp, rune_stamp, item_stamp,
      summoner_spell_stamp; intros; safety.
Qed.

Lemma safe_run_by_list_or_id validator get_list included by_id query context :
  safe (validator query context) ->
  (forall q, safe_run (get_list q context)) ->
  (forall q, safe_run (by_id q)) ->
  safe_run (by_list_or_id request_by_id validator get_list
              (stamp_record_with included) by_id query context).
Proof.
  intros Hv Hl Hid. unfold by_list_or_id.
  apply safe_run_bind; [apply safe_run_lift, Hv | intros q].
  destruct (request_by_id || contains "name" q); [| apply Hid].
  apply safe_run_bind; [apply Hl | intros l].
  apply safe_run_bind.
  { intros s. unfold data_values. cbn [fst].
    apply safe_rbind; [apply safe_records_of | intros d; apply safe_Ok]. }
  intros dtos. apply safe_run_bind.
  { apply safe_run_lift.
    destruct (contains "id" q).
    - apply safe_rbind; [apply safe_getitem | intros id].
      apply safe_find_matching_attribute.
    - destruct (contains "name" q); [| apply safe_Raise; exact I].
      apply safe_rbind; [apply safe_getitem | intros name].
      apply safe_find_matching_attribute. }
  intros [i |]; [| apply safe_run_raise; exact I].
  apply safe_run_bind; [apply safe_run_stamp_record_with | intros _].
  intros s. unfold record_dto. cbn [fst].
  apply safe_rbind; [apply safe_Dto | intros d; apply safe_Ok].
Qed.

Lemma safe_run_get (type : dto_type) query context :
  tame context ->
  safe_run (get transport request_by_id h py_repr type query context).
Proof.
  intros Ht.
  assert (Hlist : forall t q,
            safe_run (cached_list transport h t (validator_of t) (list_request_of t)
                        (list_bucket_of t) (list_stamp_of t) q context)).
  { intros t q. apply safe_run_cached_list.
    - apply safe_validator_of, Ht.
    - apply safe_list_request_of.
    - apply safe_list_stamp_of. }
  destruct (is_list type) eqn:Hl.
  - rewrite (get_list_frame transport request_by_id h py_repr type Hl).
    unfold returning_reference.
    apply safe_run_bind; [apply Hlist | intros l; apply safe_run_ret].
  - rewrite (get_single_frame transport request_by_id h py_repr type Hl).
    unfold returning_value.
    apply safe_run_bind; [| intros v; apply safe_run_ret].
    apply safe_run_by_list_or_id.
    + apply safe_validator_of, Ht.
    + intros q. apply Hlist.
    + apply safe_run_by_id_of.
Qed.

Lemma safe_run_get_many (type : dto_type) operation query context :
  tame context ->
  get_many transport type = Some operation ->
  safe_run (operation query context).
Proof.
  intros Ht.
  assert (Hframe : forall validator request_of bucket b,
    safe (validator query context) ->
    (forall q, safe (request_of q)) ->
    safe_run (let* query := lift (validator query context) in
              let* request := lift (request_of query) in
              let* data := try_get transport (fst request) (snd request) query bucket in
              let* ids := lift (let* ids := getitem query "ids" in py_list ids)%result in
              ret {| body := b; g_query := query; g_data := data;
                     g_ids := ids; g_finished := false |})%M).
  { intros validator request_of bucket b Hv Hr.
    apply safe_run_bind; [apply safe_run_lift, Hv | intros q].
    apply safe_run_bind; [apply safe_run_lift, Hr | intros req].
    apply safe_run_bind; [apply safe_run_try_get | intros data].
    apply safe_run_bind; [apply safe_run_lift; safety | intros ids].
    apply safe_run_ret. }
  destruct type; cbn [get_many]; intros H; try discriminate; injection H as <-;
    apply Hframe;
    try (apply safe_validate; safe_requirements);
    intros q;
    unfold many_champion_request, many_mastery_request, many_rune_request,
      many_item_request, many_summoner_spell_request; safety.
Qed.

Lemma safe_run_get_plain (type : plain_type) query context :
  tame context -> safe_run (get_plain transport type query context).
Proof.
  intros Ht. rewrite get_plain_frame. unfold plain_get.
  apply safe_run_bind; [apply safe_run_lift, safe_plain_validator_of, Ht | intros q].
  apply safe_run_bind; [apply safe_run_lift, safe_plain_request_of | intros req].
  apply safe_run_bind; [apply safe_run_try_get | intros data].
  apply safe_run_bind; [apply safe_run_lift, safe_plain_stamp_of | intros d].
  apply safe_run_ret.
Qed.

Lemma next_translated (g : generator) : outcome_translated (fst (next py_repr g)).
Proof.
  unfold next. destruct (g_finished g); [exact I |].
  destruct (g_ids g) as [| id ids]; [exact I |].
  pose proof (safe_generator_body_of py_repr (body g) (g_query g) (g_data g) id) as Hs.
  destruct (generator_body_of _ _ _ _ _) as [[data dto] | e]; [exact I |].
  apply Hs. reflexivity.
Qed.

Lemma next_platform_translated (Platform_of : string -> option Platform)
  (g : platform_generator) (s : service) :
  outcome_translated (fst (fst (next_platform transport Platform_of py_repr g s))).
Proof.
  unfold next_platform. destruct (pg_finished g); [exact I |].
  destruct (pg_platforms g) as [| x rest]; [exact I |].
  rewrite platform_body_run. unfold to_Platform.
  destruct x as [a | | |]; try exact I.
  destruct a as [| | | name |]; try exact I.
  destruct (Platform_of (upper name)) as [p |]; [| exact I].
  cbv zeta. destruct (transport _ _) as [msg | data]; [exact I |].
  pose proof (safe_platform_stamp_of (pg_body g) (pg_query g) p data) as Hs.
  destruct (platform_stamp_of _ _ _ _) as [dto | e]; [exact I |].
  apply Hs. reflexivity.
Qed.

End Errors.

(** X14.  The [APINotFoundError] of the transport never leaves the
    service: as long as the pipeline of the context does not raise it when
    it is asked for a default version, no [get], no [get_many] and no pull
    from a generator raises [APINotFoundError]; what the transport raises
    comes out as [NotFoundError]. *)
Theorem APINotFoundError_never_leaves_the_service
  (transport : list request -> request -> response) (request_by_id : bool)
  (h : list string -> Z) (py_repr : value -> string)
  (Platform_of : string -> option Platform)
  (context : PipelineContext) (query : dict) (s : service) (msg : string) :
  tame context ->
  (forall type,
     fst (get transport request_by_id h py_repr type query context s)
     <> Raise (APINotFoundError msg))
  /\ (forall type,
        fst (get_plain transport type query context s) <> Raise (APINotFoundError msg))
  /\ (forall type operation,
        get_many transport type = Some operation ->
        fst (operation query context s) <> Raise (APINotFoundError msg))
  /\ (forall type operation,
        get_many_platforms type = Some operation ->
        fst (operation query context s) <> Raise (APINotFoundError msg))
  /\ (forall g, fst (next py_repr g) <> Raised (APINotFoundError msg))
  /\ (forall g,
        fst (fst (next_platform transport Platform_of py_repr g s))
        <> Raised (APINotFoundError msg)).
Proof.
  intros Ht. repeat split.
  - intros type H.
    exact (safe_run_get transport request_by_id h py_repr type query context Ht s _ H).
  - intros type H. exact (safe_run_get_plain transport type query context Ht s _ H).
  - intros type operation Hop H.
    exact (safe_run_get_many transport type operation query context Ht Hop s _ H).
  - intros type operation Hop H.
    apply get_many_platforms_frame in Hop as [b ->].
    revert H. unfold many_platforms, bind, lift, ret.
    pose proof (safe_platform_validator_of b query context Ht) as Hv.
    destruct (platform_validator_of b query context) as [q | e];
      [| cbn [fst]; intros H; injection H as ->; exact (Hv _ eq_refl)].
    pose proof (safe_platform_params_of b q) as Hp.
    destruct (platform_params_of b q) as [params | e];
      [| cbn [fst]; intros H; injection H as ->; exact (Hp _ eq_refl)].
    assert (Hl : safe (let* platforms := getitem q "platforms" in
                       py_list platforms)%result) by safety.
    destruct (let* platforms := getitem q "platforms" in py_list platforms)%result
      as [ps | e];
      [discriminate | cbn [fst]; intros H; injection H as ->; exact (Hl _ eq_refl)].
  - intros g H. pose proof (next_translated py_repr g) as Hn.
    rewrite H in Hn. exact Hn.
  - intros g H.
    pose proof (next_platform_translated transport py_repr Platform_of g s) as Hn.
    rewrite H in Hn. exact Hn.
Qed.

Lemma APINotFoundError_never_leaves_the_service_witness :
  let transport := fun (_ : list request) (_ : request) => NotFound404 "Data not found" in
  let query := [("id", VInt 17); ("platform", VPlatform NA)] in
  fst (get transport false example_hash example_repr ChampionDto query example_context init)
  = Raise (NotFoundError "Data not found")
  /\ forall msg type,
       fst (get transport false example_hash example_repr type query example_context init)
       <> Raise (APINotFoundError msg).
Proof.
  cbv zeta. split; [reflexivity |]. intros msg.
  apply (APINotFoundError_never_leaves_the_service
           (fun _ _ => NotFound404 "Data not found") false example_hash example_repr
           example_platforms example_context
           [("id", VInt 17); ("platform", VPlatform NA)] init msg).
  intros q e H. discriminate.
Defined.

(** * What a fingerprint tells about its query *)
















(** * The elements of [get_many] by ids *)

Lemma carries_refl (r : dict) : carries r r.
Proof. intros k v H _ _. exact H. Qed.

Lemma carries_trans (r1 r2 r3 : dict) : carries r1 r2 -> carries r2 r3 -> carries r1 r3.
Proof. intros H12 H23 k v H Hs Hn. apply H23; auto. Qed.

Lemma carries_stamped (r : dict) (region version locale included : value) :
  carries r (stamped r region version locale included).
Proof.
  intros k v H Hs _. unfold stamped.
  rewrite !dict_get_set_other; [exact H | | | |]; intros <-; discriminate.
Qed.

Lemma with_default_field_keeps (d : dict) (k : string) (dv : value) (k' : string)
  (v : value) :
  dict_get d k' = Some v -> dict_get (with_default_field d k dv) k' = Some v.
Proof.
  intros H. unfold with_default_field, contains.
  destruct (dict_get d k) as [v0 |] eqn:Hk; [exact H |].
  rewrite dict_get_set_other; [exact H |]. intros <-. congruence.
Qed.

Lemma carries_repaired (d : dict) (id : value) : carries d (repaired d id).
Proof.
  intros k v H _ Hname. unfold repaired.
  repeat apply with_default_field_keeps.
  destruct (py_eq id (VInt 3632)); [| exact H].
  rewrite dict_get_set_other; [exact H |]. intros <-. apply Hname. reflexivity.
Qed.

Section Order.

Variable py_repr : value -> string.

(** One run of the body of a generator: the record of the id, stamped and
    repaired, is yielded and written back. *)
Lemma generator_body_carries b query top d id data' dto :
  dict_get top "data" = Some (VDict d) ->
  generator_body_of py_repr b query (VDict top) id = Ok (data', dto) ->
  exists key r x,
    key_of py_repr b id = VStr key /\
    dict_get d key = Some (VDict r) /\
    dto = VDict x /\
    carries r x /\
    data' = VDict (dict_set top "data" (VDict (dict_set d key (VDict x)))).
Proof.
  intros Hd. rewrite generator_body_frame. unfold generator_body_with, store_record.
  cbn [subscript]. rewrite (getitem_Some _ _ _ Hd). cbn [rbind]. intros H.
  apply rbind_Ok in H as (record & Hlookup & H).
  apply stamp4_then in H
    as (r & region & version & locale & included & -> & _ & _ & _ & _ & H).
  apply rbind_Ok in H as (r5 & Hrepair & H). apply rbind_Ok in H as (x & Hdto & H).
  injection H as <- <-.
  destruct (key_of py_repr b id) as [[| | | key |] | | |];
    cbn [subscript except_KeyError] in Hlookup; try discriminate.
  unfold getitem in Hlookup.
  destruct (dict_get d key) as [rec |] eqn:Hrec; [| discriminate].
  cbn [except_KeyError] in Hlookup. injection Hlookup as ->.
  assert (Hx : r5 = VDict x /\ carries r x).
  { destruct b; cbn [repair_of] in Hrepair.
    4: { apply repair_item_Ok in Hrepair as (d0 & id0 & Hd0 & _ & ->).
         injection Hd0 as <-. cbn [Dto] in Hdto. injection Hdto as <-.
         split; [reflexivity |].
         eapply carries_trans; [apply carries_stamped | apply carries_repaired]. }
    all: injection Hrepair as <-; cbn [Dto] in Hdto; injection Hdto as <-;
      split; [reflexivity | apply carries_stamped]. }
  destruct Hx as [-> Hcarries].
  exists key, r, x. cbn [store_back]. auto 10.
Qed.

(** The elements follow the ids, over a payload whose records may have
    been changed by the pulls before. *)
Lemma pulled_carries (n : nat) (g : generator) (top d d0 : dict) (dto : value) :
  g_finished g = false ->
  g_data g = VDict top ->
  dict_get top "data" = Some (VDict d) ->
  (forall key r, dict_get d key = Some (VDict r) ->
                 exists r0, dict_get d0 key = Some (VDict r0) /\ carries r0 r) ->
  pull py_repr (S n) g !! n = Some (Yield dto) ->
  exists id key r0 x,
    g_ids g !! n = Some id /\
    key_of py_repr (body g) id = VStr key /\
    dict_get d0 key = Some (VDict r0) /\
    dto = VDict x /\
    carries r0 x.
Proof.
  revert g top d dto. induction n as [| n IH]; intros g top d dto Hf Hdata Hd Hinv.
  - cbn [pull]. unfold next. rewrite Hf.
    destruct (g_ids g) as [| id ids]; [discriminate |].
    rewrite Hdata.
    destruct (generator_body_of py_repr (body g) (g_query g) (VDict top) id)
      as [[data' dto'] | e] eqn:Hbody; [| discriminate].
    cbn. intros H. injection H as <-.
    apply (generator_body_carries _ _ _ d) in Hbody
      as (key & r & x & Hkey & Hr & -> & Hcarries & _); [| exact Hd].
    destruct (Hinv key r Hr) as (r0 & Hr0 & Hc0).
    exists id, key, r0, x. repeat split; try assumption; try reflexivity.
    eapply carries_trans; eassumption.
  - change (pull py_repr (S (S n)) g)
      with (let (o, g') := next py_repr g in o :: pull py_repr (S n) g').
    destruct (next py_repr g) as [o g'] eqn:Hn. intros H.
    change (pull py_repr (S n) g' !! n = Some (Yield dto)) in H.
    unfold next in Hn. rewrite Hf in Hn.
    destruct (g_ids g) as [| id ids] eqn:Hids.
    { injection Hn as _ <-.
      rewrite pull_finished in H by reflexivity.
      apply list_elem_of_lookup_2, list_elem_of_In, repeat_spec in H. discriminate. }
    rewrite Hdata in Hn.
    destruct (generator_body_of py_repr (body g) (g_query g) (VDict top) id)
      as [[data' dto'] | e] eqn:Hbody.
    + injection Hn as _ <-.
      apply (generator_body_carries _ _ _ d) in Hbody
        as (key & r & x & Hkey & Hr & _ & Hcarries & ->); [| exact Hd].
      apply (IH _ (dict_set top "data" (VDict (dict_set d key (VDict x))))
               (dict_set d key (VDict x))) in H;
        [| reflexivity | reflexivity | apply dict_get_set_same |].
      * cbn [g_ids body] in H.
        destruct H as (id' & key' & r0 & x' & Hid' & Hkey' & Hr0 & Hx' & Hc').
        exists id', key', r0, x'. auto 10.
      * intros key' r'. destruct (String.eqb key key') eqn:Hk.
        -- apply String.eqb_eq in Hk as <-. rewrite dict_get_set_same.
           intros Heq. injection Heq as <-.
           destruct (Hinv key r Hr) as (r0 & Hr0 & Hc0).
           exists r0. split; [exact Hr0 |]. eapply carries_trans; eassumption.
        -- apply String.eqb_neq in Hk. rewrite dict_get_set_other by exact Hk.
           apply Hinv.
    + injection Hn as _ <-.
      rewrite pull_finished in H by reflexivity.
      apply list_elem_of_lookup_2, list_elem_of_In, repeat_spec in H. discriminate.
Qed.

End Order.

(** X16.  The elements of a [get_many] by ids follow the ids: the element
    that the [n]-th pull yields is made of the record that the payload
    holds for the [n]-th id of the query, under the key of that id; it has
    every field of that record with its value, but for the stamps and the
    name. *)
Theorem get_many_elements_follow_the_ids
  (py_repr : value -> string) (g : generator) (top d : dict) (n : nat) (dto : value) :
  g_finished g = false ->
  g_data g = VDict top ->
  dict_get top "data" = Some (VDict d) ->
  pull py_repr (S n) g !! n = Some (Yield dto) ->
  exists id key r x,
    g_ids g !! n = Some id /\
    key_of py_repr (body g) id = VStr key /\
    dict_get d key = Some (VDict r) /\
    dto = VDict x /\
    carries r x.
Proof.
  intros Hf Hdata Hd H.
  apply (pulled_carries py_repr n g top d d dto Hf Hdata Hd); [| exact H].
  intros key r Hr. exists r. split; [exact Hr | apply carries_refl].
Qed.

Lemma get_many_elements_follow_the_ids_witness :
  let g := example_generator champion_generator [VInt 17; VInt 1; VInt 17] in
  pull example_repr 3 g !! 2%nat
  = Some (Yield (VDict [("id", VInt 17); ("name", VStr "Teemo"); ("region", VStr "NA");
                        ("version", VStr "7.2"); ("locale", VStr "en_US");
                        ("includedData", VSet ["all"])]))
  /\ exists id key r x,
       g_ids g !! 2%nat = Some id /\
       key_of example_repr (body g) id = VStr key /\
       dict_get [("1", VDict [("id", VInt 1); ("name", VStr "Annie");
                              ("version", VStr "0.0")]);
                 ("17", VDict [("id", VInt 17); ("name", VStr "Teemo")])] key
       = Some (VDict r) /\
       VDict [("id", VInt 17); ("name", VStr "Teemo"); ("region", VStr "NA");
              ("version", VStr "7.2"); ("locale", VStr "en_US");
              ("includedData", VSet ["all"])] = VDict x /\
       carries r x.
Proof.
  cbv zeta. split; [reflexivity |].
  apply (get_many_elements_follow_the_ids example_repr
           (example_generator champion_generator [VInt 17; VInt 1; VInt 17])
           [("type", VStr "champion"); ("version", VStr "7.2");
            ("data", VDict [("1", VDict [("id", VInt 1); ("name", VStr "Annie");
                                         ("version", VStr "0.0")]);
                            ("17", VDict [("id", VInt 17); ("name", VStr "Teemo")])])]
           _ 2); reflexivity.
Defined.

(** * A [get] by id that does not go through the list *)

Section Direct.

Variable transport : list request -> request -> response.
Variable py_repr : value -> string.



End Direct.



(** * Edges of the cached operations *)

Lemma with_default_field_id (d : dict) (k : string) (v : value) :
  contains k d = true -> with_default_field d k v = d.
Proof. intros H. unfold with_default_field. rewrite H. reflexivity. Qed.

Lemma contains_repaired (d : dict) (id : value) (k : string) :
  In k ["tags"; "depth"; "colloq"; "plaintext"] -> contains k (repaired d id) = true.
Proof.
  intros Hin. unfold repaired. cbn [In] in Hin.
  destruct Hin as [<- | [<- | [<- | [<- | []]]]].
  - rewrite !contains_with_default_other by discriminate. apply contains_with_default.
  - rewrite !contains_with_default_other by discriminate. apply contains_with_default.
  - rewrite !contains_with_default_other by discriminate. apply contains_with_default.
  - apply contains_with_default.
Qed.

Lemma repaired_repaired (d : dict) (id : value) :
  repaired (repaired d id) id = repaired d id.
Proof.
  unfold repaired at 1.
  assert (Hname : (if py_eq id (VInt 3632)
                   then dict_set (repaired d id) "name" (VStr EmptyString)
                   else repaired d id) = repaired d id).
  { destruct (py_eq id (VInt 3632)) eqn:Hid; [| reflexivity].
    apply dict_set_id.
    destruct (repaired_fields d id) as (Hn & _). rewrite Hn, Hid. reflexivity. }
  rewrite Hname.
  rewrite (with_default_field_id _ "tags") by (apply contains_repaired; cbn; auto).
  rewrite (with_default_field_id _ "depth") by (apply contains_repaired; cbn; auto).
  rewrite (with_default_field_id _ "colloq") by (apply contains_repaired; cbn; auto).
  apply with_default_field_id, contains_repaired. cbn. auto.
Qed.

(** X18.  The repair of an item record is idempotent: a record that came
    out of the repair rules goes through them unchanged, so the records of
    a payload that are repaired again at every pull of the same id stay as
    the first repair left them. *)
Theorem repair_item_is_idempotent (item item' : value) :
  repair_item item = Ok item' -> repair_item item' = Ok item'.
Proof.
  intros H. apply repair_item_Ok in H as (d & id & -> & Hid & ->).
  assert (Hid' : dict_get (repaired d id) "id" = Some id).
  { apply (carries_repaired d id "id" id Hid); [reflexivity | discriminate]. }
  rewrite (repair_item_dict (repaired d id) id Hid'), repaired_repaired. reflexivity.
Qed.

Lemma repair_item_is_idempotent_witness :
  let item := VDict [("id", VInt 3632); ("name", VStr "Placeholder");
                     ("tags", VList [VStr "Trinket"])] in
  let item' := VDict [("id", VInt 3632); ("name", VStr EmptyString);
                      ("tags", VList [VStr "Trinket"]); ("depth", VInt 1);
                      ("colloq", VStr EmptyString); ("plaintext", VStr EmptyString)] in
  repair_item item = Ok item' /\ repair_item item' = Ok item'.
Proof.
  cbv zeta. split; [reflexivity |].
  apply (repair_item_is_idempotent
           (VDict [("id", VInt 3632); ("name", VStr "Placeholder");
                   ("tags", VList [VStr "Trinket"])])).
  reflexivity.
Defined.





(** X20.  A [get] through the list that finds nothing raises
    [NotFoundError] with an empty message and keeps the list: when no
    record of the list has the id or the name of the query, the [get] of
    the single entity raises [NotFoundError], and the service is left as
    the [get] of the list left it, with the list in the cache. *)
Theorem get_from_the_list_finds_nothing
  (transport : list request -> request -> response) (request_by_id : bool)
  (h : list string -> Z) (py_repr : value -> string)
  (type : dto_type) (query query' : dict) (context : PipelineContext)
  (s s1 : service) (l : loc) (d : dict) :
  is_list type = false ->
  validator_of type query context = Ok query' ->
  request_by_id || contains "name" query' = true ->
  get transport request_by_id h py_repr (list_of type) (list_query query') context s
  = (Ok (Reference l), s1) ->
  records_of (load l s1) = Ok d ->
  find_in_list query' (values d) = Ok None ->
  get transport request_by_id h py_repr type query context s
  = (Raise (NotFoundError EmptyString), s1)
  /\ get transport request_by_id h py_repr (list_of type) (list_query query') context s1
     = (Ok (Reference l), s1).
Proof.
  intros Hl Hv Hc Hlist Hd Hf.
  assert (Hll : is_list (list_of type) = true) by (destruct type; try discriminate; reflexivity).
  rewrite (get_list_frame transport request_by_id h py_repr (list_of type) Hll) in *.
  apply returning_reference_Ok in Hlist. split.
  - rewrite (get_single_frame transport request_by_id h py_repr type Hl).
    unfold returning_value, by_list_or_id, bind, lift. rewrite Hv, Hc.
    unfold list_query in Hlist. cbv zeta in Hlist |- *. rewrite Hlist.
    unfold data_values. rewrite Hd. cbn [rbind].
    unfold find_in_list in Hf. rewrite Hf. reflexivity.
  - apply cached_list_Ok in Hlist as Hslot.
    destruct Hslot as (q'' & k & Hv'' & Hk & Hcases).
    assert (Hs : slot_get (_cache s1 (list_of type)) k = Some l).
    { destruct Hcases as [[Hslot ->] | (_ & req & platform & data & top &
                                        _ & _ & _ & _ & -> & ->)];
        [exact Hslot | apply stored_slot]. }
    unfold returning_reference, bind.
    rewrite (cached_list_hit transport h _ _ _ _ _ _ _ _ q'' k l Hv'' Hk Hs).
    reflexivity.
Qed.

Lemma get_from_the_list_finds_nothing_witness :
  let query := [("name", VStr "Urf"); ("platform", VPlatform NA)] in
  let s1 := snd (get example_transport false example_hash example_repr ChampionDto
                   query example_context init) in
  get example_transport false example_hash example_repr ChampionDto query
    example_context init
  = (Raise (NotFoundError EmptyString), s1)
  /\ length (calls s1) = 1
  /\ get example_transport false example_hash example_repr ChampionDto query
       example_context s1
     = (Raise (NotFoundError EmptyString), s1).
Proof.
  cbv zeta.
  destruct (get_from_the_list_finds_nothing example_transport false example_hash
              example_repr ChampionDto
              [("name", VStr "Urf"); ("platform", VPlatform NA)]
              [("name", VStr "Urf"); ("platform", VPlatform NA); ("version", VStr "7.1");
               ("locale", VStr "en_US"); ("includedData", VSet ["all"])]
              example_context init
              (snd (get example_transport false example_hash example_repr ChampionDto
                      [("name", VStr "Urf"); ("platform", VPlatform NA)]
                      example_context init))
              0%nat
              [("1", VDict [("id", VInt 1); ("name", VStr "Annie"); ("version", VStr "7.1");
                            ("region", VStr "NA"); ("locale", VStr "en_US");
                            ("includedData", VSet ["all"])]);
               ("17", VDict [("id", VInt 17); ("name", VStr "Teemo"); ("region", VStr "NA");
                             ("version", VStr "7.1"); ("locale", VStr "en_US");
                             ("includedData", VSet ["all"])])]
              eq_refl eq_refl eq_refl eq_refl eq_refl eq_refl) as [Hget _].
  split; [exact Hget |]. split; [reflexivity |]. reflexivity.
Defined.

(** * The default version *)

Lemma validate1_has_Ok (alternatives : list (string * type_)) (query query' : dict)
  (context : PipelineContext) :
  validate1 (has alternatives) query context = Ok query' -> query' = query.
Proof.
  cbn [validate1].
  destruct (List.filter _ _) as [| [k t] [| kt rest]]; try discriminate.
  destruct (dict_get query k); [| discriminate].
  destruct (isinstance _ _); [| discriminate]. intros H. injection H as <-. reflexivity.
Qed.

Lemma validate1_dict_get (r : requirement) (query query' : dict)
  (context : PipelineContext) (k : string) :
  validate1 r query context = Ok query' ->
  match r with has _ => True | can_have key _ _ => key <> k end ->
  dict_get query' k = dict_get query k.
Proof.
  destruct r as [alternatives | key as_ with_default].
  - intros H _. apply validate1_has_Ok in H as ->. reflexivity.
  - cbn [validate1]. intros H Hk.
    destruct (dict_get query key).
    + destruct as_ as [t |]; [destruct (isinstance _ _); [| discriminate] |];
        injection H as <-; reflexivity.
    + destruct with_default as [[f | v] |].
      * apply rbind_Ok in H as (v & _ & H). injection H as <-.
        apply dict_get_set_other, Hk.
      * injection H as <-. apply dict_get_set_other, Hk.
      * injection H as <-. reflexivity.
Qed.

Lemma validate_dict_get (rs : list requirement) (query query' : dict)
  (context : PipelineContext) (k : string) :
  Forall (fun r => match r with has _ => True | can_have key _ _ => key <> k end) rs ->
  validate rs query context = Ok query' ->
  dict_get query' k = dict_get query k.
Proof.
  intros Hrs. revert query. induction Hrs as [| r rs Hr _ IH]; intros query;
    cbn [validate].
  - intros H. injection H as <-. reflexivity.
  - intros H. apply rbind_Ok in H as (q1 & H1 & H).
    rewrite (IH q1 H). apply (validate1_dict_get r query q1 context k H1 Hr).
Qed.

Lemma _get_default_version_Ok (query : dict) (context : PipelineContext) (version : value) :
  _get_default_version query context = Ok version ->
  exists pipeline platform realms,
    context = Some pipeline /\
    dict_get query "platform" = Some platform /\
    pipeline_get_RealmDto pipeline [("platform", platform)] = Ok realms /\
    subscript realms (VStr "v") = Ok version.
Proof.
  unfold _get_default_version. destruct context as [pipeline |]; [| discriminate].
  cbn [rbind]. intros H.
  apply rbind_Ok in H as (platform & Hp & H). apply rbind_Ok in H as (realms & Hr & H).
  apply getitem_Ok in Hp. exists pipeline, platform, realms. auto.
Qed.

(** The validators of the single entities fill a missing version with the
    default. *)
Lemma validator_of_default_version (type : dto_type) (query query' : dict)
  (context : PipelineContext) :
  is_list type = false ->
  dict_get query "version" = None ->
  validator_of type query context = Ok query' ->
  exists version,
    _get_default_version query context = Ok version /\
    dict_get query' "version" = Some version.
Proof.
  intros Hl Hversion.
  assert (Hframe : forall rest,
    Forall (fun r => match r with has _ => True | can_have key _ _ => key <> "version" end)
      rest ->
    validate (has [("id", Tint); ("name", Tstr)]
              :: has [("platform", TPlatform)]
              :: can_have "version" (Some Tstr) (Some (default_call _get_default_version))
              :: rest) query context = Ok query' ->
    exists version,
      _get_default_version query context = Ok version /\
      dict_get query' "version" = Some version).
  { intros rest Hrest H. cbn [validate] in H.
    apply rbind_Ok in H as (q1 & H1 & H). apply validate1_has_Ok in H1 as ->.
    apply rbind_Ok in H as (q2 & H2 & H). apply validate1_has_Ok in H2 as ->.
    apply rbind_Ok in H as (q3 & H3 & H).
    cbn [validate1] in H3. rewrite Hversion in H3.
    apply rbind_Ok in H3 as (version & Hdefault & H3). injection H3 as <-.
    exists version. split; [exact Hdefault |].
    rewrite (validate_dict_get rest _ query' context "version" Hrest H).
    apply dict_get_set_same. }
  destruct type; try discriminate; cbn [validator_of]; apply Hframe;
    repeat constructor; discriminate.
Qed.

(** X21.  The default version comes from the realm of the platform: when
    the query of a single entity has no version, a [get] that returns a
    dto has asked the pipeline of the context for the realm of the
    platform of the query, and the version on the dto is the [v] of that
    realm; without a pipeline such a [get] does not return. *)
Theorem default_version_comes_from_the_realm
  (transport : list request -> request -> response) (request_by_id : bool)
  (h : list string -> Z) (py_repr : value -> string)
  (type : dto_type) (query : dict) (context : PipelineContext)
  (s s' : service) (x : dict) :
  is_list type = false ->
  dict_get query "version" = None ->
  get transport request_by_id h py_repr type query context s
  = (Ok (Value (VDict x)), s') ->
  exists pipeline platform realms version,
    context = Some pipeline /\
    dict_get query "platform" = Some platform /\
    pipeline_get_RealmDto pipeline [("platform", platform)] = Ok realms /\
    subscript realms (VStr "v") = Ok version /\
    dict_get x "version" = Some version.
Proof.
  intros Hl Hversion H.
  apply (single_get_stamps transport request_by_id h py_repr type _ _ _ _ _ Hl) in H
    as (query' & region & version & locale & Hv & _ & Hver & _ & (_ & Hx & _) & _).
  apply (validator_of_default_version type query query' context Hl Hversion) in Hv
    as (version' & Hdefault & Hq').
  apply getitem_Ok in Hver. rewrite Hq' in Hver. injection Hver as ->.
  apply _get_default_version_Ok in Hdefault
    as (pipeline & platform & realms & Hc & Hp & Hr & Hsub).
  exists pipeline, platform, realms, version. auto 10.
Qed.

Lemma default_version_comes_from_the_realm_witness :
  let query := [("id", VInt 17); ("platform", VPlatform NA)] in
  exists x pipeline platform realms version,
    fst (get example_transport true example_hash example_repr ChampionDto query
           example_context init) = Ok (Value (VDict x)) /\
    example_context = Some pipeline /\
    dict_get query "platform" = Some platform /\
    pipeline_get_RealmDto pipeline [("platform", platform)] = Ok realms /\
    subscript realms (VStr "v") = Ok version /\
    dict_get x "version" = Some version.
Proof.
  cbv zeta.
  destruct (default_version_comes_from_the_realm example_transport true example_hash
              example_repr ChampionDto [("id", VInt 17); ("platform", VPlatform NA)]
              example_context init
              (snd (get example_transport true example_hash example_repr ChampionDto
                      [("id", VInt 17); ("platform", VPlatform NA)] example_context init))
              [("id", VInt 17); ("name", VStr "Teemo"); ("region", VStr "NA");
               ("version", VStr "7.1"); ("locale", VStr "en_US");
               ("includedData", VSet ["all"])]
              eq_refl eq_refl eq_refl)
    as (pipeline & platform & realms & version & Hc & Hp & Hr & Hs & Hx).
  eexists _, pipeline, platform, realms, version.
  split; [reflexivity |]. auto 10.
Defined.
